(** * PersonSchedule: shift scheduling for a four-stage batch line

    A shallow embedding of the scheduling core of the repository
    (Dispensing_PS.py, Granulation_PS.py, Tab_PS.py, Coating_PS.py and
    Formulation_PS.py), and of the import statements that tie it to
    PS_GUI3.py, together with the properties its specification states
    about it.

    Conventions of the embedding.
    - Python integers are [Z]; Python floats (objective weights, the
      buffer ratio, the values the solver hands back in [varValue]) are
      idealised as rationals [Q], and so is the quotient of two integers:
      [nearest_binary64] relates an exact quotient to the binary64 number
      Python computes for it, and [float_quotient_ceiling] gives the range
      in which both have the same [math.ceil].
    - PuLP is an external library.  A model is recorded as the list of its
      declared variables, its objective and its constraints, each
      expression being a function of an assignment of the variables.  The
      solver is a black box: a function from models to a status and an
      assignment.  The solver objects the stage modules use are
      parameters of the development.
    - Standard output, the creation of a model and each call of the solver
      are recorded, in order, in a log that every function returns next to
      its result.
    - Loading a module is a run of its top-level statements against
      [sys.modules], in which a module being initialised is present with
      the names it has bound so far. *)

From Stdlib Require Import ZArith QArith Qround Qabs Qpower List String Bool Lia Lqa.
Import ListNotations.
Open Scope Z_scope.

(** ** Python values and built-ins used by the program *)

Module Py.

(** The two kinds of value that [solver_status] can hold. *)
Inductive value : Type :=
| Int (z : Z)
| Str (s : string).

(** [==] of Python: an [int] and a [str] are never equal. *)
Definition eqb (a b : value) : bool :=
  match a, b with
  | Int x, Int y => x =? y
  | Str s, Str t => String.eqb s t
  | _, _ => false
  end.

(** [!=] of Python. *)
Definition neb (a b : value) : bool := negb (eqb a b).

(** [range(n)]: empty when [n <= 0]. *)
Definition range (n : Z) : list Z := map Z.of_nat (seq 0 (Z.to_nat n)).

(** [sum] of integers. *)
Definition sum (l : list Z) : Z := fold_right Z.add 0 l.

(** [int(x)] of a float: truncation toward zero. *)
Definition int (q : Q) : Z := if Qle_bool 0 q then Qfloor q else Qceiling q.

(** [math.ceil]. *)
Definition ceil (q : Q) : Z := Qceiling q.

(** [a / b] on integers: true division. *)
Definition truediv (a b : Z) : Q := (inject_Z a / inject_Z b)%Q.

(** [s * n] on a string. *)
Fixpoint times (s : string) (n : nat) : string :=
  match n with
  | O => EmptyString
  | S k => String.append s (times s k)
  end.

(** [max] of the four arguments the program gives it. *)
Definition max4 (a b c d : Z) : Z := Z.max (Z.max (Z.max a b) c) d.

End Py.

(** ** Standard output, model construction and solver calls *)

(** A printed line: the pieces of an f-string, in order. *)
Inductive frag : Type :=
| Txt (s : string)
| Num (z : Z)
| Real (q : Q)
| Fixed1 (q : Q)
| Flag (b : bool)
| Val (v : Py.value)
| Counts (kv : list (string * Z)).

Inductive event : Type :=
| Print (line : list frag)
| NewProblem (name : string)
| SolverCall (name : string).

(** A computation that returns a value and appends to the log. *)
Definition Run (A : Type) : Type := (A * list event)%type.

Definition ret {A : Type} (x : A) : Run A := (x, []).

Definition bind {A B : Type} (m : Run A) (k : A -> Run B) : Run B :=
  let (x, l1) := m in
  let (y, l2) := k x in
  (y, l1 ++ l2).

Notation "x <- m ;; k" := (bind m (fun x => k))
  (at level 61, m at next level, right associativity).
Notation "m ;; k" := (bind m (fun _ => k))
  (at level 61, right associativity).

Definition print (line : list frag) : Run unit := (tt, [Print line]).

Definition prints (lines : list (list frag)) : Run unit := (tt, map Print lines).

Definition when (b : bool) (m : Run unit) : Run unit :=
  if b then m else ret tt.

Definition is_print (e : event) : bool :=
  match e with Print _ => true | _ => false end.

Definition is_solver_call (e : event) : bool :=
  match e with SolverCall _ => true | _ => false end.

(** The log shows neither a model nor a solver call. *)
Definition no_model (log : list event) : bool := forallb is_print log.

(** The models handed to the solver, by name, in order. *)
Definition solver_calls (log : list event) : list string :=
  flat_map (fun e => match e with SolverCall n => [n] | _ => [] end) log.

(** ** The PuLP interface *)

Module pulp.

Inductive shift : Type := Morning | Evening | Night.

Inductive resource : Type :=
| line | p3030 | p3090i | ima | solution | bosch | glatt.

(** The variables of the four models: [M_d], [E_p3030_d], ... are
    [Shift s r d]; then [Staff] and [dayUsed_d]. *)
Inductive LpVariable : Type :=
| Shift (s : shift) (r : resource) (d : Z)
| Staff
| dayUsed (d : Z).

Inductive LpCategory : Type :=
| LpBinary
| LpInteger (lowBound : option Z).

Definition assignment : Type := LpVariable -> Q.

Definition LpAffineExpression : Type := assignment -> Q.

(** [lpSum]. *)
Definition lpSum (l : list Q) : Q := fold_right Qplus 0%Q l.

Inductive label : Type :=
| Named (s : string)
| Indexed (s : string) (d : Z)
| Anonymous.

(** A constraint [lhs >= rhs]. *)
Record LpConstraint : Type := {
  c_label : label;
  c_lhs : LpAffineExpression;
  c_rhs : LpAffineExpression
}.

Record LpProblem : Type := {
  name : string;
  variables : list (LpVariable * LpCategory);
  objective : LpAffineExpression;
  constraints : list LpConstraint
}.

Inductive LpStatusT : Type :=
| LpStatusNotSolved
| LpStatusOptimal
| LpStatusInfeasible
| LpStatusUnbounded
| LpStatusUndefined.

(** The integer constants: what [model.solve] returns and [model.status] holds. *)
Definition status_code (st : LpStatusT) : Z :=
  match st with
  | LpStatusNotSolved => 0
  | LpStatusOptimal => 1
  | LpStatusInfeasible => -1
  | LpStatusUnbounded => -2
  | LpStatusUndefined => -3
  end.

(** The dictionary [pulp.LpStatus]. *)
Definition LpStatus (st : LpStatusT) : string :=
  match st with
  | LpStatusNotSolved => "Not Solved"
  | LpStatusOptimal => "Optimal"
  | LpStatusInfeasible => "Infeasible"
  | LpStatusUnbounded => "Unbounded"
  | LpStatusUndefined => "Undefined"
  end.

Record LpSolution : Type := {
  status : LpStatusT;
  varValue : assignment
}.

Definition Solver : Type := LpProblem -> LpSolution.

(** [pulp.LpProblem(name, pulp.LpMinimize)] followed by the [model += ...]
    statements: the finished model, its creation logged. *)
Definition new_problem (m : LpProblem) : Run LpProblem :=
  (m, [NewProblem (name m)]).

(** [model.solve(solver)]. *)
Definition solve (m : LpProblem) (solver : Solver) : Run LpSolution :=
  (solver m, [SolverCall (name m)]).

(** *** What it means for an assignment to satisfy a model *)

Definition in_domain (a : assignment) (vc : LpVariable * LpCategory) : bool :=
  let v := a (fst vc) in
  match snd vc with
  | LpBinary => Qeq_bool v 0 || Qeq_bool v 1
  | LpInteger lb =>
      Qeq_bool (inject_Z (Qfloor v)) v
      && match lb with Some l => Qle_bool (inject_Z l) v | None => true end
  end.

Definition holds (a : assignment) (c : LpConstraint) : bool :=
  Qle_bool (c_rhs c a) (c_lhs c a).

Definition feasible (m : LpProblem) (a : assignment) : bool :=
  forallb (in_domain a) (variables m) && forallb (holds a) (constraints m).

(** The part of the solver's contract the stage solves rely on: a model
    reported optimal comes with values that satisfy it. *)
Definition sound (solver : Solver) : Prop :=
  forall m, status (solver m) = LpStatusOptimal ->
            feasible m (varValue (solver m)) = true.

(** The other part: among the assignments that satisfy the model, the one
    returned has the least objective. *)
Definition optimal_on (solver : Solver) (m : LpProblem) : Prop :=
  forall a, status (solver m) = LpStatusOptimal ->
            feasible m a = true ->
            (objective m (varValue (solver m)) <= objective m a)%Q.

End pulp.

(** ** Parameters shared by the four stage solves *)

Record Weights : Type := {
  w_staff : Q;
  w_morning : Q;
  w_evening : Q;
  w_night : Q;
  w_weekend : Q;
  w_daysUsed : Q
}.

(** [d % 7 in [5, 6]]. *)
Definition is_weekend (d : Z) : bool := (d mod 7 =? 5) || (d mod 7 =? 6).

(** [set(d for d in range(num_workdays) if d % 7 in [5, 6])]. *)
Definition weekend_days (num_workdays : Z) : list Z :=
  filter is_weekend (Py.range num_workdays).

(** [math.ceil(min_staff * (1 + buffer_ratio))]. *)
Definition with_buffer (min_staff : Z) (buffer_ratio : Q) : Z :=
  Py.ceil (inject_Z min_staff * (1 + buffer_ratio))%Q.

(** [(produced / batches_required) * 100 if batches_required > 0 else 0]. *)
Definition pct (produced batches_required : Z) : Q :=
  if 0 <? batches_required
  then (Py.truediv produced batches_required * 100)%Q
  else 0%Q.

(** [math.ceil(batches_required / max_daily)], with the quotient exact. *)
Definition days_for (batches_required max_daily : Z) : Z :=
  Py.ceil (Py.truediv batches_required max_daily).

(** [f] is a binary64 number nearest to [q].  In the binade of [q], from
    [2^e] to [2^(e+1)], the binary64 numbers are the multiples of
    [2^(e-52)], and a nearest one is within half of that from [q].
    Python's [/] on two integers returns such a number for their exact
    quotient, when that quotient is zero or in the normal range of
    binary64, as [e] says. *)
Definition nearest_binary64 (q f : Q) : Prop :=
  (q == 0 /\ f == 0)%Q
  \/ exists e m : Z,
       -1022 <= e <= 1023
       /\ (Qpower 2 e <= Qabs q)%Q
       /\ (Qabs q < Qpower 2 (e + 1))%Q
       /\ (f == inject_Z m * Qpower 2 (e - 52))%Q
       /\ (Qabs (f - q) <= Qpower 2 (e - 53))%Q.

(** The dictionary a single-line stage (Dispensing, Granulation) returns. *)
Record StageResult : Type := {
  morning_shifts : Z;
  evening_shifts : Z;
  night_shifts : Z;
  total_batches_produced : Z;
  pct_demand_completed : Q;
  min_staff_required : Z;
  staff_with_buffer : Z;
  days_used : Z;
  num_workdays_horizon : Z;
  solver_status : Py.value
}.

(** ** Dispensing_PS.py *)

Module Dispensing_PS.
Import pulp.

Section Program.

(** [from PS_GUI3 import SOLVER_INSTANCE]: PS_GUI3 binds no such name,
    so the solver object is a parameter. *)
Variable SOLVER_INSTANCE : Solver.

Definition M_vars (d : Z) : LpAffineExpression := fun a => a (Shift Morning line d).
Definition E_vars (d : Z) : LpAffineExpression := fun a => a (Shift Evening line d).
Definition N_vars (d : Z) : LpAffineExpression := fun a => a (Shift Night line d).
Definition staff_var : LpAffineExpression := fun a => a Staff.
Definition dayUsed_var (d : Z) : LpAffineExpression := fun a => a (dayUsed d).

Definition declared (num_workdays : Z) : list (LpVariable * LpCategory) :=
  map (fun d => (Shift Morning line d, LpBinary)) (Py.range num_workdays)
  ++ map (fun d => (Shift Evening line d, LpBinary)) (Py.range num_workdays)
  ++ map (fun d => (Shift Night line d, LpBinary)) (Py.range num_workdays)
  ++ [(Staff, LpInteger (Some 0))]
  ++ map (fun d => (dayUsed d, LpBinary)) (Py.range num_workdays).

Definition WeightedObjective (num_workdays : Z) (w : Weights) : LpAffineExpression :=
  fun a =>
    let days := Py.range num_workdays in
    let obj_night := (w_night w * lpSum (map (fun d => N_vars d a) days))%Q in
    let obj_weekend :=
      (w_weekend w * lpSum (map (fun d => M_vars d a + E_vars d a + N_vars d a)
                                (weekend_days num_workdays)))%Q in
    let obj_daysUsed := (w_daysUsed w * lpSum (map (fun d => dayUsed_var d a) days))%Q in
    let obj_morning := (w_morning w * lpSum (map (fun d => M_vars d a) days))%Q in
    let obj_evening := (w_evening w * lpSum (map (fun d => E_vars d a) days))%Q in
    (w_staff w * staff_var a + obj_night + obj_weekend + obj_daysUsed
     + obj_morning + obj_evening)%Q.

(** [lpSum(M_vars[d] + E_vars[d] + N_vars[d] for d in range(num_workdays)) * 3]. *)
Definition total_batches (num_workdays : Z) : LpAffineExpression :=
  fun a => (lpSum (map (fun d => M_vars d a + E_vars d a + N_vars d a)
                       (Py.range num_workdays)) * 3)%Q.

Definition DemandConstraint (batches_required num_workdays : Z) : LpConstraint :=
  {| c_label := Named "DemandConstraint";
     c_lhs := total_batches num_workdays;
     c_rhs := fun _ => inject_Z batches_required |}.

Definition StaffReq (d : Z) : LpConstraint :=
  {| c_label := Indexed "StaffReq" d;
     c_lhs := staff_var;
     c_rhs := fun a => (6 * (M_vars d a + E_vars d a + N_vars d a))%Q |}.

Definition day_link (d : Z) : list LpConstraint :=
  [ {| c_label := Anonymous; c_lhs := dayUsed_var d; c_rhs := M_vars d |};
    {| c_label := Anonymous; c_lhs := dayUsed_var d; c_rhs := E_vars d |};
    {| c_label := Anonymous; c_lhs := dayUsed_var d; c_rhs := N_vars d |} ].

Definition model (batches_required num_workdays : Z) (w : Weights) : LpProblem :=
  {| name := "DispensingSchedule";
     variables := declared num_workdays;
     objective := WeightedObjective num_workdays w;
     constraints :=
       [DemandConstraint batches_required num_workdays]
       ++ map StaffReq (Py.range num_workdays)
       ++ flat_map day_link (Py.range num_workdays) |}.

Definition optimize_dispensing
    (batches_required num_workdays : Z) (buffer_ratio : Q) (w : Weights)
    (print_solution : bool) (solver : option Solver)
  : Run (option StageResult) :=
  let solver_to_use :=
    match solver with Some s => s | None => SOLVER_INSTANCE end in
  let max_daily_batches := 9 in
  if max_daily_batches * num_workdays <? batches_required then
    when print_solution
      (let needed_days := days_for batches_required max_daily_batches in
       let more_days_needed := needed_days - num_workdays in
       prints
         [ [Txt "No optimal solution found (Infeasible):"];
           [Txt "  Demand of "; Num batches_required;
            Txt " batches cannot be met in "; Num num_workdays; Txt " days."];
           [Txt "  At max capacity (9 batches/day), you need at least ";
            Num needed_days; Txt " days."];
           [Txt "  => You need "; Num more_days_needed; Txt " more day(s)."] ]) ;;
    ret None
  else
    model <- new_problem (model batches_required num_workdays w) ;;
    sol <- solve model solver_to_use ;;
    (* solver_status = model.solve(solver_to_use) *)
    let solver_status := Py.Int (status_code (status sol)) in
    if Py.neb solver_status (Py.Str "Optimal") then
      when print_solution
        (print [Txt "No optimal solution found! Solver status: "; Val solver_status] ;;
         let needed_days := days_for batches_required max_daily_batches in
         let more_days_needed := Z.max 0 (needed_days - num_workdays) in
         when (0 <? more_days_needed)
           (prints
              [ [Txt "  => You need at least "; Num needed_days; Txt " days total."];
                [Txt "  => "; Num more_days_needed; Txt " more day(s)."] ])) ;;
      ret None
    else
      let value := varValue sol in
      let days := Py.range num_workdays in
      let morning_days := Py.sum (map (fun d => Py.int (M_vars d value)) days) in
      let evening_days := Py.sum (map (fun d => Py.int (E_vars d value)) days) in
      let night_days := Py.sum (map (fun d => Py.int (N_vars d value)) days) in
      let min_staff := Py.int (staff_var value) in
      let staff_with_buffer := with_buffer min_staff buffer_ratio in
      let total_produced := 3 * (morning_days + evening_days + night_days) in
      let pct_completed := pct total_produced batches_required in
      let used_days_count := Py.sum (map (fun d => Py.int (dayUsed_var d value)) days) in
      when print_solution
        (prints
           [ [Txt "Optimal Schedule for Dispensing (Single Process):"];
             [Txt "================================================"];
             [Txt "Number of Workdays in Horizon: "; Num num_workdays];
             [Txt "Demanded Batches: "; Num batches_required];
             [];
             [Txt "Shifts Summary:"];
             [Txt "  Morning shifts: "; Num morning_days];
             [Txt "  Evening shifts: "; Num evening_days];
             [Txt "  Night   shifts: "; Num night_days];
             [];
             [Txt "Total Batches Produced: "; Num total_produced];
             [Txt "% of Demand Completed:  "; Fixed1 pct_completed; Txt "%"];
             [];
             [Txt "Minimal Headcount (no buffer): "; Num min_staff];
             [Txt "Headcount with "; Num (Py.int (buffer_ratio * 100)%Q);
              Txt "% buffer: "; Num staff_with_buffer];
             [];
             [Txt "Number of days used: "; Num used_days_count];
             [Txt (Py.times "=" 50)] ]) ;;
      ret (Some {| morning_shifts := morning_days;
                   evening_shifts := evening_days;
                   night_shifts := night_days;
                   total_batches_produced := total_produced;
                   pct_demand_completed := pct_completed;
                   min_staff_required := min_staff;
                   staff_with_buffer := staff_with_buffer;
                   days_used := used_days_count;
                   num_workdays_horizon := num_workdays;
                   solver_status := solver_status |}).

End Program.
End Dispensing_PS.

(** ** Granulation_PS.py *)

Module Granulation_PS.
Import pulp.

Section Program.

(** [from PS_GUI3 import SOLVER_INSTANCE], as in Dispensing_PS. *)
Variable SOLVER_INSTANCE : Solver.

Definition M_vars (d : Z) : LpAffineExpression := fun a => a (Shift Morning line d).
Definition E_vars (d : Z) : LpAffineExpression := fun a => a (Shift Evening line d).
Definition N_vars (d : Z) : LpAffineExpression := fun a => a (Shift Night line d).
Definition staff_var : LpAffineExpression := fun a => a Staff.
Definition dayUsed_var (d : Z) : LpAffineExpression := fun a => a (dayUsed d).

Definition declared (num_workdays : Z) : list (LpVariable * LpCategory) :=
  map (fun d => (Shift Morning line d, LpBinary)) (Py.range num_workdays)
  ++ map (fun d => (Shift Evening line d, LpBinary)) (Py.range num_workdays)
  ++ map (fun d => (Shift Night line d, LpBinary)) (Py.range num_workdays)
  ++ [(Staff, LpInteger (Some 0))]
  ++ map (fun d => (dayUsed d, LpBinary)) (Py.range num_workdays).

Definition WeightedObjective (num_workdays : Z) (w : Weights) : LpAffineExpression :=
  fun a =>
    let days := Py.range num_workdays in
    let obj_morning := (w_morning w * lpSum (map (fun d => M_vars d a) days))%Q in
    let obj_evening := (w_evening w * lpSum (map (fun d => E_vars d a) days))%Q in
    let obj_night := (w_night w * lpSum (map (fun d => N_vars d a) days))%Q in
    let obj_weekend :=
      (w_weekend w * lpSum (map (fun d => M_vars d a + E_vars d a + N_vars d a)
                                (weekend_days num_workdays)))%Q in
    let obj_daysUsed := (w_daysUsed w * lpSum (map (fun d => dayUsed_var d a) days))%Q in
    (w_staff w * staff_var a + obj_morning + obj_evening + obj_night
     + obj_weekend + obj_daysUsed)%Q.

Definition total_batches (num_workdays : Z) : LpAffineExpression :=
  fun a => (lpSum (map (fun d => M_vars d a + E_vars d a + N_vars d a)
                       (Py.range num_workdays)) * 3)%Q.

Definition DemandConstraint (batches_required num_workdays : Z) : LpConstraint :=
  {| c_label := Named "DemandConstraint";
     c_lhs := total_batches num_workdays;
     c_rhs := fun _ => inject_Z batches_required |}.

Definition StaffReq (d : Z) : LpConstraint :=
  {| c_label := Indexed "StaffReq" d;
     c_lhs := staff_var;
     c_rhs := fun a => (6 * (M_vars d a + E_vars d a + N_vars d a))%Q |}.

Definition day_link (d : Z) : list LpConstraint :=
  [ {| c_label := Anonymous; c_lhs := dayUsed_var d; c_rhs := M_vars d |};
    {| c_label := Anonymous; c_lhs := dayUsed_var d; c_rhs := E_vars d |};
    {| c_label := Anonymous; c_lhs := dayUsed_var d; c_rhs := N_vars d |} ].

Definition model (batches_required num_workdays : Z) (w : Weights) : LpProblem :=
  {| name := "GranulationSchedule";
     variables := declared num_workdays;
     objective := WeightedObjective num_workdays w;
     constraints :=
       [DemandConstraint batches_required num_workdays]
       ++ map StaffReq (Py.range num_workdays)
       ++ flat_map day_link (Py.range num_workdays) |}.

Definition optimize_granulation
    (batches_required num_workdays : Z) (buffer_ratio : Q) (w : Weights)
    (print_solution : bool) (solver : option Solver)
  : Run (option StageResult) :=
  let solver_to_use :=
    match solver with Some s => s | None => SOLVER_INSTANCE end in
  let max_daily_batches := 9 in
  if max_daily_batches * num_workdays <? batches_required then
    when print_solution
      (let needed_days := days_for batches_required max_daily_batches in
       let more_days_needed := needed_days - num_workdays in
       prints
         [ [Txt "No optimal solution found (Infeasible):"];
           [Txt "  Demand of "; Num batches_required;
            Txt " batches cannot be met in "; Num num_workdays; Txt " days."];
           [Txt "  At max capacity (9 batches/day), you need at least ";
            Num needed_days; Txt " days."];
           [Txt "  => You need "; Num more_days_needed; Txt " more day(s)."] ]) ;;
    ret None
  else
    model <- new_problem (model batches_required num_workdays w) ;;
    sol <- solve model solver_to_use ;;
    (* result_status = model.solve(...); solver_status = pulp.LpStatus[model.status] *)
    let solver_status := Py.Str (LpStatus (status sol)) in
    if Py.neb solver_status (Py.Str "Optimal") then
      when print_solution
        (print [Txt "No optimal solution found! Solver status: "; Val solver_status] ;;
         let needed_days := days_for batches_required max_daily_batches in
         let more_days_needed := Z.max 0 (needed_days - num_workdays) in
         when (0 <? more_days_needed)
           (prints
              [ [Txt "  => You need at least "; Num needed_days; Txt " days total."];
                [Txt "  => "; Num more_days_needed; Txt " more day(s)."] ])) ;;
      ret None
    else
      let value := varValue sol in
      let days := Py.range num_workdays in
      let morning_days := Py.sum (map (fun d => Py.int (M_vars d value)) days) in
      let evening_days := Py.sum (map (fun d => Py.int (E_vars d value)) days) in
      let night_days := Py.sum (map (fun d => Py.int (N_vars d value)) days) in
      let min_staff := Py.int (staff_var value) in
      let staff_with_buffer := with_buffer min_staff buffer_ratio in
      let total_produced := 3 * (morning_days + evening_days + night_days) in
      let pct_completed := pct total_produced batches_required in
      let used_days_count := Py.sum (map (fun d => Py.int (dayUsed_var d value)) days) in
      when print_solution
        (prints
           [ [Txt "Optimal Schedule for Granulation (3 Sub-processes in Parallel):"];
             [Txt "================================================================="];
             [Txt "Number of Workdays in Horizon: "; Num num_workdays];
             [Txt "Demanded Batches: "; Num batches_required];
             [];
             [Txt "Shifts Summary:"];
             [Txt "  Morning shifts: "; Num morning_days];
             [Txt "  Evening shifts: "; Num evening_days];
             [Txt "  Night   shifts: "; Num night_days];
             [];
             [Txt "Total Batches Produced: "; Num total_produced];
             [Txt "% of Demand Completed:  "; Fixed1 pct_completed; Txt "%"];
             [];
             [Txt "Minimal Headcount (no buffer): "; Num min_staff];
             [Txt "Headcount with "; Num (Py.int (buffer_ratio * 100)%Q);
              Txt "% buffer: "; Num staff_with_buffer];
             [];
             [Txt "Number of days used: "; Num used_days_count];
             [Txt (Py.times "=" 65)] ]) ;;
      ret (Some {| morning_shifts := morning_days;
                   evening_shifts := evening_days;
                   night_shifts := night_days;
                   total_batches_produced := total_produced;
                   pct_demand_completed := pct_completed;
                   min_staff_required := min_staff;
                   staff_with_buffer := staff_with_buffer;
                   days_used := used_days_count;
                   num_workdays_horizon := num_workdays;
                   solver_status := solver_status |}).

End Program.
End Granulation_PS.

(** ** Tab_PS.py *)

Module Tab_PS.
Import pulp.

(** The inner dictionaries keyed by machine. *)
Record PerMachine (A : Type) : Type := {
  P3030 : A;
  P3090i : A;
  IMA : A
}.
Arguments P3030 {A} _.
Arguments P3090i {A} _.
Arguments IMA {A} _.

Record TabResult : Type := {
  machines_used : PerMachine bool;
  morning_shifts : PerMachine Z;
  evening_shifts : PerMachine Z;
  night_shifts : PerMachine Z;
  total_batches_produced : Z;
  pct_demand_completed : Q;
  min_staff_required : Z;
  staff_with_buffer : Z;
  days_used : Z;
  num_workdays_horizon : Z;
  solver_status : Py.value
}.

Section Program.

(** [from PS_GUI3 import solver]: PS_GUI3 binds no such name, so the
    solver object is a parameter. *)
Variable solver : Solver.

(** [pulp.LpVariable(name, cat=pulp.LpBinary) if use_machine else 0]. *)
Definition make_var (v : LpVariable) (use_machine : bool) : LpAffineExpression :=
  fun a => if use_machine then a v else 0%Q.

Definition staff_var : LpAffineExpression := fun a => a Staff.
Definition dayUsed_var (d : Z) : LpAffineExpression := fun a => a (dayUsed d).

Definition machine_vars (r : resource) (use_machine : bool) (num_workdays : Z)
  : list (LpVariable * LpCategory) :=
  if use_machine then
    map (fun d => (Shift Morning r d, LpBinary)) (Py.range num_workdays)
    ++ map (fun d => (Shift Evening r d, LpBinary)) (Py.range num_workdays)
    ++ map (fun d => (Shift Night r d, LpBinary)) (Py.range num_workdays)
  else [].

Section Model.
Variables (use_p3030 use_p3090i use_ima : bool).

Definition M_p3030 d := make_var (Shift Morning p3030 d) use_p3030.
Definition E_p3030 d := make_var (Shift Evening p3030 d) use_p3030.
Definition N_p3030 d := make_var (Shift Night p3030 d) use_p3030.
Definition M_p3090i d := make_var (Shift Morning p3090i d) use_p3090i.
Definition E_p3090i d := make_var (Shift Evening p3090i d) use_p3090i.
Definition N_p3090i d := make_var (Shift Night p3090i d) use_p3090i.
Definition M_ima d := make_var (Shift Morning ima d) use_ima.
Definition E_ima d := make_var (Shift Evening ima d) use_ima.
Definition N_ima d := make_var (Shift Night ima d) use_ima.

Definition declared (num_workdays : Z) : list (LpVariable * LpCategory) :=
  machine_vars p3030 use_p3030 num_workdays
  ++ machine_vars p3090i use_p3090i num_workdays
  ++ machine_vars ima use_ima num_workdays
  ++ [(Staff, LpInteger (Some 0))]
  ++ map (fun d => (dayUsed d, LpBinary)) (Py.range num_workdays).

(** The nine shift variables of day [d], summed. *)
Definition all_shifts (d : Z) : LpAffineExpression :=
  fun a =>
    (M_p3030 d a + E_p3030 d a + N_p3030 d a
     + M_p3090i d a + E_p3090i d a + N_p3090i d a
     + M_ima d a + E_ima d a + N_ima d a)%Q.

Definition WeightedObjective (num_workdays : Z) (w : Weights) : LpAffineExpression :=
  fun a =>
    let days := Py.range num_workdays in
    let total_morning_shifts :=
      lpSum (map (fun d => M_p3030 d a + M_p3090i d a + M_ima d a)%Q days) in
    let total_evening_shifts :=
      lpSum (map (fun d => E_p3030 d a + E_p3090i d a + E_ima d a)%Q days) in
    let total_night_shifts :=
      lpSum (map (fun d => N_p3030 d a + N_p3090i d a + N_ima d a)%Q days) in
    let total_weekend_shifts :=
      lpSum (map (fun d => all_shifts d a) (weekend_days num_workdays)) in
    let total_days_used := lpSum (map (fun d => dayUsed_var d a) days) in
    (w_staff w * staff_var a
     + w_morning w * total_morning_shifts
     + w_evening w * total_evening_shifts
     + w_night w * total_night_shifts
     + w_weekend w * total_weekend_shifts
     + w_daysUsed w * total_days_used)%Q.

(** The list [total_batches]: three entries a day. *)
Definition total_batches (num_workdays : Z) (a : assignment) : list Q :=
  flat_map
    (fun d =>
       [ (M_p3030 d a * 1 + M_p3090i d a * 2 + M_ima d a * 1)%Q;
         (E_p3030 d a * 1 + E_p3090i d a * 2 + E_ima d a * 1)%Q;
         (N_p3030 d a * 1 + N_p3090i d a * 2 + N_ima d a * 1)%Q ])
    (Py.range num_workdays).

Definition DemandConstraint (batches_required num_workdays : Z) : LpConstraint :=
  {| c_label := Named "DemandConstraint";
     c_lhs := fun a => lpSum (total_batches num_workdays a);
     c_rhs := fun _ => inject_Z batches_required |}.

Definition StaffDay (d : Z) : LpConstraint :=
  {| c_label := Indexed "StaffDay" d;
     c_lhs := staff_var;
     c_rhs := fun a => (3 * all_shifts d a)%Q |}.

Definition DayUsed (d : Z) : LpConstraint :=
  {| c_label := Indexed "DayUsed" d;
     c_lhs := dayUsed_var d;
     c_rhs := fun a => (all_shifts d a / 9)%Q |}.

Definition model (batches_required num_workdays : Z) (w : Weights) : LpProblem :=
  {| name := "TabletingSchedule";
     variables := declared num_workdays;
     objective := WeightedObjective num_workdays w;
     constraints :=
       [DemandConstraint batches_required num_workdays]
       ++ map StaffDay (Py.range num_workdays)
       ++ map DayUsed (Py.range num_workdays) |}.

End Model.

(** [sum(int(X[d].varValue) for d in range(num_workdays)) if use else 0]. *)
Definition shift_count (value : assignment) (s : shift) (r : resource)
    (use_machine : bool) (num_workdays : Z) : Z :=
  if use_machine
  then Py.sum (map (fun d => Py.int (value (Shift s r d))) (Py.range num_workdays))
  else 0.

Definition optimize_tableting
    (batches_required num_workdays : Z) (use_p3030 use_p3090i use_ima : bool)
    (buffer_ratio : Q) (w : Weights) (print_solution : bool)
  : Run (option TabResult) :=
  let machine_output := 0 in
  let machine_output := if use_p3030 then machine_output + 1 else machine_output in
  let machine_output := if use_p3090i then machine_output + 2 else machine_output in
  let machine_output := if use_ima then machine_output + 1 else machine_output in
  let max_daily_batches := machine_output * 3 in
  if max_daily_batches =? 0 then
    when print_solution
      (print [Txt "No machines selected => cannot produce any batches. Infeasible."]) ;;
    ret None
  else if max_daily_batches * num_workdays <? batches_required then
    when print_solution
      (let needed_days := days_for batches_required max_daily_batches in
       let more_days_needed := needed_days - num_workdays in
       prints
         [ [Txt "No optimal solution found (Infeasible):"];
           [Txt "  Demand of "; Num batches_required;
            Txt " batches cannot be met in "; Num num_workdays; Txt " days."];
           [Txt "  With the selected machines, max capacity is ";
            Num max_daily_batches; Txt " batches/day."];
           [Txt "  => Need at least "; Num needed_days; Txt " days total."];
           [Txt "  => "; Num more_days_needed; Txt " more day(s)."] ]) ;;
    ret None
  else
    model <- new_problem
               (model use_p3030 use_p3090i use_ima batches_required num_workdays w) ;;
    sol <- solve model solver ;;
    let solver_status := Py.Str (LpStatus (status sol)) in
    if Py.neb solver_status (Py.Str "Optimal") then
      when print_solution
        (print [Txt "No optimal solution found! Solver status: "; Val solver_status] ;;
         let needed_days := days_for batches_required max_daily_batches in
         let more_days_needed := Z.max 0 (needed_days - num_workdays) in
         when (0 <? more_days_needed)
           (prints
              [ [Txt "  => You need at least "; Num needed_days; Txt " days total."];
                [Txt "  => "; Num more_days_needed; Txt " more day(s)."] ])) ;;
      ret None
    else
      let value := varValue sol in
      let morning_p3030 := shift_count value Morning p3030 use_p3030 num_workdays in
      let evening_p3030 := shift_count value Evening p3030 use_p3030 num_workdays in
      let night_p3030 := shift_count value Night p3030 use_p3030 num_workdays in
      let morning_p3090i := shift_count value Morning p3090i use_p3090i num_workdays in
      let evening_p3090i := shift_count value Evening p3090i use_p3090i num_workdays in
      let night_p3090i := shift_count value Night p3090i use_p3090i num_workdays in
      let morning_ima := shift_count value Morning ima use_ima num_workdays in
      let evening_ima := shift_count value Evening ima use_ima num_workdays in
      let night_ima := shift_count value Night ima use_ima num_workdays in
      let min_staff := Py.int (staff_var value) in
      let staff_with_buffer := with_buffer min_staff buffer_ratio in
      (* total_produced = pulp.value(pulp.lpSum(total_batches)) *)
      let total_produced :=
        lpSum (total_batches use_p3030 use_p3090i use_ima num_workdays value) in
      let pct_completed :=
        if 0 <? batches_required
        then (total_produced / inject_Z batches_required * 100)%Q
        else 0%Q in
      let used_days_count :=
        Py.sum (map (fun d => Py.int (dayUsed_var d value)) (Py.range num_workdays)) in
      when print_solution
        (prints
           [ [Txt "Optimal Schedule for Tableting:"];
             [Txt "================================"];
             [Txt "Selected Machines: P3030="; Flag use_p3030;
              Txt ", P3090i="; Flag use_p3090i; Txt ", IMA="; Flag use_ima];
             [Txt "Number of Workdays in Horizon: "; Num num_workdays];
             [Txt "Demanded Batches: "; Num batches_required];
             [];
             [Txt "Shifts Summary (total count of shifts across days):"] ] ;;
         when use_p3030
           (print [Txt "  P3030:   Morning="; Num morning_p3030;
                   Txt ", Evening="; Num evening_p3030;
                   Txt ", Night="; Num night_p3030]) ;;
         when use_p3090i
           (print [Txt "  P3090i:  Morning="; Num morning_p3090i;
                   Txt ", Evening="; Num evening_p3090i;
                   Txt ", Night="; Num night_p3090i]) ;;
         when use_ima
           (print [Txt "  IMA:     Morning="; Num morning_ima;
                   Txt ", Evening="; Num evening_ima;
                   Txt ", Night="; Num night_ima]) ;;
         prints
           [ [];
             [Txt "Total Batches Produced: "; Num (Py.int total_produced)];
             [Txt "% of Demand Completed:  "; Fixed1 pct_completed; Txt "%"];
             [];
             [Txt "Minimal Headcount (no buffer): "; Num min_staff];
             [Txt "Headcount with "; Num (Py.int (buffer_ratio * 100)%Q);
              Txt "% buffer: "; Num staff_with_buffer];
             [];
             [Txt "Number of days used: "; Num used_days_count];
             [Txt "Solver status: "; Val solver_status];
             [Txt (Py.times "=" 50)] ]) ;;
      ret (Some {| machines_used :=
                     {| P3030 := use_p3030; P3090i := use_p3090i; IMA := use_ima |};
                   morning_shifts :=
                     {| P3030 := morning_p3030; P3090i := morning_p3090i;
                        IMA := morning_ima |};
                   evening_shifts :=
                     {| P3030 := evening_p3030; P3090i := evening_p3090i;
                        IMA := evening_ima |};
                   night_shifts :=
                     {| P3030 := night_p3030; P3090i := night_p3090i;
                        IMA := night_ima |};
                   total_batches_produced := Py.int total_produced;
                   pct_demand_completed := pct_completed;
                   min_staff_required := min_staff;
                   staff_with_buffer := staff_with_buffer;
                   days_used := used_days_count;
                   num_workdays_horizon := num_workdays;
                   solver_status := solver_status |}).

End Program.
End Tab_PS.

(** ** Coating_PS.py *)

Module Coating_PS.
Import pulp.

Record Machines (A : Type) : Type := {
  mBOSCH : A;
  mGLATT : A
}.
Arguments mBOSCH {A} _.
Arguments mGLATT {A} _.

Record PerProcess (A : Type) : Type := {
  Solution : A;
  BOSCH : A;
  GLATT : A
}.
Arguments Solution {A} _.
Arguments BOSCH {A} _.
Arguments GLATT {A} _.

Record CoatResult : Type := {
  machines_used : Machines bool;
  morning_shifts : PerProcess Z;
  evening_shifts : PerProcess Z;
  night_shifts : PerProcess Z;
  total_solution_produced : Z;
  total_coating_produced : Z;
  final_batches_count : Z;
  pct_demand_completed : Q;
  min_staff_required : Z;
  staff_with_buffer : Z;
  days_used : Z;
  num_workdays_horizon : Z;
  solver_status : Py.value
}.

(** An entry of [M_bosch], [E_glatt], ...: a PuLP variable, or the
    integer [0] when the machine is switched off. *)
Inductive entry : Type :=
| Var (v : LpVariable)
| Zero.

(** [pulp.LpVariable(name, cat=pulp.LpBinary) if use_flag else 0]. *)
Definition make_var (v : LpVariable) (use_flag : bool) : entry :=
  if use_flag then Var v else Zero.

(** The entry as a term of a linear expression. *)
Definition term (e : entry) : LpAffineExpression :=
  fun a => match e with Var v => a v | Zero => 0%Q end.

(** [x.varValue if hasattr(x, 'varValue') else x]. *)
Definition safe_value (value : assignment) (x : entry) : Q :=
  match x with Var v => value v | Zero => 0%Q end.

Section Program.

(** [pulp.PULP_CBC_CMD(msg=0)]: the solver shipped with PuLP. *)
Variable PULP_CBC_CMD : Solver.

Definition staff_var : LpAffineExpression := fun a => a Staff.
Definition dayUsed_var (d : Z) : LpAffineExpression := fun a => a (dayUsed d).

Definition process_vars (r : resource) (use_flag : bool) (num_workdays : Z)
  : list (LpVariable * LpCategory) :=
  if use_flag then
    map (fun d => (Shift Morning r d, LpBinary)) (Py.range num_workdays)
    ++ map (fun d => (Shift Evening r d, LpBinary)) (Py.range num_workdays)
    ++ map (fun d => (Shift Night r d, LpBinary)) (Py.range num_workdays)
  else [].

Section Model.
Variables (use_bosch use_glatt : bool).

Definition M_solution d := make_var (Shift Morning solution d) true.
Definition E_solution d := make_var (Shift Evening solution d) true.
Definition N_solution d := make_var (Shift Night solution d) true.
Definition M_bosch d := make_var (Shift Morning bosch d) use_bosch.
Definition E_bosch d := make_var (Shift Evening bosch d) use_bosch.
Definition N_bosch d := make_var (Shift Night bosch d) use_bosch.
Definition M_glatt d := make_var (Shift Morning glatt d) use_glatt.
Definition E_glatt d := make_var (Shift Evening glatt d) use_glatt.
Definition N_glatt d := make_var (Shift Night glatt d) use_glatt.

Definition declared (num_workdays : Z) : list (LpVariable * LpCategory) :=
  process_vars solution true num_workdays
  ++ process_vars bosch use_bosch num_workdays
  ++ process_vars glatt use_glatt num_workdays
  ++ [(Staff, LpInteger (Some 0))]
  ++ map (fun d => (dayUsed d, LpBinary)) (Py.range num_workdays).

Definition all_shifts (d : Z) : LpAffineExpression :=
  fun a =>
    (term (M_solution d) a + term (E_solution d) a + term (N_solution d) a
     + term (M_bosch d) a + term (E_bosch d) a + term (N_bosch d) a
     + term (M_glatt d) a + term (E_glatt d) a + term (N_glatt d) a)%Q.

Definition WeightedObjective (num_workdays : Z) (w : Weights) : LpAffineExpression :=
  fun a =>
    let days := Py.range num_workdays in
    let total_morning_shifts :=
      lpSum (map (fun d => term (M_solution d) a + term (M_bosch d) a
                           + term (M_glatt d) a)%Q days) in
    let total_evening_shifts :=
      lpSum (map (fun d => term (E_solution d) a + term (E_bosch d) a
                           + term (E_glatt d) a)%Q days) in
    let total_night_shifts :=
      lpSum (map (fun d => term (N_solution d) a + term (N_bosch d) a
                           + term (N_glatt d) a)%Q days) in
    let total_weekend_shifts :=
      lpSum (map (fun d => all_shifts d a) (weekend_days num_workdays)) in
    let total_days_used := lpSum (map (fun d => dayUsed_var d a) days) in
    (w_staff w * staff_var a
     + w_morning w * total_morning_shifts
     + w_evening w * total_evening_shifts
     + w_night w * total_night_shifts
     + w_weekend w * total_weekend_shifts
     + w_daysUsed w * total_days_used)%Q.

Definition total_solution_batches (num_workdays : Z) (a : assignment) : list Q :=
  flat_map
    (fun d =>
       [ (4 * term (M_solution d) a)%Q;
         (4 * term (E_solution d) a)%Q;
         (4 * term (N_solution d) a)%Q ])
    (Py.range num_workdays).

Definition SolutionDemand (batches_required num_workdays : Z) : LpConstraint :=
  {| c_label := Named "SolutionDemand";
     c_lhs := fun a => lpSum (total_solution_batches num_workdays a);
     c_rhs := fun _ => inject_Z batches_required |}.

Definition total_coating_batches (num_workdays : Z) (a : assignment) : list Q :=
  flat_map
    (fun d =>
       [ (2 * term (M_bosch d) a + 2 * term (M_glatt d) a)%Q;
         (2 * term (E_bosch d) a + 2 * term (E_glatt d) a)%Q;
         (2 * term (N_bosch d) a + 2 * term (N_glatt d) a)%Q ])
    (Py.range num_workdays).

Definition CoatingDemand (batches_required num_workdays : Z) : LpConstraint :=
  {| c_label := Named "CoatingDemand";
     c_lhs := fun a => lpSum (total_coating_batches num_workdays a);
     c_rhs := fun _ => inject_Z batches_required |}.

Definition StaffDay (d : Z) : LpConstraint :=
  {| c_label := Indexed "StaffDay" d;
     c_lhs := staff_var;
     c_rhs := fun a =>
       let staff_morning :=
         (2 * (term (M_solution d) a + term (M_bosch d) a + term (M_glatt d) a))%Q in
       let staff_evening :=
         (2 * (term (E_solution d) a + term (E_bosch d) a + term (E_glatt d) a))%Q in
       let staff_night :=
         (2 * (term (N_solution d) a + term (N_bosch d) a + term (N_glatt d) a))%Q in
       (staff_morning + staff_evening + staff_night)%Q |}.

Definition DayUsed (d : Z) : LpConstraint :=
  {| c_label := Indexed "DayUsed" d;
     c_lhs := dayUsed_var d;
     c_rhs := fun a => (all_shifts d a / 9)%Q |}.

Definition model (batches_required num_workdays : Z) (w : Weights) : LpProblem :=
  {| name := "CoatingSchedule";
     variables := declared num_workdays;
     objective := WeightedObjective num_workdays w;
     constraints :=
       [SolutionDemand batches_required num_workdays]
       ++ [CoatingDemand batches_required num_workdays]
       ++ map StaffDay (Py.range num_workdays)
       ++ map DayUsed (Py.range num_workdays) |}.

End Model.

(** [var_sum(vdict)]: [sum(int(vdict[d].varValue) for d in range(num_workdays))];
    it is only called on dictionaries of variables. *)
Definition var_sum (value : assignment) (vdict : Z -> entry) (num_workdays : Z) : Z :=
  Py.sum (map (fun d => Py.int (safe_value value (vdict d))) (Py.range num_workdays)).

Definition optimize_coating
    (batches_required num_workdays : Z) (use_bosch use_glatt : bool)
    (buffer_ratio : Q) (w : Weights) (print_solution : bool)
  : Run (option CoatResult) :=
  let max_daily_solution := 12 in
  let coating_machines_used := 0 in
  let coating_machines_used :=
    if use_bosch then coating_machines_used + 1 else coating_machines_used in
  let coating_machines_used :=
    if use_glatt then coating_machines_used + 1 else coating_machines_used in
  if coating_machines_used =? 0 then
    when print_solution
      (print [Txt "No coating machines selected => cannot produce any coated batches. Infeasible."]) ;;
    ret None
  else
    let max_daily_coating := 2 * coating_machines_used * 3 in
    if max_daily_solution * num_workdays <? batches_required then
      when print_solution
        (let needed_days_solution := days_for batches_required max_daily_solution in
         prints
           [ [Txt "No optimal solution found (Infeasible for Solution):"];
             [Txt "  Demand of "; Num batches_required;
              Txt " solution-batches cannot be met in "; Num num_workdays; Txt " days."];
             [Txt "  Max daily solution capacity: "; Num max_daily_solution; Txt "."];
             [Txt "  => Need at least "; Num needed_days_solution; Txt " days."] ]) ;;
      ret None
    else if max_daily_coating * num_workdays <? batches_required then
      when print_solution
        (let needed_days_coating := days_for batches_required max_daily_coating in
         prints
           [ [Txt "No optimal solution found (Infeasible for Coating):"];
             [Txt "  Demand of "; Num batches_required;
              Txt " coating-batches cannot be met in "; Num num_workdays; Txt " days."];
             [Txt "  With the selected machine(s), max daily coating capacity: ";
              Num max_daily_coating; Txt "."];
             [Txt "  => Need at least "; Num needed_days_coating; Txt " days."] ]) ;;
      ret None
    else
      model <- new_problem (model use_bosch use_glatt batches_required num_workdays w) ;;
      sol <- solve model PULP_CBC_CMD ;;
      let solver_status := Py.Str (LpStatus (status sol)) in
      if Py.neb solver_status (Py.Str "Optimal") then
        when print_solution
          (print [Txt "No optimal solution found! Solver status: "; Val solver_status] ;;
           let needed_days_sol := days_for batches_required max_daily_solution in
           let needed_days_coat := days_for batches_required max_daily_coating in
           let needed_days := Z.max needed_days_sol needed_days_coat in
           let more_days_needed := Z.max 0 (needed_days - num_workdays) in
           when (0 <? more_days_needed)
             (prints
                [ [Txt "  => You need at least "; Num needed_days; Txt " days total."];
                  [Txt "  => "; Num more_days_needed; Txt " more day(s)."] ])) ;;
        ret None
      else
        let value := varValue sol in
        let days := Py.range num_workdays in
        let morning_solution := var_sum value M_solution num_workdays in
        let evening_solution := var_sum value E_solution num_workdays in
        let night_solution := var_sum value N_solution num_workdays in
        let morning_bosch :=
          if use_bosch then var_sum value (M_bosch use_bosch) num_workdays else 0 in
        let evening_bosch :=
          if use_bosch then var_sum value (E_bosch use_bosch) num_workdays else 0 in
        let night_bosch :=
          if use_bosch then var_sum value (N_bosch use_bosch) num_workdays else 0 in
        let morning_glatt :=
          if use_glatt then var_sum value (M_glatt use_glatt) num_workdays else 0 in
        let evening_glatt :=
          if use_glatt then var_sum value (E_glatt use_glatt) num_workdays else 0 in
        let night_glatt :=
          if use_glatt then var_sum value (N_glatt use_glatt) num_workdays else 0 in
        let min_staff := Py.int (staff_var value) in
        let staff_with_buffer := with_buffer min_staff buffer_ratio in
        let total_sol_value :=
          fold_left
            (fun acc d =>
               (acc + 4 * (safe_value value (M_solution d)
                           + safe_value value (E_solution d)
                           + safe_value value (N_solution d)))%Q)
            days 0%Q in
        let total_solution_produced := Py.int total_sol_value in
        let total_coat_value :=
          fold_left
            (fun acc d =>
               (acc
                + 2 * (safe_value value (M_bosch use_bosch d)
                       + safe_value value (E_bosch use_bosch d)
                       + safe_value value (N_bosch use_bosch d))
                + 2 * (safe_value value (M_glatt use_glatt d)
                       + safe_value value (E_glatt use_glatt d)
                       + safe_value value (N_glatt use_glatt d)))%Q)
            days 0%Q in
        let total_coating_produced := Py.int total_coat_value in
        let final_batches := Z.min total_solution_produced total_coating_produced in
        let pct_completed := pct final_batches batches_required in
        let used_days_count :=
          Py.sum (map (fun d => Py.int (dayUsed_var d value)) days) in
        when print_solution
          (prints
             [ [Txt "Optimal Schedule for Coating:"];
               [Txt "================================"];
               [Txt "Selected Machines: BOSCH="; Flag use_bosch;
                Txt ", GLATT="; Flag use_glatt];
               [Txt "Number of Workdays in Horizon: "; Num num_workdays];
               [Txt "Demanded Batches (Solution & Coating): "; Num batches_required];
               [];
               [Txt "Shifts Summary (Total usage across days):"];
               [Txt "  Solution: Morning="; Num morning_solution;
                Txt ", Evening="; Num evening_solution;
                Txt ", Night="; Num night_solution] ] ;;
           when use_bosch
             (print [Txt "  BOSCH:    Morning="; Num morning_bosch;
                     Txt ", Evening="; Num evening_bosch;
                     Txt ", Night="; Num night_bosch]) ;;
           when use_glatt
             (print [Txt "  GLATT:    Morning="; Num morning_glatt;
                     Txt ", Evening="; Num evening_glatt;
                     Txt ", Night="; Num night_glatt]) ;;
           prints
             [ [];
               [Txt "Total Solution Batches Produced: "; Num total_solution_produced];
               [Txt "Total Coating Batches Produced:  "; Num total_coating_produced];
               [Txt "Final Batches (limited by both steps): "; Num final_batches];
               [Txt "% of Demand Completed:            "; Fixed1 pct_completed; Txt "%"];
               [];
               [Txt "Minimal Headcount (no buffer): "; Num min_staff];
               [Txt "Headcount with "; Num (Py.int (buffer_ratio * 100)%Q);
                Txt "% buffer: "; Num staff_with_buffer];
               [];
               [Txt "Number of days used: "; Num used_days_count];
               [Txt "Solver status: "; Val solver_status];
               [Txt (Py.times "=" 50)] ]) ;;
        ret (Some {| machines_used := {| mBOSCH := use_bosch; mGLATT := use_glatt |};
                     morning_shifts :=
                       {| Solution := morning_solution; BOSCH := morning_bosch;
                          GLATT := morning_glatt |};
                     evening_shifts :=
                       {| Solution := evening_solution; BOSCH := evening_bosch;
                          GLATT := evening_glatt |};
                     night_shifts :=
                       {| Solution := night_solution; BOSCH := night_bosch;
                          GLATT := night_glatt |};
                     total_solution_produced := total_solution_produced;
                     total_coating_produced := total_coating_produced;
                     final_batches_count := final_batches;
                     pct_demand_completed := pct_completed;
                     min_staff_required := min_staff;
                     staff_with_buffer := staff_with_buffer;
                     days_used := used_days_count;
                     num_workdays_horizon := num_workdays;
                     solver_status := solver_status |}).

End Program.
End Coating_PS.

(** ** Formulation_PS.py *)

(** What a loop of the model hands back: the value the Python loop ends
    with, or the sign that the recursion budget of the model ran out. *)
Inductive outcome (A : Type) : Type :=
| Returned (x : A)
| OutOfFuel.
Arguments Returned {A} x.
Arguments OutOfFuel {A}.

Module Formulation_PS.

(** The dictionary [combined_results], with the keys the two searches
    add to it later (absent until then). *)
Record CombinedResult : Type := {
  dispensing : StageResult;
  granulation : StageResult;
  tableting : Tab_PS.TabResult;
  coating : Coating_PS.CoatResult;
  total_min_staff_summed : Z;
  total_staff_with_buffer_summed : Z;
  total_days_needed : option Z;
  workdays_allocated : option Z;
  max_feasible_batches : option Z
}.

(** [result['total_days_needed'] = ...; result['workdays_allocated'] = ...]. *)
Definition set_days (r : CombinedResult) (total current : Z) : CombinedResult :=
  {| dispensing := dispensing r;
     granulation := granulation r;
     tableting := tableting r;
     coating := coating r;
     total_min_staff_summed := total_min_staff_summed r;
     total_staff_with_buffer_summed := total_staff_with_buffer_summed r;
     total_days_needed := Some total;
     workdays_allocated := Some current;
     max_feasible_batches := max_feasible_batches r |}.

(** [max_feasible_result['max_feasible_batches'] = ...]. *)
Definition set_max_feasible_batches (r : CombinedResult) (b : Z) : CombinedResult :=
  {| dispensing := dispensing r;
     granulation := granulation r;
     tableting := tableting r;
     coating := coating r;
     total_min_staff_summed := total_min_staff_summed r;
     total_staff_with_buffer_summed := total_staff_with_buffer_summed r;
     total_days_needed := total_days_needed r;
     workdays_allocated := workdays_allocated r;
     max_feasible_batches := Some b |}.

(** The five machine switches the aggregator passes on. *)
Record Toggles : Type := {
  use_p3030 : bool;
  use_p3090i : bool;
  use_ima : bool;
  use_bosch : bool;
  use_glatt : bool
}.

(** The local variables of the loop of [optimize_max_batches]. *)
Module search.
Record state : Type := {
  lower_bound : Z;
  upper_bound : Z;
  max_feasible_result : option CombinedResult;
  max_feasible_batches : Z;
  iteration : Z
}.
End search.

Definition nl : string := String (Ascii.ascii_of_nat 10) EmptyString.

Definition is_none {A : Type} (o : option A) : bool :=
  match o with None => true | Some _ => false end.

(** *** The two loops, over any way of probing a batch count and a horizon *)

Section Loops.

(** [probe b n]: the aggregator called with demand [b] for every stage
    and horizon [n]. *)
Variable probe : Z -> Z -> Run (option CombinedResult).

(** [while result is None and current_days <= 365: ...]. *)
Fixpoint horizon_loop (fuel : nat) (total_batches current_days : Z)
    (result : option CombinedResult)
  : Run (outcome (Z * option CombinedResult)) :=
  if is_none result && (current_days <=? 365) then
    match fuel with
    | O => ret OutOfFuel
    | S fuel' =>
        let current_days := current_days + 7 in
        result <- probe total_batches current_days ;;
        horizon_loop fuel' total_batches current_days result
    end
  else ret (Returned (current_days, result)).

(** [while lower_bound <= upper_bound and iteration < max_iterations: ...]. *)
Fixpoint search_loop (fuel : nat) (num_workdays max_iterations : Z)
    (s : search.state) : Run (outcome search.state) :=
  if (search.lower_bound s <=? search.upper_bound s)
     && (search.iteration s <? max_iterations) then
    match fuel with
    | O => ret OutOfFuel
    | S fuel' =>
        let iteration := search.iteration s + 1 in
        let current_batches := (search.lower_bound s + search.upper_bound s) / 2 in
        result <- probe current_batches num_workdays ;;
        match result with
        | Some r =>
            search_loop fuel' num_workdays max_iterations
              {| search.lower_bound := current_batches + 1;
                 search.upper_bound := search.upper_bound s;
                 search.max_feasible_result := Some r;
                 search.max_feasible_batches := current_batches;
                 search.iteration := iteration |}
        | None =>
            search_loop fuel' num_workdays max_iterations
              {| search.lower_bound := search.lower_bound s;
                 search.upper_bound := current_batches - 1;
                 search.max_feasible_result := search.max_feasible_result s;
                 search.max_feasible_batches := search.max_feasible_batches s;
                 search.iteration := iteration |}
        end
    end
  else ret (Returned s).

End Loops.

Section Program.

(** The four imported stage solves. *)
Variable optimize_dispensing :
  Z -> Z -> Q -> Weights -> bool -> option pulp.Solver -> Run (option StageResult).
Variable optimize_granulation :
  Z -> Z -> Q -> Weights -> bool -> option pulp.Solver -> Run (option StageResult).
Variable optimize_tableting :
  Z -> Z -> bool -> bool -> bool -> Q -> Weights -> bool -> Run (option Tab_PS.TabResult).
Variable optimize_coating :
  Z -> Z -> bool -> bool -> Q -> Weights -> bool -> Run (option Coating_PS.CoatResult).

Definition combined_summary
    (disp_batches_req gran_batches_req tab_batches_req coat_batches_req num_workdays : Z)
    (disp_result gran_result : StageResult) (tab_result : Tab_PS.TabResult)
    (coat_result : Coating_PS.CoatResult) (total_staff total_staff_with_buffer : Z)
  : Run unit :=
  prints
    [ [Txt nl; Txt (Py.times "=" 60)];
      [Txt "           Combined OSD Production Schedule"];
      [Txt (Py.times "=" 60)];
      [Txt "Time Horizon: "; Num num_workdays; Txt " days"];
      [];
      [Txt "1) Dispensing Results:"];
      [Txt "   -------------------"];
      [Txt "   Batches Required: "; Num disp_batches_req];
      [Txt "   Batches Produced: "; Num (total_batches_produced disp_result)];
      [Txt "   Staff (min)     : "; Num (min_staff_required disp_result)];
      [Txt "   Days Used       : "; Num (days_used disp_result)];
      [Txt "   Solver Status   : "; Val (solver_status disp_result)];
      [];
      [Txt "2) Granulation Results:"];
      [Txt "   --------------------"];
      [Txt "   Batches Required: "; Num gran_batches_req];
      [Txt "   Batches Produced: "; Num (total_batches_produced gran_result)];
      [Txt "   Staff (min)     : "; Num (min_staff_required gran_result)];
      [Txt "   Days Used       : "; Num (days_used gran_result)];
      [Txt "   Solver Status   : "; Val (solver_status gran_result)];
      [];
      [Txt "3) Tableting Results:"];
      [Txt "   -------------------"];
      [Txt "   Batches Required: "; Num tab_batches_req];
      [Txt "   Batches Produced: "; Num (Tab_PS.total_batches_produced tab_result)];
      [Txt "   Staff (min)     : "; Num (Tab_PS.min_staff_required tab_result)];
      [Txt "   Days Used       : "; Num (Tab_PS.days_used tab_result)];
      [Txt "   Solver Status   : "; Val (Tab_PS.solver_status tab_result)];
      [];
      [Txt "4) Coating Results:"];
      [Txt "   -----------------"];
      [Txt "   Batches Required: "; Num coat_batches_req];
      [Txt "   Final Batches Produced: "; Num (Coating_PS.final_batches_count coat_result);
       Txt " (Solution="; Num (Coating_PS.total_solution_produced coat_result);
       Txt ", Coating="; Num (Coating_PS.total_coating_produced coat_result); Txt ")"];
      [Txt "   Staff (min)     : "; Num (Coating_PS.min_staff_required coat_result)];
      [Txt "   Days Used       : "; Num (Coating_PS.days_used coat_result)];
      [Txt "   Solver Status   : "; Val (Coating_PS.solver_status coat_result)];
      [];
      [Txt "------------------------------------------------------------"];
      [Txt "Approx. SUM of minimal staff across all 4 processes: "; Num total_staff];
      [Txt "Approx. SUM with buffer: "; Num total_staff_with_buffer];
      [Txt "------------------------------------------------------------"];
      [Txt (Py.times "=" 60)];
      [] ].

Definition optimize_osd_schedule
    (disp_batches_req gran_batches_req tab_batches_req coat_batches_req num_workdays : Z)
    (buffer_ratio : Q) (w : Weights) (t : Toggles) (print_combined : bool)
  : Run (option CombinedResult) :=
  (* 1) Run Dispensing *)
  disp_result <- optimize_dispensing disp_batches_req num_workdays buffer_ratio w
                   false None ;;
  match disp_result with
  | None => ret None
  | Some disp_result =>
  (* 2) Run Granulation *)
  gran_result <- optimize_granulation gran_batches_req num_workdays buffer_ratio w
                   false None ;;
  match gran_result with
  | None => ret None
  | Some gran_result =>
  (* 3) Run Tableting *)
  tab_result <- optimize_tableting tab_batches_req num_workdays
                  (use_p3030 t) (use_p3090i t) (use_ima t) buffer_ratio w false ;;
  match tab_result with
  | None => ret None
  | Some tab_result =>
  (* 4) Run Coating *)
  coat_result <- optimize_coating coat_batches_req num_workdays
                   (use_bosch t) (use_glatt t) buffer_ratio w false ;;
  match coat_result with
  | None => ret None
  | Some coat_result =>
  let total_staff :=
    min_staff_required disp_result
    + min_staff_required gran_result
    + Tab_PS.min_staff_required tab_result
    + Coating_PS.min_staff_required coat_result in
  let total_staff_with_buffer :=
    staff_with_buffer disp_result
    + staff_with_buffer gran_result
    + Tab_PS.staff_with_buffer tab_result
    + Coating_PS.staff_with_buffer coat_result in
  when print_combined
    (combined_summary disp_batches_req gran_batches_req tab_batches_req
       coat_batches_req num_workdays disp_result gran_result tab_result coat_result
       total_staff total_staff_with_buffer) ;;
  ret (Some {| dispensing := disp_result;
               granulation := gran_result;
               tableting := tab_result;
               coating := coat_result;
               total_min_staff_summed := total_staff;
               total_staff_with_buffer_summed := total_staff_with_buffer;
               total_days_needed := None;
               workdays_allocated := None;
               max_feasible_batches := None |})
  end end end end.

(** The aggregator as both searches call it: one demand for all four
    stages, no combined summary. *)
Definition probe (buffer_ratio : Q) (w : Weights) (t : Toggles)
    (batches num_workdays : Z) : Run (option CombinedResult) :=
  optimize_osd_schedule batches batches batches batches num_workdays
    buffer_ratio w t false.

Definition optimize_osd_schedule_with_total
    (total_batches initial_workdays : Z) (buffer_ratio : Q) (w : Weights)
    (t : Toggles) (print_combined : bool)
  : Run (outcome (option CombinedResult)) :=
  result <- probe buffer_ratio w t total_batches initial_workdays ;;
  let current_days := initial_workdays in
  looped <- horizon_loop (probe buffer_ratio w t)
              (Z.to_nat (366 - initial_workdays)) total_batches current_days result ;;
  match looped with
  | OutOfFuel => ret OutOfFuel
  | Returned (current_days, None) =>
      when print_combined
        (print [Txt "No feasible solution found even with 365 days!"]) ;;
      ret (Returned None)
  | Returned (current_days, Some result) =>
      let disp_days := days_used (dispensing result) in
      let gran_days := days_used (granulation result) in
      let tab_days := Tab_PS.days_used (tableting result) in
      let coat_days := Coating_PS.days_used (coating result) in
      let total_days_needed :=
        Py.max4 disp_days (disp_days + 1) (disp_days + 2) (disp_days + 3) in
      let result := set_days result total_days_needed current_days in
      when print_combined
        (prints
           [ [Txt nl; Txt (Py.times "=" 60)];
             [Txt "Production Schedule for "; Num total_batches; Txt " Total Batches"];
             [Txt (Py.times "=" 60)];
             [Txt "Total Days Needed: "; Num total_days_needed; Txt " days"];
             [Txt "Workdays Allocated: "; Num current_days; Txt " days"];
             [Txt nl; Txt "Process Breakdown:"];
             [Txt "Dispensing:   "; Num disp_days; Txt " days"];
             [Txt "Granulation:  "; Num gran_days; Txt " days"];
             [Txt "Tableting:    "; Num tab_days; Txt " days"];
             [Txt "Coating:      "; Num coat_days; Txt " days"];
             [Txt nl; Txt "Staffing Requirements:"];
             [Txt "Total Staff (min): "; Num (total_min_staff_summed result)];
             [Txt "Total Staff (with buffer): ";
              Num (total_staff_with_buffer_summed result)];
             [Txt (Py.times "=" 60)] ]) ;;
      ret (Returned (Some result))
  end.

Definition line_breakdown (process : string) (result : StageResult) : list (list frag) :=
  [ [Txt nl; Txt process; Txt ":"];
    [Txt "  Batches Produced: "; Num (total_batches_produced result)];
    [Txt "  Staff Required : "; Num (min_staff_required result);
     Txt " (with buffer: "; Num (staff_with_buffer result); Txt ")"];
    [Txt "  Days Used     : "; Num (days_used result)];
    [Txt "  Shifts Distribution:"];
    [Txt "    Morning: "; Num (morning_shifts result)];
    [Txt "    Evening: "; Num (evening_shifts result)];
    [Txt "    Night: "; Num (night_shifts result)] ].

Definition per_machine (c : Tab_PS.PerMachine Z) : frag :=
  Counts [("P3030"%string, Tab_PS.P3030 c); ("P3090i"%string, Tab_PS.P3090i c);
          ("IMA"%string, Tab_PS.IMA c)].

Definition per_process (c : Coating_PS.PerProcess Z) : frag :=
  Counts [("Solution"%string, Coating_PS.Solution c);
          ("BOSCH"%string, Coating_PS.BOSCH c);
          ("GLATT"%string, Coating_PS.GLATT c)].

Definition max_batches_summary (num_workdays max_feasible_batches : Z)
    (buffer_ratio : Q) (r : CombinedResult) : Run unit :=
  prints
    ([ [Txt nl; Txt (Py.times "=" 70)];
       [Txt "Maximum Feasible Production Schedule ("; Num num_workdays; Txt " days)"];
       [Txt (Py.times "=" 70)];
       [Txt "Maximum Batches Achievable: "; Num max_feasible_batches];
       [Txt nl; Txt "Process Breakdown:"];
       [Txt "-----------------"] ]
     ++ line_breakdown "Dispensing" (dispensing r)
     ++ line_breakdown "Granulation" (granulation r)
     ++ [ [Txt nl; Txt "Tableting"; Txt ":"];
          [Txt "  Batches Produced: ";
           Num (Tab_PS.total_batches_produced (tableting r))];
          [Txt "  Staff Required : "; Num (Tab_PS.min_staff_required (tableting r));
           Txt " (with buffer: "; Num (Tab_PS.staff_with_buffer (tableting r)); Txt ")"];
          [Txt "  Days Used     : "; Num (Tab_PS.days_used (tableting r))];
          [Txt "  Shifts Distribution:"];
          [Txt "    Morning: "; per_machine (Tab_PS.morning_shifts (tableting r))];
          [Txt "    Evening: "; per_machine (Tab_PS.evening_shifts (tableting r))];
          [Txt "    Night: "; per_machine (Tab_PS.night_shifts (tableting r))] ]
     ++ [ [Txt nl; Txt "Coating"; Txt ":"];
          [Txt "  Batches Produced: ";
           Num (Coating_PS.final_batches_count (coating r))];
          [Txt "  Staff Required : "; Num (Coating_PS.min_staff_required (coating r));
           Txt " (with buffer: "; Num (Coating_PS.staff_with_buffer (coating r));
           Txt ")"];
          [Txt "  Days Used     : "; Num (Coating_PS.days_used (coating r))];
          [Txt "  Shifts Distribution:"];
          [Txt "    Morning: "; per_process (Coating_PS.morning_shifts (coating r))];
          [Txt "    Evening: "; per_process (Coating_PS.evening_shifts (coating r))];
          [Txt "    Night: "; per_process (Coating_PS.night_shifts (coating r))] ]
     ++ [ [Txt nl; Txt "Total Resources Required:"];
          [Txt "--------------------------"];
          [Txt "Total Staff (minimum): "; Num (total_min_staff_summed r)];
          [Txt "Total Staff (with "; Num (Py.int (buffer_ratio * 100)%Q);
           Txt "% buffer): "; Num (total_staff_with_buffer_summed r)];
          [Txt (Py.times "=" 70)] ]).

Definition initial_state (num_workdays : Z) : search.state :=
  {| search.lower_bound := 1;
     search.upper_bound := num_workdays * 27;
     search.max_feasible_result := None;
     search.max_feasible_batches := 0;
     search.iteration := 0 |}.

Definition optimize_max_batches
    (num_workdays : Z) (buffer_ratio : Q) (w : Weights) (t : Toggles)
    (max_iterations : Z) (print_solution : bool)
  : Run (outcome (option CombinedResult)) :=
  looped <- search_loop (probe buffer_ratio w t) (Z.to_nat max_iterations)
              num_workdays max_iterations (initial_state num_workdays) ;;
  match looped with
  | OutOfFuel => ret OutOfFuel
  | Returned s =>
      match search.max_feasible_result s with
      | None =>
          when print_solution (print [Txt "No feasible solution found!"]) ;;
          ret (Returned None)
      | Some max_feasible_result =>
          let max_feasible_result :=
            set_max_feasible_batches max_feasible_result
              (search.max_feasible_batches s) in
          when print_solution
            (max_batches_summary num_workdays (search.max_feasible_batches s)
               buffer_ratio max_feasible_result) ;;
          ret (Returned (Some max_feasible_result))
      end
  end.

End Program.
End Formulation_PS.

(** ** The program as linked: the aggregator over the four stage modules *)

Module Scheduler.
Section Linked.

(** The solver objects: [SOLVER_INSTANCE] (Dispensing and Granulation),
    [solver] (Tableting) and [pulp.PULP_CBC_CMD(msg=0)] (Coating). *)
Variables SOLVER_INSTANCE solver PULP_CBC_CMD : pulp.Solver.

Definition optimize_osd_schedule :=
  Formulation_PS.optimize_osd_schedule
    (Dispensing_PS.optimize_dispensing SOLVER_INSTANCE)
    (Granulation_PS.optimize_granulation SOLVER_INSTANCE)
    (Tab_PS.optimize_tableting solver)
    (Coating_PS.optimize_coating PULP_CBC_CMD).

Definition optimize_osd_schedule_with_total :=
  Formulation_PS.optimize_osd_schedule_with_total
    (Dispensing_PS.optimize_dispensing SOLVER_INSTANCE)
    (Granulation_PS.optimize_granulation SOLVER_INSTANCE)
    (Tab_PS.optimize_tableting solver)
    (Coating_PS.optimize_coating PULP_CBC_CMD).

Definition optimize_max_batches :=
  Formulation_PS.optimize_max_batches
    (Dispensing_PS.optimize_dispensing SOLVER_INSTANCE)
    (Granulation_PS.optimize_granulation SOLVER_INSTANCE)
    (Tab_PS.optimize_tableting solver)
    (Coating_PS.optimize_coating PULP_CBC_CMD).

End Linked.
End Scheduler.

(** ** Loading the modules *)

(** The top level of each source file, as the interpreter runs it when
    the file is imported or started as a script: imports, the names bound
    by [def] and [class], and the block under
    [if __name__ == "__main__":]. *)
Module Loader.
Local Open Scope string_scope.

Inductive stmt : Type :=
| Import (module : string) (as_name : string)
| FromImport (module : string) (names : list string)
| Def (name : string)
| IfMain.

(** The source files of the repository; any other module is taken to be
    an installed library that imports without fault and has every name
    asked of it. *)
Definition source (module : string) : option (list stmt) :=
  if String.eqb module "Coating_PS" then
    Some [ Import "math" "math"; Import "pulp" "pulp";
           Def "safe_value"; Def "optimize_coating"; IfMain ]
  else if String.eqb module "Dispensing_PS" then
    Some [ Import "math" "math"; Import "pulp" "pulp";
           FromImport "PS_GUI3" ["SOLVER_INSTANCE"];
           Def "optimize_dispensing"; IfMain ]
  else if String.eqb module "Granulation_PS" then
    Some [ Import "math" "math"; Import "pulp" "pulp";
           FromImport "PS_GUI3" ["SOLVER_INSTANCE"];
           Def "optimize_granulation"; IfMain ]
  else if String.eqb module "Tab_PS" then
    Some [ Import "math" "math"; Import "pulp" "pulp";
           FromImport "PS_GUI3" ["solver"];
           Def "optimize_tableting"; IfMain ]
  else if String.eqb module "Formulation_PS" then
    Some [ Import "math" "math"; Import "pulp" "pulp";
           FromImport "Dispensing_PS" ["optimize_dispensing"];
           FromImport "Granulation_PS" ["optimize_granulation"];
           FromImport "Tab_PS" ["optimize_tableting"];
           FromImport "Coating_PS" ["optimize_coating"];
           Def "optimize_osd_schedule"; Def "optimize_osd_schedule_with_total";
           Def "optimize_max_batches"; IfMain ]
  else if String.eqb module "PS_GUI3" then
    Some [ Import "tkinter" "tk";
           FromImport "tkinter" ["ttk"; "messagebox"; "StringVar"; "DoubleVar"; "IntVar"];
           Import "pandas" "pd";
           FromImport "Formulation_PS"
             ["optimize_osd_schedule"; "optimize_osd_schedule_with_total";
              "optimize_max_batches"];
           FromImport "Dispensing_PS" ["optimize_dispensing"];
           FromImport "Granulation_PS" ["optimize_granulation"];
           FromImport "Tab_PS" ["optimize_tableting"];
           FromImport "Coating_PS" ["optimize_coating"];
           FromImport "matplotlib.figure" ["Figure"];
           FromImport "matplotlib.backends.backend_tkagg" ["FigureCanvasTkAgg"];
           Import "json" "json";
           FromImport "datetime" ["datetime"];
           Def "ModernProductionSchedulerGUI"; Def "main"; IfMain ]
  else None.

(** What a module has bound so far; a library has every name. *)
Inductive namespace : Type :=
| Names (bound : list string)
| Library.

(** [sys.modules], with the modules still being initialised in it. *)
Definition modules : Type := list (string * namespace).

Fixpoint lookup (m : string) (sys : modules) : option namespace :=
  match sys with
  | [] => None
  | (k, ns) :: rest => if String.eqb k m then Some ns else lookup m rest
  end.

Definition has_name (ns : namespace) (name : string) : bool :=
  match ns with
  | Library => true
  | Names bound => existsb (String.eqb name) bound
  end.

(** Bind names in the module [m]. *)
Fixpoint bind_names (m : string) (names : list string) (sys : modules) : modules :=
  match sys with
  | [] => []
  | (k, ns) :: rest =>
      if String.eqb k m
      then (k, match ns with
               | Names bound => Names (bound ++ names)%list
               | Library => Library
               end) :: rest
      else (k, ns) :: bind_names m names rest
  end.

Record state : Type := {
  sys_modules : modules;
  reached_main : bool
}.

Inductive outcome : Type :=
| Loaded (st : state)
| ImportError (module name : string) (st : state)
| OutOfFuel.

(** The first of [names] that [ns] does not have. *)
Fixpoint first_missing (ns : namespace) (names : list string) : option string :=
  match names with
  | [] => None
  | x :: rest => if has_name ns x then first_missing ns rest else Some x
  end.

(** Run the rest of the top level of the module [current]. *)
Fixpoint exec (fuel : nat) (current : string) (body : list stmt) (st : state) : outcome :=
  match fuel with
  | O => OutOfFuel
  | S fuel' =>
      (* make sure [m] is in [sys.modules], initialising it when it is not *)
      let load (m : string) (st : state) : outcome :=
        match lookup m (sys_modules st) with
        | Some _ => Loaded st
        | None =>
            match source m with
            | None =>
                Loaded {| sys_modules := (m, Library) :: sys_modules st;
                          reached_main := reached_main st |}
            | Some text =>
                exec fuel' m text
                  {| sys_modules := (m, Names []) :: sys_modules st;
                     reached_main := reached_main st |}
            end
        end in
      match body with
      | [] => Loaded st
      | Def name :: rest =>
          exec fuel' current rest
            {| sys_modules := bind_names current [name] (sys_modules st);
               reached_main := reached_main st |}
      | IfMain :: rest =>
          exec fuel' current rest
            {| sys_modules := sys_modules st;
               reached_main := reached_main st || String.eqb current "__main__" |}
      | Import m as_name :: rest =>
          match load m st with
          | Loaded st' =>
              exec fuel' current rest
                {| sys_modules := bind_names current [as_name] (sys_modules st');
                   reached_main := reached_main st' |}
          | failure => failure
          end
      | FromImport m names :: rest =>
          match load m st with
          | Loaded st' =>
              match lookup m (sys_modules st') with
              | None => OutOfFuel
              | Some ns =>
                  match first_missing ns names with
                  | Some name => ImportError m name st'
                  | None =>
                      exec fuel' current rest
                        {| sys_modules := bind_names current names (sys_modules st');
                           reached_main := reached_main st' |}
                  end
              end
          | failure => failure
          end
      end
  end.

(** [python file.py]: the file runs as the module [__main__]. *)
Definition run_script (fuel : nat) (file : string) : outcome :=
  match source file with
  | None => OutOfFuel
  | Some text =>
      exec fuel "__main__" text
        {| sys_modules := [("__main__", Names [])]; reached_main := false |}
  end.

(** [import module] in a new interpreter. *)
Definition import_module (fuel : nat) (module : string) : outcome :=
  exec fuel "__main__" [Import module module]
    {| sys_modules := [("__main__", Names [])]; reached_main := false |}.

(** The names the top level of a source file binds, when nothing fails. *)
Definition binds (module : string) : list string :=
  match source module with
  | None => []
  | Some text =>
      flat_map
        (fun s =>
           match s with
           | Import _ as_name => [as_name]
           | FromImport _ names => names
           | Def name => [name]
           | IfMain => []
           end)
        text
  end.

Definition failed_on (o : outcome) : option (string * string * bool) :=
  match o with
  | ImportError m name st => Some (m, name, reached_main st)
  | _ => None
  end.

End Loader.

(** * Vocabulary of the statements *)

Definition is_some {A : Type} (o : option A) : bool :=
  match o with Some _ => true | None => false end.

(** How many stage solves are made, given which of them succeed, in the
    order they are listed: all up to and including the first that fails. *)
Fixpoint stages_run (ok : list bool) : nat :=
  match ok with
  | [] => 0
  | b :: rest => if b then S (stages_run rest) else 1
  end.

Section Probing.
Import Formulation_PS.

(** A way of probing a batch count and a horizon: the aggregator with
    everything else fixed. *)
Variable P : Z -> Z -> Run (option CombinedResult).

(** The horizon of the [j]-th call, counted from the first one at [start]. *)
Definition horizon (start : Z) (j : nat) : Z := start + 7 * Z.of_nat j.

(** The logs of calls number [from], ..., [from + count - 1], in order. *)
Definition calls_log (B start : Z) (from count : nat) : list event :=
  flat_map (fun j => snd (P B (horizon start j))) (seq from count).

Variable n : Z.

(** The probes of a bisection of the interval from [lo] to [hi]: each
    one is the midpoint of the current interval; a probe that succeeds
    moves the lower end just above it, one that fails moves the upper
    end just below it.  The list may stop at any point. *)
Inductive bisection : Z -> Z -> list Z -> Prop :=
| bisection_stop lo hi : bisection lo hi []
| bisection_raise lo hi r ps :
    lo <= hi ->
    fst (P ((lo + hi) / 2) n) = Some r ->
    bisection ((lo + hi) / 2 + 1) hi ps ->
    bisection lo hi ((lo + hi) / 2 :: ps)
| bisection_lower lo hi ps :
    lo <= hi ->
    fst (P ((lo + hi) / 2) n) = None ->
    bisection lo ((lo + hi) / 2 - 1) ps ->
    bisection lo hi ((lo + hi) / 2 :: ps).

Definition probes_log (ps : list Z) : list event :=
  flat_map (fun p => snd (P p n)) ps.

(** What the loop remembers after a probe. *)
Definition record (best : option CombinedResult * Z) (p : Z)
  : option CombinedResult * Z :=
  match fst (P p n) with
  | Some r => (Some r, p)
  | None => best
  end.

(** The interval left after a probe. *)
Definition narrow (iv : Z * Z) (p : Z) : Z * Z :=
  match fst (P p n) with
  | Some _ => (p + 1, snd iv)
  | None => (fst iv, p - 1)
  end.

End Probing.

(** ** Concrete solvers, for running the program on examples *)

Module Examples.
Import pulp.

(** A solver that never solves anything. *)
Definition gives_up : Solver :=
  fun _ => {| status := LpStatusNotSolved; varValue := fun _ => 0%Q |}.

(** Every shift of every resource on every day, with a staff of 27. *)
Definition full_schedule : assignment :=
  fun v => match v with Staff => 27%Q | _ => 1%Q end.

(** Nothing scheduled at all. *)
Definition empty_schedule : assignment := fun _ => 0%Q.

(** A solver that proposes one fixed schedule and reports it optimal
    when it satisfies the model. *)
Definition proposes (candidate : assignment) : Solver :=
  fun m =>
    if feasible m candidate
    then {| status := LpStatusOptimal; varValue := candidate |}
    else {| status := LpStatusInfeasible; varValue := candidate |}.

Definition weights : Weights :=
  {| w_staff := 100; w_morning := 0; w_evening := 1 # 10;
     w_night := 2; w_weekend := 3; w_daysUsed := 1 |}.

Definition all_machines : Formulation_PS.Toggles :=
  {| Formulation_PS.use_p3030 := true; Formulation_PS.use_p3090i := true;
     Formulation_PS.use_ima := true; Formulation_PS.use_bosch := true;
     Formulation_PS.use_glatt := true |}.

End Examples.


(** The yield a machine adds to the capacity of a shift. *)
Definition yield (enabled : bool) (per_shift : Z) : Z :=
  if enabled then per_shift else 0.





Section Counting.
Import pulp.

(** The value is a whole number, so [int(...)] does not change it. *)
Definition integral (q : Q) : Prop := (q == inject_Z (Py.int q))%Q.

(** The machines of the stage with their switches. *)
Definition tab_machines (u1 u2 u3 : bool) : list (resource * bool) :=
  [(p3030, u1); (p3090i, u2); (ima, u3)].

(** The processes of the stage with their switches. *)
Definition coat_processes (ub ug : bool) : list (resource * bool) :=
  [(solution, true); (bosch, ub); (glatt, ug)].

(** The count the result reports for one process and one shift. *)
Definition coat_count (value : assignment) (s : shift) (r : resource) (u : bool)
    (n : Z) : Z :=
  if u then Coating_PS.var_sum value (fun d => Coating_PS.make_var (Shift s r d) u) n
  else 0.

End Counting.


(** The solver reports optimal every model of the family that is reported
    optimal at a larger demand. *)
Definition status_downward (solver : pulp.Solver) (model : Z -> pulp.LpProblem) : Prop :=
  forall B B', B' <= B ->
    pulp.status (solver (model B)) = pulp.LpStatusOptimal ->
    pulp.status (solver (model B')) = pulp.LpStatusOptimal.

(** The solver finds every model of the family that can be satisfied. *)
Definition complete_on (solver : pulp.Solver) (model : Z -> pulp.LpProblem) : Prop :=
  forall B, (exists a, pulp.feasible (model B) a = true) ->
            pulp.status (solver (model B)) = pulp.LpStatusOptimal.

(** The models of a family differ in the demand only: what satisfies one
    satisfies those of smaller demand. *)
Definition demand_only (model : Z -> pulp.LpProblem) : Prop :=
  forall B B' a, B' <= B ->
    pulp.feasible (model B) a = true -> pulp.feasible (model B') a = true.

(** ** What the searches change in a result *)


(** ** The throughput search between two probes *)

Section SearchInvariant.

Variable P : Z -> Z -> Run (option Formulation_PS.CombinedResult).
Variables n N : Z.


End SearchInvariant.

(** ** Printed lines *)

(** The log with its printed lines left out. *)
Definition without_prints (log : list event) : list event :=
  filter (fun e => negb (is_print e)) log.

(** A flag that only adds printed lines: the value returned does not
    depend on it, and the log without the flag is the log with it less
    the printed lines. *)
Definition only_prints {A : Type} (f : bool -> Run A) : Prop :=
  forall flag,
    fst (f flag) = fst (f false) /\ without_prints (snd (f flag)) = snd (f false).

(** Nothing is printed. *)
Definition silent (log : list event) : Prop := without_prints log = log.

(** The log of a stage solve whose model the solver did not report
    optimal: the model, the solver call and, when printing, the one line
    that shows the status. *)
Definition not_optimal_log (name : string) (shown : Py.value) (print_solution : bool)
  : list event :=
  [NewProblem name; SolverCall name]
  ++ (if print_solution
      then [Print [Txt "No optimal solution found! Solver status: "; Val shown]]
      else []).

(** * Properties *)

(** ** The log monad *)

Lemma fst_bind {A B : Type} (m : Run A) (k : A -> Run B) :
  fst (bind m k) = fst (k (fst m)).
Proof.
  unfold bind. destruct m as [x l1]. simpl. destruct (k x); reflexivity.
Qed.

Lemma snd_bind {A B : Type} (m : Run A) (k : A -> Run B) :
  snd (bind m k) = snd m ++ snd (k (fst m)).
Proof.
  unfold bind. destruct m as [x l1]. simpl. destruct (k x); reflexivity.
Qed.

Lemma bind_pair {A B : Type} (x : A) (l : list event) (k : A -> Run B) :
  bind (x, l) k = (fst (k x), l ++ snd (k x)).
Proof.
  unfold bind. destruct (k x); reflexivity.
Qed.

Lemma run_eta {A : Type} (m : Run A) : m = (fst m, snd m).
Proof. destruct m; reflexivity. Qed.

Lemma when_fst (b : bool) (m : Run unit) : fst (when b m) = tt.
Proof. destruct (when b m) as [[] ?]; reflexivity. Qed.

Lemma no_model_app (l1 l2 : list event) :
  no_model (l1 ++ l2) = no_model l1 && no_model l2.
Proof. apply forallb_app. Qed.

Lemma no_model_prints (ls : list (list frag)) : no_model (map Print ls) = true.
Proof. induction ls; simpl; auto. Qed.

Lemma solver_calls_app (l1 l2 : list event) :
  solver_calls (l1 ++ l2) = solver_calls l1 ++ solver_calls l2.
Proof. apply flat_map_app. Qed.

Lemma no_model_no_solver_calls (l : list event) :
  no_model l = true -> solver_calls l = [].
Proof.
  induction l as [|e l IH]; simpl; [reflexivity|].
  destruct e; simpl; try discriminate. exact IH.
Qed.

(** ** The status comparison of the Dispensing solve *)

(** An integer never equals a string: the test [solver_status != 'Optimal']
    on an integer status is always true. *)
Lemma int_ne_str (z : Z) (s : string) : Py.neb (Py.Int z) (Py.Str s) = true.
Proof. reflexivity. Qed.

Lemma dispensing_fst_none (SI : pulp.Solver) batches_required num_workdays
    buffer_ratio w print_solution solver :
  fst (Dispensing_PS.optimize_dispensing SI batches_required num_workdays
         buffer_ratio w print_solution solver) = None.
Proof.
  unfold Dispensing_PS.optimize_dispensing.
  destruct (9 * num_workdays <? batches_required).
  - rewrite fst_bind. reflexivity.
  - rewrite !fst_bind. rewrite int_ne_str. rewrite fst_bind. reflexivity.
Qed.

(** ** The horizon loop *)

Section HorizonLoop.
Import Formulation_PS.

Variable P : Z -> Z -> Run (option CombinedResult).

Lemma calls_log_shift B start from count :
  calls_log P B (start + 7) from count = calls_log P B start (S from) count.
Proof.
  unfold calls_log. revert from.
  induction count as [|count IH]; intros from; simpl; [reflexivity|].
  rewrite IH. f_equal. unfold horizon. f_equal. f_equal. lia.
Qed.

Lemma horizon_loop_spec (fuel : nat) :
  forall B cur res,
    366 - cur <= Z.of_nat fuel ->
    exists (k : nat) (res' : option CombinedResult),
      horizon_loop P fuel B cur res
      = (Returned (horizon cur k, res'), calls_log P B cur 1 k)
      /\ (res' <> None \/ 365 < horizon cur k)
      /\ (k = 0%nat -> res' = res)
      /\ (k <> 0%nat ->
          res = None /\ cur <= 365 /\ res' = fst (P B (horizon cur k))
          /\ forall j, (1 <= j < k)%nat ->
               fst (P B (horizon cur j)) = None /\ horizon cur j <= 365).
Proof.
  induction fuel as [|fuel IH]; intros B cur res Hfuel.
  - exists 0%nat, res. cbn [horizon_loop].
    destruct res as [r|]; cbn [is_none andb].
    + unfold horizon. rewrite Z.add_0_r. repeat split; try congruence.
      left; congruence.
    + destruct (Z.leb_spec cur 365); [lia|].
      unfold horizon. rewrite Z.add_0_r. repeat split; try congruence.
      right; lia.
  - cbn [horizon_loop]. destruct res as [r|]; cbn [is_none andb].
    + exists 0%nat, (Some r). unfold horizon. rewrite Z.add_0_r.
      repeat split; try congruence. left; congruence.
    + destruct (Z.leb_spec cur 365) as [Hle|Hgt].
      * destruct (IH B (cur + 7) (fst (P B (cur + 7)))) as (k & res' & Heq & Hstop & H0 & HS);
          [lia|].
        exists (S k), res'.
        assert (Hh : forall j, horizon (cur + 7) j = horizon cur (S j))
          by (intros j; unfold horizon; lia).
        rewrite (run_eta (P B (cur + 7))), bind_pair, Heq. cbn [fst snd].
        rewrite Hh, calls_log_shift.
        split; [|split; [|split]].
        -- reflexivity.
        -- rewrite <- Hh. exact Hstop.
        -- discriminate.
        -- intros _. split; [reflexivity|]. split; [exact Hle|].
           destruct k as [|k'].
           ++ split.
              ** rewrite (H0 eq_refl). reflexivity.
              ** intros j Hj. lia.
           ++ destruct (HS ltac:(discriminate)) as (Hn & Hc & Hr & Hall).
              split.
              ** rewrite Hr, Hh. reflexivity.
              ** intros j Hj. destruct j as [|j]; [lia|].
                 destruct j as [|j].
                 --- replace (horizon cur 1) with (cur + 7) by (unfold horizon; lia).
                     split; [exact Hn | lia].
                 --- rewrite <- Hh. apply Hall. lia.
      * exists 0%nat, None. unfold horizon. rewrite Z.add_0_r.
        repeat split; try congruence. right; lia.
Qed.

End HorizonLoop.

(** ** The bisection loop *)

Section SearchLoop.
Import Formulation_PS.

Variable P : Z -> Z -> Run (option CombinedResult).
Variable n : Z.






Lemma search_loop_spec (fuel : nat) :
  forall max_iterations s,
    max_iterations - search.iteration s <= Z.of_nat fuel ->
    exists (ps : list Z) (s' : search.state),
      search_loop P fuel n max_iterations s = (Returned s', probes_log P n ps)
      /\ bisection P n (search.lower_bound s) (search.upper_bound s) ps
      /\ search.iteration s' = search.iteration s + Z.of_nat (List.length ps)
      /\ Z.of_nat (List.length ps) <= Z.max 0 (max_iterations - search.iteration s)
      /\ (search.upper_bound s' < search.lower_bound s'
          \/ max_iterations <= search.iteration s')
      /\ (search.max_feasible_result s', search.max_feasible_batches s')
         = fold_left (record P n) ps
             (search.max_feasible_result s, search.max_feasible_batches s)
      /\ (search.lower_bound s', search.upper_bound s')
         = fold_left (narrow P n) ps (search.lower_bound s, search.upper_bound s).
Proof.
  induction fuel as [|fuel IH]; intros max_iterations s Hfuel.
  - exists [], s. cbn [search_loop].
    destruct (Z.leb_spec (search.lower_bound s) (search.upper_bound s));
      destruct (Z.ltb_spec (search.iteration s) max_iterations);
      cbn [andb]; try lia;
      (split; [reflexivity|]; split; [constructor|]; cbn [List.length fold_left];
       repeat split; lia).
  - cbn [search_loop].
    destruct (Z.leb_spec (search.lower_bound s) (search.upper_bound s)) as [Hle|Hgt];
      destruct (Z.ltb_spec (search.iteration s) max_iterations) as [Hlt|Hge];
      cbn [andb];
      try (exists [], s; split; [reflexivity|]; split; [constructor|];
           cbn [List.length fold_left]; repeat split; lia).
    set (mid := (search.lower_bound s + search.upper_bound s) / 2).
    rewrite (run_eta (P mid n)), bind_pair.
    destruct (fst (P mid n)) as [r|] eqn:Hmid.
    + match goal with |- context [search_loop P fuel n max_iterations ?s1] =>
        destruct (IH max_iterations s1)
          as (ps & s' & Heq & Hb & Hit & Hlen & Hstop & Hrec & Hnar);
          [cbn; lia|]
      end.
      cbn [search.lower_bound search.upper_bound search.iteration
           search.max_feasible_result search.max_feasible_batches] in *.
      exists (mid :: ps), s'. rewrite Heq. cbn [fst snd].
      split; [reflexivity|]. split; [eapply bisection_raise; eassumption|].
      cbn [List.length fold_left]. unfold record at 2. unfold narrow at 2.
      rewrite Hmid. cbn [fst snd].
      repeat split; try lia; assumption.
    + match goal with |- context [search_loop P fuel n max_iterations ?s1] =>
        destruct (IH max_iterations s1)
          as (ps & s' & Heq & Hb & Hit & Hlen & Hstop & Hrec & Hnar);
          [cbn; lia|]
      end.
      cbn [search.lower_bound search.upper_bound search.iteration
           search.max_feasible_result search.max_feasible_batches] in *.
      exists (mid :: ps), s'. rewrite Heq. cbn [fst snd].
      split; [reflexivity|]. split; [eapply bisection_lower; eassumption|].
      cbn [List.length fold_left]. unfold record at 2. unfold narrow at 2.
      rewrite Hmid. cbn [fst snd].
      repeat split; try lia; assumption.
Qed.

End SearchLoop.

(** ** The two searches, over any four stage solves *)

Section Searches.
Import Formulation_PS.

Variable D : Z -> Z -> Q -> Weights -> bool -> option pulp.Solver -> Run (option StageResult).
Variable G : Z -> Z -> Q -> Weights -> bool -> option pulp.Solver -> Run (option StageResult).
Variable T : Z -> Z -> bool -> bool -> bool -> Q -> Weights -> bool
             -> Run (option Tab_PS.TabResult).
Variable C : Z -> Z -> bool -> bool -> Q -> Weights -> bool
             -> Run (option Coating_PS.CoatResult).



(** When no probe ever succeeds, both searches end with [None]. *)
Lemma horizon_search_none total_batches initial_workdays buffer_ratio w t print_combined :
  (forall b h, fst (probe D G T C buffer_ratio w t b h) = None) ->
  fst (optimize_osd_schedule_with_total D G T C total_batches initial_workdays
         buffer_ratio w t print_combined) = Returned None.
Proof.
  intros Hnone. unfold optimize_osd_schedule_with_total.
  set (P := probe D G T C buffer_ratio w t) in *.
  destruct (horizon_loop_spec P (Z.to_nat (366 - initial_workdays)) total_batches
              initial_workdays (fst (P total_batches initial_workdays)) ltac:(lia))
    as (k & res' & Heq & _ & H0 & HS).
  assert (Hres : res' = None).
  { destruct k as [|k]; [rewrite (H0 eq_refl); apply Hnone|].
    destruct (HS ltac:(discriminate)) as (_ & _ & -> & _). apply Hnone. }
  subst res'.
  rewrite !fst_bind, Heq. cbn [fst]. rewrite fst_bind. reflexivity.
Qed.

Lemma record_fold_none P n ps b0 :
  (forall p, fst (P p n) = None) ->
  fold_left (record P n) ps (None, b0) = (None, b0).
Proof.
  intros Hnone. induction ps as [|p ps IH]; [reflexivity|].
  cbn [fold_left]. unfold record at 2. rewrite Hnone. exact IH.
Qed.

Lemma max_batches_none num_workdays buffer_ratio w t max_iterations print_solution :
  (forall b h, fst (probe D G T C buffer_ratio w t b h) = None) ->
  fst (optimize_max_batches D G T C num_workdays buffer_ratio w t max_iterations
         print_solution) = Returned None.
Proof.
  intros Hnone. unfold optimize_max_batches.
  set (P := probe D G T C buffer_ratio w t) in *.
  destruct (search_loop_spec P num_workdays (Z.to_nat max_iterations) max_iterations
              (initial_state num_workdays))
    as (ps & s' & Heq & _ & _ & _ & _ & Hrec & _);
    [cbn; lia|].
  cbn [initial_state search.max_feasible_result search.max_feasible_batches] in Hrec.
  rewrite record_fold_none in Hrec by (intros; apply Hnone).
  injection Hrec as Hres _.
  rewrite fst_bind, Heq. cbn [fst]. rewrite Hres, fst_bind. reflexivity.
Qed.



End Searches.

(** The proposing solver keeps the contract. *)
Lemma proposes_sound candidate : pulp.sound (Examples.proposes candidate).
Proof.
  intros m. unfold Examples.proposes.
  destruct (pulp.feasible m candidate) eqn:H; simpl; [auto | discriminate].
Qed.

Ltac log_simpl :=
  repeat (rewrite ?fst_bind, ?snd_bind;
          cbn [fst snd ret when print prints pulp.new_problem pulp.solve app map]).

(** ** Dispensing: the solve never yields a result *)

Lemma dispensing_log (SI : pulp.Solver) batches_required num_workdays
    buffer_ratio w print_solution solver :
  let log := snd (Dispensing_PS.optimize_dispensing SI batches_required num_workdays
                    buffer_ratio w print_solution solver) in
  if 9 * num_workdays <? batches_required
  then no_model log = true
  else solver_calls log = ["DispensingSchedule"%string].
Proof.
  unfold Dispensing_PS.optimize_dispensing.
  destruct (9 * num_workdays <? batches_required).
  - destruct print_solution; reflexivity.
  - log_simpl. rewrite int_ne_str. log_simpl.
    destruct print_solution; log_simpl; [|reflexivity].
    destruct (0 <? _); reflexivity.
Qed.

Lemma linked_aggregator_none (SI TS CBC : pulp.Solver)
    disp_batches_req gran_batches_req tab_batches_req coat_batches_req num_workdays
    buffer_ratio w t print_combined :
  fst (Scheduler.optimize_osd_schedule SI TS CBC disp_batches_req gran_batches_req
         tab_batches_req coat_batches_req num_workdays buffer_ratio w t print_combined)
  = None.
Proof.
  unfold Scheduler.optimize_osd_schedule, Formulation_PS.optimize_osd_schedule.
  rewrite fst_bind, dispensing_fst_none. reflexivity.
Qed.

(** C1: the Dispensing solve compares the integer status it got from
    [model.solve] with the string ['Optimal']; the two are never equal,
    so for every input --- whether the capacity check rejects it or the
    solver is called on it --- the solve returns [None].  Hence the
    aggregator returns [None] for every input, and so do the horizon
    search and the throughput search, both of which terminate. *)
Theorem dispensing_status_never_optimal :
  forall (SI TS CBC : pulp.Solver),
    (forall z s, Py.neb (Py.Int z) (Py.Str s) = true)
    /\ (forall batches_required num_workdays buffer_ratio w print_solution solver,
          let run := Dispensing_PS.optimize_dispensing SI batches_required num_workdays
                       buffer_ratio w print_solution solver in
          fst run = None
          /\ if 9 * num_workdays <? batches_required
             then no_model (snd run) = true
             else solver_calls (snd run) = ["DispensingSchedule"%string])
    /\ (forall disp_req gran_req tab_req coat_req num_workdays buffer_ratio w t print_combined,
          fst (Scheduler.optimize_osd_schedule SI TS CBC disp_req gran_req tab_req
                 coat_req num_workdays buffer_ratio w t print_combined) = None)
    /\ (forall total_batches initial_workdays buffer_ratio w t print_combined,
          fst (Scheduler.optimize_osd_schedule_with_total SI TS CBC total_batches
                 initial_workdays buffer_ratio w t print_combined) = Returned None)
    /\ (forall num_workdays buffer_ratio w t max_iterations print_solution,
          fst (Scheduler.optimize_max_batches SI TS CBC num_workdays buffer_ratio w t
                 max_iterations print_solution) = Returned None).
Proof.
  intros SI TS CBC.
  split; [exact int_ne_str|].
  split; [intros; split; [apply dispensing_fst_none | apply dispensing_log]|].
  split; [intros; apply linked_aggregator_none|].
  assert (Hprobe : forall br w t b h,
            fst (Formulation_PS.probe
                   (Dispensing_PS.optimize_dispensing SI)
                   (Granulation_PS.optimize_granulation SI)
                   (Tab_PS.optimize_tableting TS)
                   (Coating_PS.optimize_coating CBC) br w t b h) = None).
  { intros. apply (linked_aggregator_none SI TS CBC). }
  split.
  - intros. apply horizon_search_none. apply Hprobe.
  - intros. apply max_batches_none. apply Hprobe.
Qed.

(** ** The aggregator, over any four stage solves *)

(** C5: the aggregator runs Dispensing, Granulation, Tableting and
    Coating in that order, each with the same weights, buffer ratio and
    horizon (and without printing); the log is that of the stages up to
    and including the first one that returns [None], and nothing of a
    later stage; the result is [None] exactly when some stage returns
    [None]; otherwise it holds the four stage results and the two sums
    of their minimum and buffered staff. *)
Theorem aggregator_runs_stages_in_order :
  forall (D G : Z -> Z -> Q -> Weights -> bool -> option pulp.Solver
                -> Run (option StageResult))
         (T : Z -> Z -> bool -> bool -> bool -> Q -> Weights -> bool
              -> Run (option Tab_PS.TabResult))
         (C : Z -> Z -> bool -> bool -> Q -> Weights -> bool
              -> Run (option Coating_PS.CoatResult))
         disp_req gran_req tab_req coat_req num_workdays buffer_ratio w t print_combined,
    let disp := D disp_req num_workdays buffer_ratio w false None in
    let gran := G gran_req num_workdays buffer_ratio w false None in
    let tab := T tab_req num_workdays (Formulation_PS.use_p3030 t)
                 (Formulation_PS.use_p3090i t) (Formulation_PS.use_ima t)
                 buffer_ratio w false in
    let coat := C coat_req num_workdays (Formulation_PS.use_bosch t)
                  (Formulation_PS.use_glatt t) buffer_ratio w false in
    let ok := [is_some (fst disp); is_some (fst gran); is_some (fst tab);
               is_some (fst coat)] in
    let run := Formulation_PS.optimize_osd_schedule D G T C disp_req gran_req tab_req
                 coat_req num_workdays buffer_ratio w t print_combined in
    exists printed,
      snd run = List.concat (firstn (stages_run ok) [snd disp; snd gran; snd tab; snd coat])
                ++ printed
      /\ no_model printed = true
      /\ (fst run = None <-> existsb negb ok = true)
      /\ match fst run with
         | None => True
         | Some r =>
             fst disp = Some (Formulation_PS.dispensing r)
             /\ fst gran = Some (Formulation_PS.granulation r)
             /\ fst tab = Some (Formulation_PS.tableting r)
             /\ fst coat = Some (Formulation_PS.coating r)
             /\ Formulation_PS.total_min_staff_summed r
                = min_staff_required (Formulation_PS.dispensing r)
                  + min_staff_required (Formulation_PS.granulation r)
                  + Tab_PS.min_staff_required (Formulation_PS.tableting r)
                  + Coating_PS.min_staff_required (Formulation_PS.coating r)
             /\ Formulation_PS.total_staff_with_buffer_summed r
                = staff_with_buffer (Formulation_PS.dispensing r)
                  + staff_with_buffer (Formulation_PS.granulation r)
                  + Tab_PS.staff_with_buffer (Formulation_PS.tableting r)
                  + Coating_PS.staff_with_buffer (Formulation_PS.coating r)
         end.
Proof.
  intros D G T C disp_req gran_req tab_req coat_req num_workdays buffer_ratio w t
         print_combined disp gran tab coat ok run.
  subst run ok. unfold Formulation_PS.optimize_osd_schedule.
  fold disp.
  rewrite (run_eta disp), bind_pair.
  destruct (fst disp) as [d|]; cbn [is_some stages_run firstn List.concat fst snd ret];
    [|exists []; rewrite !app_nil_r; repeat split; auto; discriminate].
  fold gran. rewrite (run_eta gran), bind_pair.
  destruct (fst gran) as [g|]; cbn [is_some stages_run firstn List.concat fst snd ret];
    [|exists []; rewrite !app_nil_r; repeat split; auto; discriminate].
  fold tab. rewrite (run_eta tab), bind_pair.
  destruct (fst tab) as [tr|]; cbn [is_some stages_run firstn List.concat fst snd ret];
    [|exists []; rewrite !app_nil_r; repeat split; auto; discriminate].
  fold coat. rewrite (run_eta coat), bind_pair.
  destruct (fst coat) as [c|]; cbn [is_some stages_run firstn List.concat fst snd ret];
    [|exists []; rewrite !app_nil_r; repeat split; auto; discriminate].
  rewrite fst_bind, snd_bind. cbn [fst snd ret].
  rewrite !app_nil_r.
  match goal with
  | |- exists _, _ ++ _ ++ _ ++ _ ++ ?summary = _ /\ _ => exists summary
  end.
  split; [rewrite !app_assoc; reflexivity|].
  split; [destruct print_combined; [apply no_model_prints | reflexivity]|].
  split; [split; discriminate|].
  cbn. repeat split; reflexivity.
Qed.

(** ** Stages without an enabled resource *)

(** C9: with every machine of Tableting, or of Coating, switched off,
    the stage solve returns [None] for every demand and horizon; it
    prints at most one line, builds no model and never calls the
    solver. *)
Theorem no_enabled_machine_is_infeasible :
  forall (TS CBC : pulp.Solver) batches_required num_workdays buffer_ratio w
         print_solution,
    Tab_PS.optimize_tableting TS batches_required num_workdays false false false
      buffer_ratio w print_solution
    = (None,
       if print_solution
       then [Print [Txt "No machines selected => cannot produce any batches. Infeasible."]]
       else [])
    /\ Coating_PS.optimize_coating CBC batches_required num_workdays false false
         buffer_ratio w print_solution
       = (None,
          if print_solution
          then [Print [Txt "No coating machines selected => cannot produce any coated batches. Infeasible."]]
          else [])
    /\ no_model (snd (Tab_PS.optimize_tableting TS batches_required num_workdays
                        false false false buffer_ratio w print_solution)) = true
    /\ solver_calls (snd (Tab_PS.optimize_tableting TS batches_required num_workdays
                            false false false buffer_ratio w print_solution)) = []
    /\ no_model (snd (Coating_PS.optimize_coating CBC batches_required num_workdays
                        false false buffer_ratio w print_solution)) = true
    /\ solver_calls (snd (Coating_PS.optimize_coating CBC batches_required num_workdays
                            false false buffer_ratio w print_solution)) = [].
Proof.
  intros. destruct print_solution; repeat split; reflexivity.
Qed.

(** ** Zero demand *)

(** C2, on the input where the code departs from it: with a demand of 0
    and a horizon of one day the capacity check does not reject, the
    model is built and the solver is called, and the Dispensing solve
    returns [None] all the same, whatever the solver answers. *)
Theorem dispensing_zero_demand_returns_none :
  forall (SI : pulp.Solver) buffer_ratio w print_solution solver,
    let run := Dispensing_PS.optimize_dispensing SI 0 1 buffer_ratio w
                 print_solution solver in
    (9 * 1 <? 0) = false
    /\ fst run = None
    /\ solver_calls (snd run) = ["DispensingSchedule"%string].
Proof.
  intros. split; [reflexivity|]. split.
  - apply dispensing_fst_none.
  - apply (dispensing_log SI 0 1).
Qed.

(** The same input with a solver that reports the empty schedule as
    optimal: Granulation, whose model is the same, returns the result
    with no shift, no staff and no day used; Dispensing returns [None]. *)
Example zero_demand_granulation_and_dispensing :
  let solver := Examples.proposes Examples.empty_schedule in
  pulp.status (solver (Dispensing_PS.model 0 1 Examples.weights)) = pulp.LpStatusOptimal
  /\ fst (Dispensing_PS.optimize_dispensing solver 0 1 0 Examples.weights false None)
     = None
  /\ fst (Granulation_PS.optimize_granulation solver 0 1 0 Examples.weights false None)
     = Some {| morning_shifts := 0; evening_shifts := 0; night_shifts := 0;
               total_batches_produced := 0; pct_demand_completed := 0;
               min_staff_required := 0; staff_with_buffer := 0; days_used := 0;
               num_workdays_horizon := 1;
               solver_status := Py.Str "Optimal" |}.
Proof. vm_compute. repeat split; reflexivity. Qed.

(** ** The capacity check *)


Ltac split_flags :=
  repeat match goal with
         | |- context [when ?b _] =>
             lazymatch b with
             | true => fail
             | false => fail
             | _ => destruct b
             end
         | _ => progress log_simpl
         end.

(** Evaluate the closed capacity that multiplies the horizon [n]. *)
Ltac fold_capacity n :=
  repeat match goal with
         | |- context [?x * n] =>
             let v := eval vm_compute in x in progress change x with v
         end.

(** Evaluate the closed test for "no machine at all". *)
Ltac fold_zero_test :=
  repeat match goal with
         | |- context [?x =? 0] =>
             let v := eval vm_compute in (x =? 0) in
             progress change (x =? 0) with v
         end;
  cbv iota.



(** ** Values of integer variables, and sums of them *)

Section Integral.
Import pulp.

Lemma int_of_integer (q : Q) (z : Z) : (q == inject_Z z)%Q -> Py.int q = z.
Proof.
  intros H.
  assert (Hf : Qfloor q = z) by (rewrite H; apply Qfloor_Z).
  assert (Hc : Qceiling q = z) by (rewrite H; apply Qceiling_Z).
  unfold Py.int. destruct (Qle_bool 0 q); assumption.
Qed.

Lemma int_comp (q q' : Q) : (q == q')%Q -> Py.int q = Py.int q'.
Proof.
  intros H.
  assert (Hle : Qle_bool 0 q = Qle_bool 0 q') by (rewrite H; reflexivity).
  assert (Hf : Qfloor q = Qfloor q') by (rewrite H; reflexivity).
  assert (Hc : Qceiling q = Qceiling q') by (rewrite H; reflexivity).
  unfold Py.int. rewrite Hle, Hf, Hc. reflexivity.
Qed.

Lemma binary_value (a : assignment) (v : LpVariable) :
  in_domain a (v, LpBinary) = true ->
  integral (a v) /\ 0 <= Py.int (a v) <= 1.
Proof.
  unfold in_domain, integral. cbn [fst snd]. intros H.
  apply orb_true_iff in H. destruct H as [H|H]; apply Qeq_bool_iff in H.
  - rewrite (int_of_integer (a v) 0 H). split; [exact H | lia].
  - rewrite (int_of_integer (a v) 1 H). split; [exact H | lia].
Qed.

Lemma integer_value (a : assignment) (v : LpVariable) (lb : Z) :
  in_domain a (v, LpInteger (Some lb)) = true ->
  integral (a v) /\ lb <= Py.int (a v).
Proof.
  unfold in_domain, integral. cbn [fst snd]. intros H.
  apply andb_true_iff in H. destruct H as [Hint Hlb].
  apply Qeq_bool_iff in Hint. apply Qle_bool_iff in Hlb.
  assert (Hz : Py.int (a v) = Qfloor (a v))
    by (apply int_of_integer; symmetry; exact Hint).
  rewrite Hz. split; [symmetry; exact Hint|].
  rewrite <- Hint in Hlb. rewrite <- Zle_Qle in Hlb. exact Hlb.
Qed.

Lemma lpSum_integral (f : Z -> Q) (l : list Z) :
  (forall d, In d l -> integral (f d)) ->
  (lpSum (map f l) == inject_Z (Py.sum (map (fun d => Py.int (f d)) l)))%Q.
Proof.
  induction l as [|d l IH]; intros H; cbn [map lpSum Py.sum fold_right].
  - reflexivity.
  - rewrite inject_Z_plus. apply Qplus_comp.
    + apply H. left. reflexivity.
    + apply IH. intros; apply H; right; assumption.
Qed.

Lemma lpSum_ext (f g : Z -> Q) (l : list Z) :
  (forall d, In d l -> (f d == g d)%Q) ->
  (lpSum (map f l) == lpSum (map g l))%Q.
Proof.
  induction l as [|d l IH]; intros H; cbn [map lpSum fold_right]; [reflexivity|].
  apply Qplus_comp.
  - apply H. left. reflexivity.
  - apply IH. intros; apply H; right; assumption.
Qed.

Lemma lpSum_plus (f g : Z -> Q) (l : list Z) :
  (lpSum (map (fun d => f d + g d) l) == lpSum (map f l) + lpSum (map g l))%Q.
Proof.
  induction l as [|d l IH]; cbn [map lpSum fold_right]; [reflexivity|].
  fold (lpSum (map f l)). fold (lpSum (map g l)).
  fold (lpSum (map (fun d => f d + g d)%Q l)). rewrite IH. ring.
Qed.

Lemma lpSum_scale (c : Q) (f : Z -> Q) (l : list Z) :
  (lpSum (map (fun d => c * f d) l) == c * lpSum (map f l))%Q.
Proof.
  induction l as [|d l IH]; cbn [map lpSum fold_right]; [ring|].
  fold (lpSum (map f l)). fold (lpSum (map (fun d => c * f d)%Q l)). rewrite IH. ring.
Qed.

(** A list with three entries a day sums to the three daily sums. *)
Lemma lpSum_three_a_day (x y z : Z -> Q) (l : list Z) :
  (lpSum (flat_map (fun d => [x d; y d; z d]) l)
   == lpSum (map x l) + lpSum (map y l) + lpSum (map z l))%Q.
Proof.
  induction l as [|d l IH]; cbn [flat_map map lpSum fold_right app]; [ring|].
  fold (lpSum (map x l)). fold (lpSum (map y l)). fold (lpSum (map z l)).
  fold (lpSum (flat_map (fun d => [x d; y d; z d]) l)). rewrite IH. ring.
Qed.

Lemma sum_plus (f g : Z -> Z) (l : list Z) :
  Py.sum (map (fun d => f d + g d) l) = Py.sum (map f l) + Py.sum (map g l).
Proof.
  induction l as [|d l IH]; cbn [map Py.sum fold_right]; [reflexivity|].
  fold (Py.sum (map f l)). fold (Py.sum (map g l)).
  fold (Py.sum (map (fun d => f d + g d) l)). rewrite IH. lia.
Qed.

Lemma lpSum_zero (l : list Z) : (lpSum (map (fun _ => 0) l) == 0)%Q.
Proof.
  induction l as [|d l IH]; cbn [map lpSum fold_right]; [reflexivity|].
  fold (lpSum (map (fun _ : Z => 0%Q) l)). rewrite IH. ring.
Qed.

(** A weighted sum of three terms a day. *)
Lemma lpSum_weighted (x y z : Z -> Q) (cx cy cz : Q) (l : list Z) :
  (lpSum (map (fun d => x d * cx + y d * cy + z d * cz) l)
   == lpSum (map x l) * cx + lpSum (map y l) * cy + lpSum (map z l) * cz)%Q.
Proof.
  induction l as [|d l IH]; cbn [map lpSum fold_right]; [ring|].
  fold (lpSum (map x l)). fold (lpSum (map y l)). fold (lpSum (map z l)).
  fold (lpSum (map (fun d => x d * cx + y d * cy + z d * cz)%Q l)). rewrite IH. ring.
Qed.

(** A running total kept in a loop is the sum of what each day adds. *)
Lemma running_total (step : Q -> Z -> Q) (f : Z -> Q) (l : list Z) :
  (forall acc d, (step acc d == acc + f d)%Q) ->
  forall q0, (fold_left step l q0 == q0 + lpSum (map f l))%Q.
Proof.
  intros Hstep. induction l as [|d l IH]; intros q0; cbn [fold_left map lpSum fold_right].
  - ring.
  - fold (lpSum (map f l)). rewrite IH, Hstep. ring.
Qed.

(** The status string is ['Optimal'] only for the optimal status. *)
Lemma status_string_optimal (st : LpStatusT) :
  Py.neb (Py.Str (LpStatus st)) (Py.Str "Optimal") = false -> st = LpStatusOptimal.
Proof. destruct st; cbn; intros H; (reflexivity || discriminate). Qed.

Lemma feasible_domain (m : LpProblem) (a : assignment) vc :
  feasible m a = true -> In vc (variables m) -> in_domain a vc = true.
Proof.
  unfold feasible. intros H Hin. apply andb_true_iff in H. destruct H as [H _].
  rewrite forallb_forall in H. apply H. exact Hin.
Qed.

Lemma feasible_holds (m : LpProblem) (a : assignment) c :
  feasible m a = true -> In c (constraints m) -> (c_rhs c a <= c_lhs c a)%Q.
Proof.
  unfold feasible. intros H Hin. apply andb_true_iff in H. destruct H as [_ H].
  rewrite forallb_forall in H. apply Qle_bool_iff. apply (H c Hin).
Qed.

End Integral.

(** ** Results of the line stages meet the demand *)

Section LineStages.
Import pulp.

Lemma range_declared_line (n : Z) (s : shift) (d : Z) :
  In d (Py.range n) -> In (Shift s line d, LpBinary) (Granulation_PS.declared n).
Proof.
  intros Hd. unfold Granulation_PS.declared.
  destruct s.
  - apply in_or_app. left. apply (in_map (fun d => (Shift Morning line d, LpBinary))).
    exact Hd.
  - apply in_or_app. right. apply in_or_app. left.
    apply (in_map (fun d => (Shift Evening line d, LpBinary))). exact Hd.
  - apply in_or_app. right. apply in_or_app. right. apply in_or_app. left.
    apply (in_map (fun d => (Shift Night line d, LpBinary))). exact Hd.
Qed.

(** What a successful Granulation solve returns, in terms of the values
    the solver handed back. *)
Lemma granulation_success (SI : Solver) B n br w p solver r :
  fst (Granulation_PS.optimize_granulation SI B n br w p solver) = Some r ->
  let used := match solver with Some s => s | None => SI end in
  let value := varValue (used (Granulation_PS.model B n w)) in
  let count s := Py.sum (map (fun d => Py.int (value (Shift s line d))) (Py.range n)) in
  (9 * n <? B) = false
  /\ status (used (Granulation_PS.model B n w)) = LpStatusOptimal
  /\ r = {| morning_shifts := count Morning;
            evening_shifts := count Evening;
            night_shifts := count Night;
            total_batches_produced := 3 * (count Morning + count Evening + count Night);
            pct_demand_completed :=
              pct (3 * (count Morning + count Evening + count Night)) B;
            min_staff_required := Py.int (value Staff);
            staff_with_buffer := with_buffer (Py.int (value Staff)) br;
            days_used := Py.sum (map (fun d => Py.int (value (dayUsed d))) (Py.range n));
            num_workdays_horizon := n;
            solver_status := Py.Str "Optimal" |}.
Proof.
  unfold Granulation_PS.optimize_granulation.
  destruct (9 * n <? B); [rewrite fst_bind; discriminate|].
  rewrite !fst_bind. cbn [fst new_problem solve].
  destruct (Py.neb _ _) eqn:Hst; [rewrite fst_bind; discriminate|].
  apply status_string_optimal in Hst.
  rewrite fst_bind. cbn [fst ret]. intros H. injection H as <-.
  split; [reflexivity|]. split; [exact Hst|].
  rewrite Hst. reflexivity.
Qed.

(** The left-hand side of the demand constraint at a feasible point is
    three times the number of shifts counted from it. *)
Lemma granulation_demand_lhs (B n : Z) (w : Weights) (a : assignment) :
  feasible (Granulation_PS.model B n w) a = true ->
  let count s := Py.sum (map (fun d => Py.int (a (Shift s line d))) (Py.range n)) in
  (Granulation_PS.total_batches n a
   == inject_Z (3 * (count Morning + count Evening + count Night)))%Q.
Proof.
  intros Hf count.
  assert (Hint : forall s d, In d (Py.range n) -> integral (a (Shift s line d))).
  { intros s d Hd.
    apply (binary_value a (Shift s line d)).
    apply (feasible_domain _ _ _ Hf). cbn [variables Granulation_PS.model].
    apply range_declared_line. exact Hd. }
  unfold Granulation_PS.total_batches, Granulation_PS.M_vars, Granulation_PS.E_vars,
    Granulation_PS.N_vars.
  rewrite (lpSum_plus (fun d => a (Shift Morning line d) + a (Shift Evening line d))%Q).
  rewrite (lpSum_plus (fun d => a (Shift Morning line d))).
  rewrite !lpSum_integral by (intros d Hd; apply Hint; exact Hd).
  fold (count Morning). fold (count Evening). fold (count Night).
  rewrite inject_Z_mult, !inject_Z_plus. ring.
Qed.

End LineStages.

(** ** Results of Tableting meet the demand *)

Section Tableting.
Import pulp.

Lemma machine_vars_in (r : resource) (n : Z) (s : shift) (d : Z) :
  In d (Py.range n) -> In (Shift s r d, LpBinary) (Tab_PS.machine_vars r true n).
Proof.
  intros Hd. unfold Tab_PS.machine_vars. destruct s.
  - apply in_or_app. left. apply (in_map (fun d => (Shift Morning r d, LpBinary))).
    exact Hd.
  - apply in_or_app. right. apply in_or_app. left.
    apply (in_map (fun d => (Shift Evening r d, LpBinary))). exact Hd.
  - apply in_or_app. right. apply in_or_app. right.
    apply (in_map (fun d => (Shift Night r d, LpBinary))). exact Hd.
Qed.

Lemma tab_declared_in u1 u2 u3 n r s d :
  In (r, true) (tab_machines u1 u2 u3) -> In d (Py.range n) ->
  In (Shift s r d, LpBinary) (Tab_PS.declared u1 u2 u3 n).
Proof.
  intros Hr Hd. unfold Tab_PS.declared.
  destruct Hr as [Hr|[Hr|[Hr|[]]]]; injection Hr as <- ->.
  - apply in_or_app. left. apply machine_vars_in. exact Hd.
  - apply in_or_app. right. apply in_or_app. left. apply machine_vars_in. exact Hd.
  - apply in_or_app. right. apply in_or_app. right. apply in_or_app. left.
    apply machine_vars_in. exact Hd.
Qed.

(** The shifts of one machine, summed over the horizon, are the count
    the result reports. *)
Lemma tab_shift_sum u1 u2 u3 B n w (a : assignment) r u s :
  feasible (Tab_PS.model u1 u2 u3 B n w) a = true ->
  In (r, u) (tab_machines u1 u2 u3) ->
  (lpSum (map (fun d => Tab_PS.make_var (Shift s r d) u a) (Py.range n))
   == inject_Z (Tab_PS.shift_count a s r u n))%Q.
Proof.
  intros Hf Hr. unfold Tab_PS.make_var, Tab_PS.shift_count. destruct u.
  - apply (lpSum_integral (fun d => a (Shift s r d))). intros d Hd.
    apply (binary_value a (Shift s r d)).
    apply (feasible_domain _ _ _ Hf). cbn [variables Tab_PS.model].
    apply tab_declared_in; assumption.
  - apply lpSum_zero.
Qed.

Lemma tab_demand_lhs u1 u2 u3 B n w (a : assignment) :
  feasible (Tab_PS.model u1 u2 u3 B n w) a = true ->
  let count s r u := Tab_PS.shift_count a s r u n in
  (lpSum (Tab_PS.total_batches u1 u2 u3 n a)
   == inject_Z
        (1 * (count Morning p3030 u1 + count Evening p3030 u1 + count Night p3030 u1)
         + 2 * (count Morning p3090i u2 + count Evening p3090i u2
                + count Night p3090i u2)
         + 1 * (count Morning ima u3 + count Evening ima u3 + count Night ima u3)))%Q.
Proof.
  intros Hf count. unfold Tab_PS.total_batches.
  rewrite lpSum_three_a_day.
  unfold Tab_PS.M_p3030, Tab_PS.E_p3030, Tab_PS.N_p3030, Tab_PS.M_p3090i,
    Tab_PS.E_p3090i, Tab_PS.N_p3090i, Tab_PS.M_ima, Tab_PS.E_ima, Tab_PS.N_ima.
  rewrite !(lpSum_weighted _ _ _ 1 2 1).
  rewrite !(tab_shift_sum u1 u2 u3 B n w a p3030 u1) by (assumption || (left; reflexivity)).
  rewrite !(tab_shift_sum u1 u2 u3 B n w a p3090i u2)
    by (assumption || (right; left; reflexivity)).
  rewrite !(tab_shift_sum u1 u2 u3 B n w a ima u3)
    by (assumption || (right; right; left; reflexivity)).
  subst count. cbv beta.
  rewrite !inject_Z_plus, !inject_Z_mult, !inject_Z_plus. ring.
Qed.

Lemma tableting_success (TS : Solver) B n u1 u2 u3 br w p r :
  fst (Tab_PS.optimize_tableting TS B n u1 u2 u3 br w p) = Some r ->
  let value := varValue (TS (Tab_PS.model u1 u2 u3 B n w)) in
  let count s m u := Tab_PS.shift_count value s m u n in
  status (TS (Tab_PS.model u1 u2 u3 B n w)) = LpStatusOptimal
  /\ Tab_PS.morning_shifts r
     = {| Tab_PS.P3030 := count Morning p3030 u1;
          Tab_PS.P3090i := count Morning p3090i u2;
          Tab_PS.IMA := count Morning ima u3 |}
  /\ Tab_PS.evening_shifts r
     = {| Tab_PS.P3030 := count Evening p3030 u1;
          Tab_PS.P3090i := count Evening p3090i u2;
          Tab_PS.IMA := count Evening ima u3 |}
  /\ Tab_PS.night_shifts r
     = {| Tab_PS.P3030 := count Night p3030 u1;
          Tab_PS.P3090i := count Night p3090i u2;
          Tab_PS.IMA := count Night ima u3 |}
  /\ Tab_PS.total_batches_produced r
     = Py.int (lpSum (Tab_PS.total_batches u1 u2 u3 n value)).
Proof.
  unfold Tab_PS.optimize_tableting.
  destruct (_ =? 0); [rewrite fst_bind; discriminate|].
  destruct (_ <? B); [rewrite fst_bind; discriminate|].
  rewrite !fst_bind. cbn [fst new_problem solve].
  destruct (Py.neb _ _) eqn:Hst; [rewrite fst_bind; discriminate|].
  apply status_string_optimal in Hst.
  rewrite fst_bind. cbn [fst ret]. intros H. injection H as <-.
  split; [exact Hst|]. repeat split; reflexivity.
Qed.

End Tableting.

(** ** Results of Coating meet the demand *)

Section Coating.
Import pulp.

Lemma process_vars_in (r : resource) (n : Z) (s : shift) (d : Z) :
  In d (Py.range n) -> In (Shift s r d, LpBinary) (Coating_PS.process_vars r true n).
Proof.
  intros Hd. unfold Coating_PS.process_vars. destruct s.
  - apply in_or_app. left. apply (in_map (fun d => (Shift Morning r d, LpBinary))).
    exact Hd.
  - apply in_or_app. right. apply in_or_app. left.
    apply (in_map (fun d => (Shift Evening r d, LpBinary))). exact Hd.
  - apply in_or_app. right. apply in_or_app. right.
    apply (in_map (fun d => (Shift Night r d, LpBinary))). exact Hd.
Qed.

Lemma coat_declared_in ub ug n r s d :
  In (r, true) (coat_processes ub ug) -> In d (Py.range n) ->
  In (Shift s r d, LpBinary) (Coating_PS.declared ub ug n).
Proof.
  intros Hr Hd. unfold Coating_PS.declared.
  destruct Hr as [Hr|[Hr|[Hr|[]]]]; injection Hr as <-; try subst.
  - apply in_or_app. left. apply process_vars_in. exact Hd.
  - apply in_or_app. right. apply in_or_app. left. apply process_vars_in. exact Hd.
  - apply in_or_app. right. apply in_or_app. right. apply in_or_app. left.
    apply process_vars_in. exact Hd.
Qed.

Lemma coat_shift_sum ub ug B n w (a : assignment) r u s :
  feasible (Coating_PS.model ub ug B n w) a = true ->
  In (r, u) (coat_processes ub ug) ->
  (lpSum (map (fun d => Coating_PS.term (Coating_PS.make_var (Shift s r d) u) a)
              (Py.range n))
   == inject_Z (coat_count a s r u n))%Q.
Proof.
  intros Hf Hr. unfold coat_count, Coating_PS.var_sum, Coating_PS.make_var. destruct u.
  - cbn [Coating_PS.term Coating_PS.safe_value].
    apply (lpSum_integral (fun d => a (Shift s r d))). intros d Hd.
    apply (binary_value a (Shift s r d)).
    apply (feasible_domain _ _ _ Hf). cbn [variables Coating_PS.model].
    apply coat_declared_in; assumption.
  - cbn [Coating_PS.term]. apply lpSum_zero.
Qed.

Lemma coat_solution_lhs ub ug B n w (a : assignment) :
  feasible (Coating_PS.model ub ug B n w) a = true ->
  let count s := coat_count a s solution true n in
  (lpSum (Coating_PS.total_solution_batches n a)
   == inject_Z (4 * (count Morning + count Evening + count Night)))%Q.
Proof.
  intros Hf count. unfold Coating_PS.total_solution_batches.
  rewrite lpSum_three_a_day.
  unfold Coating_PS.M_solution, Coating_PS.E_solution, Coating_PS.N_solution.
  rewrite !lpSum_scale.
  rewrite !(coat_shift_sum ub ug B n w a solution true) by (assumption || (left; reflexivity)).
  subst count. cbv beta. rewrite inject_Z_mult, !inject_Z_plus. ring.
Qed.

Lemma coat_coating_lhs ub ug B n w (a : assignment) :
  feasible (Coating_PS.model ub ug B n w) a = true ->
  let count s r u := coat_count a s r u n in
  (lpSum (Coating_PS.total_coating_batches ub ug n a)
   == inject_Z
        (2 * (count Morning bosch ub + count Evening bosch ub + count Night bosch ub)
         + 2 * (count Morning glatt ug + count Evening glatt ug
                + count Night glatt ug)))%Q.
Proof.
  intros Hf count. unfold Coating_PS.total_coating_batches.
  rewrite lpSum_three_a_day.
  unfold Coating_PS.M_bosch, Coating_PS.E_bosch, Coating_PS.N_bosch,
    Coating_PS.M_glatt, Coating_PS.E_glatt, Coating_PS.N_glatt.
  rewrite !(lpSum_plus
              (fun d => 2 * Coating_PS.term (Coating_PS.make_var (Shift _ bosch d) ub) a)%Q
              (fun d => 2 * Coating_PS.term (Coating_PS.make_var (Shift _ glatt d) ug) a)%Q).
  rewrite !lpSum_scale.
  rewrite !(coat_shift_sum ub ug B n w a bosch ub)
    by (assumption || (right; left; reflexivity)).
  rewrite !(coat_shift_sum ub ug B n w a glatt ug)
    by (assumption || (right; right; left; reflexivity)).
  subst count. cbv beta. rewrite !inject_Z_plus, !inject_Z_mult, !inject_Z_plus. ring.
Qed.

(** The running totals of the extraction loop are the two left-hand sides. *)
Lemma coat_solution_total n (value : assignment) :
  (fold_left
     (fun acc d =>
        acc + 4 * (Coating_PS.safe_value value (Coating_PS.M_solution d)
                   + Coating_PS.safe_value value (Coating_PS.E_solution d)
                   + Coating_PS.safe_value value (Coating_PS.N_solution d)))
     (Py.range n) 0
   == lpSum (Coating_PS.total_solution_batches n value))%Q.
Proof.
  set (ts s d := value (Shift s solution d)).
  rewrite (running_total _ (fun d => 4 * (ts Morning d + ts Evening d + ts Night d))%Q)
    by (intros; reflexivity).
  unfold Coating_PS.total_solution_batches. rewrite lpSum_three_a_day.
  cbn [Coating_PS.term Coating_PS.M_solution Coating_PS.E_solution
       Coating_PS.N_solution Coating_PS.make_var].
  fold (ts Morning). fold (ts Evening). fold (ts Night).
  rewrite !lpSum_scale.
  rewrite (lpSum_plus (fun d => ts Morning d + ts Evening d)%Q (ts Night)).
  rewrite (lpSum_plus (ts Morning) (ts Evening)).
  subst ts. cbv beta. ring.
Qed.

Lemma coat_coating_total ub ug n (value : assignment) :
  (fold_left
     (fun acc d =>
        acc
        + 2 * (Coating_PS.safe_value value (Coating_PS.M_bosch ub d)
               + Coating_PS.safe_value value (Coating_PS.E_bosch ub d)
               + Coating_PS.safe_value value (Coating_PS.N_bosch ub d))
        + 2 * (Coating_PS.safe_value value (Coating_PS.M_glatt ug d)
               + Coating_PS.safe_value value (Coating_PS.E_glatt ug d)
               + Coating_PS.safe_value value (Coating_PS.N_glatt ug d)))
     (Py.range n) 0
   == lpSum (Coating_PS.total_coating_batches ub ug n value))%Q.
Proof.
  pose (tb := fun s d =>
          Coating_PS.term (Coating_PS.make_var (Shift s bosch d) ub) value).
  pose (tg := fun s d =>
          Coating_PS.term (Coating_PS.make_var (Shift s glatt d) ug) value).
  rewrite (running_total _
             (fun d => 2 * (tb Morning d + tb Evening d + tb Night d)
                       + 2 * (tg Morning d + tg Evening d + tg Night d))%Q)
    by (intros; subst tb tg; cbv beta;
        unfold Coating_PS.safe_value, Coating_PS.term, Coating_PS.M_bosch,
          Coating_PS.E_bosch, Coating_PS.N_bosch, Coating_PS.M_glatt,
          Coating_PS.E_glatt, Coating_PS.N_glatt;
        ring).
  unfold Coating_PS.total_coating_batches. rewrite lpSum_three_a_day.
  change (0 + lpSum (map (fun d => 2 * (tb Morning d + tb Evening d + tb Night d)
                                   + 2 * (tg Morning d + tg Evening d + tg Night d))
                         (Py.range n))
          == lpSum (map (fun d => 2 * tb Morning d + 2 * tg Morning d) (Py.range n))
             + lpSum (map (fun d => 2 * tb Evening d + 2 * tg Evening d) (Py.range n))
             + lpSum (map (fun d => 2 * tb Night d + 2 * tg Night d) (Py.range n)))%Q.
  rewrite (lpSum_plus (fun d => 2 * (tb Morning d + tb Evening d + tb Night d))%Q
                      (fun d => 2 * (tg Morning d + tg Evening d + tg Night d))%Q).
  rewrite (lpSum_plus (fun d => 2 * tb Morning d)%Q (fun d => 2 * tg Morning d)%Q).
  rewrite (lpSum_plus (fun d => 2 * tb Evening d)%Q (fun d => 2 * tg Evening d)%Q).
  rewrite (lpSum_plus (fun d => 2 * tb Night d)%Q (fun d => 2 * tg Night d)%Q).
  rewrite !lpSum_scale.
  rewrite (lpSum_plus (fun d => tb Morning d + tb Evening d)%Q (fun d => tb Night d)).
  rewrite (lpSum_plus (fun d => tb Morning d) (fun d => tb Evening d)).
  rewrite (lpSum_plus (fun d => tg Morning d + tg Evening d)%Q (fun d => tg Night d)).
  rewrite (lpSum_plus (fun d => tg Morning d) (fun d => tg Evening d)).
  subst tb tg. cbv beta. ring.
Qed.

Lemma coating_success (CBC : Solver) B n ub ug br w p r :
  fst (Coating_PS.optimize_coating CBC B n ub ug br w p) = Some r ->
  let value := varValue (CBC (Coating_PS.model ub ug B n w)) in
  let count s m u := coat_count value s m u n in
  status (CBC (Coating_PS.model ub ug B n w)) = LpStatusOptimal
  /\ Coating_PS.morning_shifts r
     = {| Coating_PS.Solution := count Morning solution true;
          Coating_PS.BOSCH := count Morning bosch ub;
          Coating_PS.GLATT := count Morning glatt ug |}
  /\ Coating_PS.evening_shifts r
     = {| Coating_PS.Solution := count Evening solution true;
          Coating_PS.BOSCH := count Evening bosch ub;
          Coating_PS.GLATT := count Evening glatt ug |}
  /\ Coating_PS.night_shifts r
     = {| Coating_PS.Solution := count Night solution true;
          Coating_PS.BOSCH := count Night bosch ub;
          Coating_PS.GLATT := count Night glatt ug |}
  /\ Coating_PS.total_solution_produced r
     = Py.int (lpSum (Coating_PS.total_solution_batches n value))
  /\ Coating_PS.total_coating_produced r
     = Py.int (lpSum (Coating_PS.total_coating_batches ub ug n value))
  /\ Coating_PS.final_batches_count r
     = Z.min (Coating_PS.total_solution_produced r) (Coating_PS.total_coating_produced r).
Proof.
  unfold Coating_PS.optimize_coating.
  destruct (_ =? 0); [rewrite fst_bind; discriminate|].
  destruct (12 * n <? B); [rewrite fst_bind; discriminate|].
  destruct (_ <? B); [rewrite fst_bind; discriminate|].
  rewrite !fst_bind. cbn [fst new_problem solve].
  destruct (Py.neb _ _) eqn:Hst; [rewrite fst_bind; discriminate|].
  apply status_string_optimal in Hst.
  rewrite fst_bind. cbn [fst ret]. intros H. injection H as <-.
  cbn [Coating_PS.morning_shifts Coating_PS.evening_shifts Coating_PS.night_shifts
       Coating_PS.total_solution_produced Coating_PS.total_coating_produced
       Coating_PS.final_batches_count].
  split; [exact Hst|].
  split; [reflexivity|]. split; [reflexivity|]. split; [reflexivity|].
  split; [|split; [|reflexivity]].
  - apply int_comp, coat_solution_total.
  - apply int_comp, coat_coating_total.
Qed.

End Coating.

(** ** Every result meets the demand *)

(** C3: when the solver keeps its contract (a model it reports optimal
    comes with values that satisfy it), every result a stage solve
    returns meets the demand: the total it reports is at least
    [batches_required], it is the total recomputed from the shift counts
    of the result and the yields, and it equals the left-hand side of the
    demand constraint at the values returned.  For Coating this holds
    for the solution total and for the coating total, and
    [final_batches_count] is the smaller of the two.  A model that no
    assignment satisfies never yields a result: the solve returns
    [None].  (For Dispensing the statement is empty: it never returns a
    result.) *)
Theorem feasible_results_meet_demand :
  forall (SI TS CBC : pulp.Solver) (solver : option pulp.Solver)
         B n br w p u1 u2 u3 ub ug,
    pulp.sound SI -> pulp.sound TS -> pulp.sound CBC ->
    (forall s, solver = Some s -> pulp.sound s) ->
    let used := match solver with Some s => s | None => SI end in
    (forall r,
        fst (Dispensing_PS.optimize_dispensing SI B n br w p solver) = Some r ->
        B <= total_batches_produced r)
    /\ (forall r,
          fst (Granulation_PS.optimize_granulation SI B n br w p solver) = Some r ->
          let value := pulp.varValue (used (Granulation_PS.model B n w)) in
          pulp.feasible (Granulation_PS.model B n w) value = true
          /\ B <= total_batches_produced r
          /\ total_batches_produced r
             = 3 * (morning_shifts r + evening_shifts r + night_shifts r)
          /\ (inject_Z (total_batches_produced r)
              == Granulation_PS.total_batches n value)%Q)
    /\ (forall r,
          fst (Tab_PS.optimize_tableting TS B n u1 u2 u3 br w p) = Some r ->
          let value := pulp.varValue (TS (Tab_PS.model u1 u2 u3 B n w)) in
          let shifts (m : Tab_PS.PerMachine Z -> Z) :=
            m (Tab_PS.morning_shifts r) + m (Tab_PS.evening_shifts r)
            + m (Tab_PS.night_shifts r) in
          pulp.feasible (Tab_PS.model u1 u2 u3 B n w) value = true
          /\ B <= Tab_PS.total_batches_produced r
          /\ Tab_PS.total_batches_produced r
             = 1 * shifts Tab_PS.P3030 + 2 * shifts Tab_PS.P3090i + 1 * shifts Tab_PS.IMA
          /\ (inject_Z (Tab_PS.total_batches_produced r)
              == pulp.lpSum (Tab_PS.total_batches u1 u2 u3 n value))%Q)
    /\ (forall r,
          fst (Coating_PS.optimize_coating CBC B n ub ug br w p) = Some r ->
          let value := pulp.varValue (CBC (Coating_PS.model ub ug B n w)) in
          let shifts (m : Coating_PS.PerProcess Z -> Z) :=
            m (Coating_PS.morning_shifts r) + m (Coating_PS.evening_shifts r)
            + m (Coating_PS.night_shifts r) in
          pulp.feasible (Coating_PS.model ub ug B n w) value = true
          /\ B <= Coating_PS.total_solution_produced r
          /\ B <= Coating_PS.total_coating_produced r
          /\ Coating_PS.final_batches_count r
             = Z.min (Coating_PS.total_solution_produced r)
                     (Coating_PS.total_coating_produced r)
          /\ B <= Coating_PS.final_batches_count r
          /\ Coating_PS.total_solution_produced r = 4 * shifts Coating_PS.Solution
          /\ Coating_PS.total_coating_produced r
             = 2 * shifts Coating_PS.BOSCH + 2 * shifts Coating_PS.GLATT
          /\ (inject_Z (Coating_PS.total_solution_produced r)
              == pulp.lpSum (Coating_PS.total_solution_batches n value))%Q
          /\ (inject_Z (Coating_PS.total_coating_produced r)
              == pulp.lpSum (Coating_PS.total_coating_batches ub ug n value))%Q)
    /\ ((forall a, pulp.feasible (Granulation_PS.model B n w) a = false) ->
        fst (Granulation_PS.optimize_granulation SI B n br w p solver) = None)
    /\ ((forall a, pulp.feasible (Tab_PS.model u1 u2 u3 B n w) a = false) ->
        fst (Tab_PS.optimize_tableting TS B n u1 u2 u3 br w p) = None)
    /\ ((forall a, pulp.feasible (Coating_PS.model ub ug B n w) a = false) ->
        fst (Coating_PS.optimize_coating CBC B n ub ug br w p) = None).
Proof.
  intros SI TS CBC solver B n br w p u1 u2 u3 ub ug HSI HTS HCBC Hsolver used.
  assert (Hused : pulp.sound used).
  { subst used. destruct solver as [s|]; [apply Hsolver; reflexivity | exact HSI]. }
  assert (HG : forall r,
             fst (Granulation_PS.optimize_granulation SI B n br w p solver) = Some r ->
             pulp.feasible (Granulation_PS.model B n w)
               (pulp.varValue (used (Granulation_PS.model B n w))) = true).
  { intros r Hr. apply granulation_success in Hr. apply Hused. apply Hr. }
  assert (HT : forall r,
             fst (Tab_PS.optimize_tableting TS B n u1 u2 u3 br w p) = Some r ->
             pulp.feasible (Tab_PS.model u1 u2 u3 B n w)
               (pulp.varValue (TS (Tab_PS.model u1 u2 u3 B n w))) = true).
  { intros r Hr. apply tableting_success in Hr. apply HTS. apply Hr. }
  assert (HC : forall r,
             fst (Coating_PS.optimize_coating CBC B n ub ug br w p) = Some r ->
             pulp.feasible (Coating_PS.model ub ug B n w)
               (pulp.varValue (CBC (Coating_PS.model ub ug B n w))) = true).
  { intros r Hr. apply coating_success in Hr. apply HCBC. apply Hr. }
  split; [|split; [|split; [|split; [|split; [|split]]]]].
  - intros r Hr. rewrite dispensing_fst_none in Hr. discriminate.
  - intros r Hr value. pose proof (HG r Hr) as Hf. fold value in Hf.
    pose proof (granulation_demand_lhs B n w value Hf) as Hlhs.
    pose proof (feasible_holds _ _ (Granulation_PS.DemandConstraint B n) Hf
                  (or_introl eq_refl)) as Hdem.
    apply granulation_success in Hr. destruct Hr as (_ & _ & ->).
    cbn [total_batches_produced morning_shifts evening_shifts night_shifts] in *.
    cbn [pulp.c_rhs pulp.c_lhs Granulation_PS.DemandConstraint] in Hdem.
    fold used. fold value.
    split; [exact Hf|]. split; [|split; [reflexivity|symmetry; exact Hlhs]].
    rewrite Hlhs in Hdem. rewrite <- Zle_Qle in Hdem. exact Hdem.
  - intros r Hr value shifts. pose proof (HT r Hr) as Hf. fold value in Hf.
    pose proof (tab_demand_lhs u1 u2 u3 B n w value Hf) as Hlhs.
    pose proof (feasible_holds _ _ (Tab_PS.DemandConstraint u1 u2 u3 B n) Hf
                  (or_introl eq_refl)) as Hdem.
    cbn [pulp.c_rhs pulp.c_lhs Tab_PS.DemandConstraint] in Hdem.
    apply tableting_success in Hr. destruct Hr as (_ & Hm & He & Hn & Htot).
    fold value in Htot, Hm, He, Hn.
    rewrite (int_of_integer _ _ Hlhs) in Htot.
    subst shifts. cbv beta. rewrite Hm, He, Hn. cbn [Tab_PS.P3030 Tab_PS.P3090i Tab_PS.IMA].
    split; [exact Hf|]. split; [|split; [exact Htot|]].
    + rewrite Hlhs in Hdem. rewrite <- Zle_Qle in Hdem. rewrite Htot. exact Hdem.
    + rewrite Htot. symmetry. exact Hlhs.
  - intros r Hr value shifts. pose proof (HC r Hr) as Hf. fold value in Hf.
    pose proof (coat_solution_lhs ub ug B n w value Hf) as Hsol.
    pose proof (coat_coating_lhs ub ug B n w value Hf) as Hcoat.
    pose proof (feasible_holds _ _ (Coating_PS.SolutionDemand B n) Hf
                  (or_introl eq_refl)) as Hd1.
    pose proof (feasible_holds _ _ (Coating_PS.CoatingDemand ub ug B n) Hf
                  (or_intror (or_introl eq_refl))) as Hd2.
    cbn [pulp.c_rhs pulp.c_lhs Coating_PS.SolutionDemand Coating_PS.CoatingDemand]
      in Hd1, Hd2.
    apply coating_success in Hr.
    destruct Hr as (_ & Hm & He & Hn & Hts & Htc & Hfinal).
    fold value in Hts, Htc, Hm, He, Hn.
    rewrite (int_of_integer _ _ Hsol) in Hts.
    rewrite (int_of_integer _ _ Hcoat) in Htc.
    rewrite Hsol in Hd1. rewrite <- Zle_Qle in Hd1.
    rewrite Hcoat in Hd2. rewrite <- Zle_Qle in Hd2.
    subst shifts. cbv beta. rewrite Hm, He, Hn.
    cbn [Coating_PS.Solution Coating_PS.BOSCH Coating_PS.GLATT].
    split; [exact Hf|].
    split; [rewrite Hts; exact Hd1|].
    split; [rewrite Htc; exact Hd2|].
    split; [exact Hfinal|].
    split; [rewrite Hfinal, Hts, Htc; apply Z.min_glb; assumption|].
    split; [exact Hts|]. split; [exact Htc|].
    split; [rewrite Hts; symmetry; exact Hsol | rewrite Htc; symmetry; exact Hcoat].
  - intros Hnone.
    destruct (fst (Granulation_PS.optimize_granulation SI B n br w p solver)) as [r|] eqn:Hr;
      [|reflexivity].
    pose proof (HG r eq_refl) as Hf. rewrite Hnone in Hf. discriminate.
  - intros Hnone.
    destruct (fst (Tab_PS.optimize_tableting TS B n u1 u2 u3 br w p)) as [r|] eqn:Hr;
      [|reflexivity].
    pose proof (HT r eq_refl) as Hf. rewrite Hnone in Hf. discriminate.
  - intros Hnone.
    destruct (fst (Coating_PS.optimize_coating CBC B n ub ug br w p)) as [r|] eqn:Hr;
      [|reflexivity].
    pose proof (HC r eq_refl) as Hf. rewrite Hnone in Hf. discriminate.
Qed.

(** The theorem at work: with a solver that proposes the full schedule,
    a demand of 9 batches in one day is met by Granulation (9 produced),
    Tableting (12 produced) and Coating (12 and 12 produced). *)
Lemma feasible_results_meet_demand_witness :
  let s := Examples.proposes Examples.full_schedule in
  exists rg rt rc,
    fst (Granulation_PS.optimize_granulation s 9 1 0 Examples.weights false None)
    = Some rg
    /\ 9 <= total_batches_produced rg
    /\ fst (Tab_PS.optimize_tableting s 9 1 true true true 0 Examples.weights false)
       = Some rt
    /\ 9 <= Tab_PS.total_batches_produced rt
    /\ fst (Coating_PS.optimize_coating s 9 1 true true 0 Examples.weights false)
       = Some rc
    /\ 9 <= Coating_PS.final_batches_count rc.
Proof.
  intros s.
  destruct (feasible_results_meet_demand s s s None 9 1 0 Examples.weights false
              true true true true true
              (proposes_sound _) (proposes_sound _)
              (proposes_sound _)
              (fun s' (H : None = Some s') =>
                 match H in (_ = o) return match o with
                                           | Some _ => pulp.sound s'
                                           | None => True
                                           end
                 with eq_refl => I end))
    as (_ & HG & HT & HC & _).
  eexists _, _, _.
  split; [vm_compute; reflexivity|].
  split; [refine (proj1 (proj2 (HG _ _))); vm_compute; reflexivity|].
  split; [vm_compute; reflexivity|].
  split; [refine (proj1 (proj2 (HT _ _))); vm_compute; reflexivity|].
  split; [vm_compute; reflexivity|].
  refine (proj1 (proj2 (proj2 (proj2 (proj2 (HC _ _)))))); vm_compute; reflexivity.
Defined.

(** ** The modules of the core do not load *)

(** A run that ends within its budget ends the same way with a larger one. *)
Lemma exec_more_fuel : forall f f' current body st,
  (f <= f')%nat ->
  Loader.exec f current body st <> Loader.OutOfFuel ->
  Loader.exec f' current body st = Loader.exec f current body st.
Proof.
  induction f as [|f IH]; intros f' current body st Hle Hne.
  - exfalso. apply Hne. reflexivity.
  - destruct f' as [|f']; [lia|].
    assert (Hle' : (f <= f')%nat) by lia.
    cbn [Loader.exec] in *.
    destruct body as [|s rest]; [reflexivity|].
    destruct s as [m as_name | m names | name | ].
    + destruct (Loader.lookup m (Loader.sys_modules st)); [apply IH; assumption|].
      destruct (Loader.source m) as [text|]; [|apply IH; assumption].
      rewrite (IH f' m text _ Hle')
        by (intro H; rewrite H in Hne; apply Hne; reflexivity).
      destruct (Loader.exec f m text _); [apply IH; assumption | reflexivity | reflexivity].
    + destruct (Loader.lookup m (Loader.sys_modules st)) as [ns|] eqn:Hlook.
      * rewrite Hlook in *.
        destruct (Loader.first_missing ns names); [reflexivity | apply IH; assumption].
      * destruct (Loader.source m) as [text|].
        -- rewrite (IH f' m text _ Hle')
             by (intro H; rewrite H in Hne; apply Hne; reflexivity).
           destruct (Loader.exec f m text _) as [st'| |]; try reflexivity.
           destruct (Loader.lookup m (Loader.sys_modules st')) as [ns|]; [|reflexivity].
           destruct (Loader.first_missing ns names); [reflexivity | apply IH; assumption].
        -- cbn [Loader.sys_modules] in *.
           destruct (Loader.lookup m ((m, Loader.Library) :: Loader.sys_modules st))
             as [ns|]; [|reflexivity].
           destruct (Loader.first_missing ns names); [reflexivity | apply IH; assumption].
    + apply IH; assumption.
    + apply IH; assumption.
Qed.

(** C10: loading the scheduling core fails.  Started as a script or
    imported, each of [PS_GUI3], [Formulation_PS], [Dispensing_PS],
    [Granulation_PS] and [Tab_PS] ends in an [ImportError], whatever the
    budget of the run, and before any block under [__main__] is reached:
    the stage modules ask [PS_GUI3] for [SOLVER_INSTANCE] and [solver];
    [PS_GUI3] binds neither name, and it imports the aggregator and the
    stage modules itself, so that one of the modules in the cycle is
    always asked for a name while it is still being initialised.  Only
    [Coating_PS], which imports nothing from the repository, loads. *)
Theorem scheduling_core_fails_to_load :
  (forall fuel, (100 <= fuel)%nat ->
     map (fun file => (Loader.failed_on (Loader.run_script fuel file),
                       Loader.failed_on (Loader.import_module fuel file)))
         ["PS_GUI3"; "Formulation_PS"; "Dispensing_PS"; "Granulation_PS"; "Tab_PS"]%string
     = [ (Some ("Formulation_PS", "optimize_osd_schedule", false),
          Some ("PS_GUI3", "SOLVER_INSTANCE", false));
         (Some ("Dispensing_PS", "optimize_dispensing", false),
          Some ("Formulation_PS", "optimize_osd_schedule", false));
         (Some ("PS_GUI3", "SOLVER_INSTANCE", false),
          Some ("Dispensing_PS", "optimize_dispensing", false));
         (Some ("PS_GUI3", "SOLVER_INSTANCE", false),
          Some ("PS_GUI3", "SOLVER_INSTANCE", false));
         (Some ("PS_GUI3", "SOLVER_INSTANCE", false),
          Some ("PS_GUI3", "SOLVER_INSTANCE", false)) ]%string)
  /\ existsb (String.eqb "SOLVER_INSTANCE") (Loader.binds "PS_GUI3") = false
  /\ existsb (String.eqb "solver") (Loader.binds "PS_GUI3") = false
  /\ (forall fuel, (100 <= fuel)%nat ->
        Loader.failed_on (Loader.run_script fuel "Coating_PS") = None
        /\ Loader.failed_on (Loader.import_module fuel "Coating_PS") = None).
Proof.
  assert (Hscript : forall fuel file, (100 <= fuel)%nat ->
            Loader.run_script 100 file <> Loader.OutOfFuel ->
            Loader.run_script fuel file = Loader.run_script 100 file).
  { intros fuel file Hfuel. unfold Loader.run_script.
    destruct (Loader.source file); [|intros H; exfalso; apply H; reflexivity].
    apply exec_more_fuel. exact Hfuel. }
  assert (Himport : forall fuel file, (100 <= fuel)%nat ->
            Loader.import_module 100 file <> Loader.OutOfFuel ->
            Loader.import_module fuel file = Loader.import_module 100 file).
  { intros fuel file Hfuel. unfold Loader.import_module.
    apply exec_more_fuel. exact Hfuel. }
  split; [|split; [reflexivity|split; [reflexivity|]]].
  - intros fuel Hfuel. cbn [map].
    rewrite !(Hscript fuel) by (assumption || (vm_compute; discriminate)).
    rewrite !(Himport fuel) by (assumption || (vm_compute; discriminate)).
    vm_compute. reflexivity.
  - intros fuel Hfuel.
    rewrite (Hscript fuel) by (assumption || (vm_compute; discriminate)).
    rewrite (Himport fuel) by (assumption || (vm_compute; discriminate)).
    vm_compute. split; reflexivity.
Qed.

(** ** Feasibility and smaller demands *)

Section Monotone.
Import pulp.


Lemma proposes_downward (candidate : assignment) (model : Z -> LpProblem) :
  demand_only model -> status_downward (Examples.proposes candidate) model.
Proof.
  intros Hmodel B B' Hle. unfold Examples.proposes.
  destruct (feasible (model B) candidate) eqn:Hf; [|discriminate].
  rewrite (Hmodel B B' candidate Hle Hf). reflexivity.
Qed.





(** When each stage solve succeeds. *)
Lemma granulation_feasible_iff (SI : Solver) B n br w p solver :
  fst (Granulation_PS.optimize_granulation SI B n br w p solver) <> None
  <-> (9 * n <? B) = false
      /\ status (match solver with Some s => s | None => SI end
                   (Granulation_PS.model B n w)) = LpStatusOptimal.
Proof.
  split.
  - intros H.
    destruct (fst (Granulation_PS.optimize_granulation SI B n br w p solver))
      as [r|] eqn:Hr; [|congruence].
    apply granulation_success in Hr. destruct Hr as (Hc & Hs & _). auto.
  - intros [Hc Hs]. unfold Granulation_PS.optimize_granulation.
    rewrite Hc, !fst_bind. cbn [fst new_problem solve]. rewrite Hs.
    change (Py.neb (Py.Str (LpStatus LpStatusOptimal)) (Py.Str "Optimal")) with false.
    cbv iota. rewrite fst_bind. discriminate.
Qed.

Lemma tableting_feasible_iff (TS : Solver) B n u1 u2 u3 br w p :
  fst (Tab_PS.optimize_tableting TS B n u1 u2 u3 br w p) <> None
  <-> (u1 || u2 || u3) = true
      /\ ((yield u1 1 + yield u2 2 + yield u3 1) * 3 * n <? B) = false
      /\ status (TS (Tab_PS.model u1 u2 u3 B n w)) = LpStatusOptimal.
Proof.
  unfold Tab_PS.optimize_tableting.
  destruct u1, u2, u3; cbn [orb yield];
    fold_capacity n; fold_zero_test;
    try (rewrite fst_bind; cbn [fst ret]; split;
         [congruence | intros (H & _); discriminate]);
    (destruct (_ * n <? B);
     [rewrite fst_bind; cbn [fst ret]; split;
      [congruence | intros (_ & H & _); discriminate]|]);
    rewrite !fst_bind; cbn [fst new_problem solve];
    (split;
     [intros H; split; [reflexivity|split; [reflexivity|]];
      destruct (Py.neb _ _) eqn:Hst;
      [rewrite fst_bind in H; cbn [fst ret] in H; congruence
      |apply status_string_optimal in Hst; exact Hst]
     |intros (_ & _ & Hs); rewrite Hs;
      change (Py.neb (Py.Str (LpStatus LpStatusOptimal)) (Py.Str "Optimal")) with false;
      cbv iota; rewrite fst_bind; discriminate]).
Qed.

Lemma coating_feasible_iff (CBC : Solver) B n ub ug br w p :
  fst (Coating_PS.optimize_coating CBC B n ub ug br w p) <> None
  <-> (ub || ug) = true
      /\ (12 * n <? B) = false
      /\ ((yield ub 2 + yield ug 2) * 3 * n <? B) = false
      /\ status (CBC (Coating_PS.model ub ug B n w)) = LpStatusOptimal.
Proof.
  unfold Coating_PS.optimize_coating.
  destruct ub, ug; cbn [orb yield];
    fold_capacity n; fold_zero_test;
    try (rewrite fst_bind; cbn [fst ret]; split;
         [congruence | intros (H & _); discriminate]);
    (destruct (12 * n <? B);
     [rewrite fst_bind; cbn [fst ret]; split;
      [congruence | intros (_ & H & _); discriminate]|]);
    cbv iota;
    try (destruct (_ * n <? B); cbv iota;
         [rewrite fst_bind; cbn [fst ret]; split;
          [congruence | intros (_ & _ & H & _); discriminate]|]);
    rewrite !fst_bind; cbn [fst new_problem solve];
    (split;
     [intros H; split; [reflexivity|split; [reflexivity|split; [reflexivity|]]];
      destruct (Py.neb _ _) eqn:Hst;
      [rewrite fst_bind in H; cbn [fst ret] in H; congruence
      |apply status_string_optimal in Hst; exact Hst]
     |intros (_ & _ & _ & Hs); rewrite Hs;
      change (Py.neb (Py.Str (LpStatus LpStatusOptimal)) (Py.Str "Optimal")) with false;
      cbv iota; rewrite fst_bind; discriminate]).
Qed.

End Monotone.

Section StageMonotone.
Import pulp.







End StageMonotone.


(** ** Zero demand in a stage that reads the status string *)

Section ZeroDemand.
Import pulp.

Lemma lpSum_nonneg (f : Z -> Q) (l : list Z) :
  (forall d, In d l -> (0 <= f d)%Q) -> (0 <= lpSum (map f l))%Q.
Proof.
  induction l as [|d l IH]; intros H; cbn [map lpSum fold_right]; [apply Qle_refl|].
  fold (lpSum (map f l)).
  assert (0 <= f d)%Q by (apply H; left; reflexivity).
  assert (0 <= lpSum (map f l))%Q by (apply IH; intros; apply H; right; assumption).
  lra.
Qed.

Lemma lpSum_all_zero (f : Z -> Q) (l : list Z) :
  (forall d, In d l -> (f d == 0)%Q) -> (lpSum (map f l) == 0)%Q.
Proof.
  intros H. rewrite (lpSum_ext f (fun _ => 0%Q) l H). apply lpSum_zero.
Qed.

Lemma sum_all_zero (f : Z -> Z) (l : list Z) :
  (forall d, In d l -> f d = 0) -> Py.sum (map f l) = 0.
Proof.
  induction l as [|d l IH]; intros H; cbn [map Py.sum fold_right]; [reflexivity|].
  fold (Py.sum (map f l)).
  rewrite (H d) by (left; reflexivity).
  rewrite IH by (intros; apply H; right; assumption). reflexivity.
Qed.

Lemma sum_nonneg (f : Z -> Z) (l : list Z) :
  (forall d, In d l -> 0 <= f d) -> 0 <= Py.sum (map f l).
Proof.
  induction l as [|d l IH]; intros H; cbn [map Py.sum fold_right]; [lia|].
  fold (Py.sum (map f l)).
  assert (0 <= f d) by (apply H; left; reflexivity).
  assert (0 <= Py.sum (map f l)) by (apply IH; intros; apply H; right; assumption).
  lia.
Qed.

(** A sum of non-negative integers that is zero has only zero terms. *)
Lemma sum_zero_terms (f : Z -> Z) (l : list Z) :
  (forall d, In d l -> 0 <= f d) -> Py.sum (map f l) = 0 ->
  forall d, In d l -> f d = 0.
Proof.
  induction l as [|x l IH]; intros H Hsum d Hd; [destruct Hd|].
  cbn [map Py.sum fold_right] in Hsum. fold (Py.sum (map f l)) in Hsum.
  assert (0 <= f x) by (apply H; left; reflexivity).
  assert (0 <= Py.sum (map f l))
    by (apply sum_nonneg; intros; apply H; right; assumption).
  destruct Hd as [<-|Hd]; [lia|].
  apply IH; [intros; apply H; right; assumption | lia | exact Hd].
Qed.

Lemma weekend_in_range n d : In d (weekend_days n) -> In d (Py.range n).
Proof. unfold weekend_days. intros H. apply filter_In in H. apply H. Qed.

(** The empty schedule satisfies the Granulation model of demand 0. *)
Lemma granulation_empty_feasible n w :
  feasible (Granulation_PS.model 0 n w) Examples.empty_schedule = true.
Proof.
  unfold feasible. apply andb_true_iff. split.
  - apply forallb_forall. intros [v c] Hin.
    cbn [variables Granulation_PS.model] in Hin. unfold Granulation_PS.declared in Hin.
    repeat (apply in_app_or in Hin; destruct Hin as [Hin|Hin]);
      try (apply in_map_iff in Hin; destruct Hin as (d & Heq & _);
           injection Heq as <- <-; reflexivity).
    destruct Hin as [Heq|[]]. injection Heq as <- <-. reflexivity.
  - cbn [constraints Granulation_PS.model app forallb].
    apply andb_true_iff. split.
    + unfold holds. cbn [c_rhs c_lhs Granulation_PS.DemandConstraint].
      apply Qle_bool_iff. unfold Granulation_PS.total_batches.
      rewrite lpSum_all_zero by (intros; reflexivity). apply Qle_refl.
    + rewrite forallb_app. apply andb_true_iff. split.
      * apply forallb_forall. intros c Hc. apply in_map_iff in Hc.
        destruct Hc as (d & <- & _). reflexivity.
      * apply forallb_forall. intros c Hc. apply in_flat_map in Hc.
        destruct Hc as (d & _ & Hc).
        destruct Hc as [<-|[<-|[<-|[]]]]; reflexivity.
Qed.

Lemma granulation_empty_objective n w :
  (Granulation_PS.WeightedObjective n w Examples.empty_schedule == 0)%Q.
Proof.
  unfold Granulation_PS.WeightedObjective. cbv zeta.
  rewrite !lpSum_all_zero by (intros; reflexivity).
  unfold Granulation_PS.staff_var, Examples.empty_schedule. ring.
Qed.

Lemma dayUsed_declared n d :
  In d (Py.range n) -> In (dayUsed d, LpBinary) (Granulation_PS.declared n).
Proof.
  intros Hd. unfold Granulation_PS.declared.
  do 4 (apply in_or_app; right).
  apply (in_map (fun d => (dayUsed d, LpBinary))). exact Hd.
Qed.

Lemma staff_declared n : In (Staff, LpInteger (Some 0)) (Granulation_PS.declared n).
Proof.
  unfold Granulation_PS.declared.
  do 3 (apply in_or_app; right). apply in_or_app. left. left. reflexivity.
Qed.

Lemma product_zero (c x : Q) : (0 < c)%Q -> (0 <= x)%Q -> (c * x <= 0)%Q -> (x == 0)%Q.
Proof.
  intros Hc Hx Hcx. apply Qle_antisym; [|exact Hx].
  destruct (Qlt_le_dec 0 x) as [Hpos|Hle]; [|exact Hle].
  pose proof (Qmult_lt_0_compat c x Hc Hpos). lra.
Qed.

(** What a schedule of Granulation costs is not negative when no weight
    is. *)
Lemma granulation_objective_nonneg B n w a :
  feasible (Granulation_PS.model B n w) a = true ->
  (0 <= w_staff w)%Q -> (0 <= w_daysUsed w)%Q ->
  (0 <= w_morning w)%Q -> (0 <= w_evening w)%Q ->
  (0 <= w_night w)%Q -> (0 <= w_weekend w)%Q ->
  (0 <= Granulation_PS.WeightedObjective n w a)%Q.
Proof.
  intros Hf Hws Hwd Hwm Hwe Hwn Hww.
  assert (Hpos : forall s d, In d (Py.range n) -> (0 <= a (Shift s line d))%Q).
  { intros s d Hd.
    destruct (binary_value a (Shift s line d)) as [Hi Hb].
    { apply (feasible_domain _ _ _ Hf). apply range_declared_line. exact Hd. }
    unfold integral in Hi.
    rewrite Hi. change 0%Q with (inject_Z 0). rewrite <- Zle_Qle. lia. }
  assert (Hdpos : forall d, In d (Py.range n) -> (0 <= a (dayUsed d))%Q).
  { intros d Hd.
    destruct (binary_value a (dayUsed d)) as [Hi Hb].
    { apply (feasible_domain _ _ _ Hf). apply dayUsed_declared. exact Hd. }
    unfold integral in Hi.
    rewrite Hi. change 0%Q with (inject_Z 0). rewrite <- Zle_Qle. lia. }
  assert (Hspos : (0 <= a Staff)%Q).
  { destruct (integer_value a Staff 0) as [Hi Hb].
    { apply (feasible_domain _ _ _ Hf). apply staff_declared. }
    unfold integral in Hi.
    rewrite Hi. change 0%Q with (inject_Z 0). rewrite <- Zle_Qle. lia. }
  unfold Granulation_PS.WeightedObjective. cbv zeta.
  unfold Granulation_PS.M_vars, Granulation_PS.E_vars, Granulation_PS.N_vars,
    Granulation_PS.staff_var, Granulation_PS.dayUsed_var.
  set (SM := lpSum (map (fun d => a (Shift Morning line d)) (Py.range n))).
  set (SE := lpSum (map (fun d => a (Shift Evening line d)) (Py.range n))).
  set (SN := lpSum (map (fun d => a (Shift Night line d)) (Py.range n))).
  set (SW := lpSum (map (fun d => a (Shift Morning line d) + a (Shift Evening line d)
                                  + a (Shift Night line d))%Q (weekend_days n))).
  set (SD := lpSum (map (fun d => a (dayUsed d)) (Py.range n))).
  assert (HSM : (0 <= SM)%Q) by (apply lpSum_nonneg; intros; apply Hpos; assumption).
  assert (HSE : (0 <= SE)%Q) by (apply lpSum_nonneg; intros; apply Hpos; assumption).
  assert (HSN : (0 <= SN)%Q) by (apply lpSum_nonneg; intros; apply Hpos; assumption).
  assert (HSD : (0 <= SD)%Q) by (apply lpSum_nonneg; intros; apply Hdpos; assumption).
  assert (HSW : (0 <= SW)%Q).
  { apply lpSum_nonneg. intros d Hd. apply weekend_in_range in Hd.
    pose proof (Hpos Morning d Hd). pose proof (Hpos Evening d Hd).
    pose proof (Hpos Night d Hd). lra. }
  pose proof (Qmult_le_0_compat _ _ Hws Hspos) as T1.
  pose proof (Qmult_le_0_compat _ _ Hwm HSM) as T2.
  pose proof (Qmult_le_0_compat _ _ Hwe HSE) as T3.
  pose proof (Qmult_le_0_compat _ _ Hwn HSN) as T4.
  pose proof (Qmult_le_0_compat _ _ Hww HSW) as T5.
  pose proof (Qmult_le_0_compat _ _ Hwd HSD) as T6.
  set (t1 := (w_staff w * a Staff)%Q) in *.
  set (t2 := (w_morning w * SM)%Q) in *.
  set (t3 := (w_evening w * SE)%Q) in *.
  set (t4 := (w_night w * SN)%Q) in *.
  set (t5 := (w_weekend w * SW)%Q) in *.
  set (t6 := (w_daysUsed w * SD)%Q) in *.
  lra.
Qed.

(** X15: with a demand of 0, a solver that keeps its contract, reports the
    model optimal and returns a least-cost schedule for it makes
    Granulation return the result with no shift, no staff and no day
    used, as soon as staff and used days cost something and no weight
    is negative. *)
Lemma granulation_zero_demand (SI : Solver) n br w p solver :
  let used := match solver with Some s => s | None => SI end in
  sound used ->
  optimal_on used (Granulation_PS.model 0 n w) ->
  status (used (Granulation_PS.model 0 n w)) = LpStatusOptimal ->
  0 <= n ->
  (0 < w_staff w)%Q -> (0 < w_daysUsed w)%Q ->
  (0 <= w_morning w)%Q -> (0 <= w_evening w)%Q ->
  (0 <= w_night w)%Q -> (0 <= w_weekend w)%Q ->
  exists r,
    fst (Granulation_PS.optimize_granulation SI 0 n br w p solver) = Some r
    /\ morning_shifts r = 0 /\ evening_shifts r = 0 /\ night_shifts r = 0
    /\ total_batches_produced r = 0
    /\ min_staff_required r = 0 /\ days_used r = 0.
Proof.
  intros used Hsound Hoptimal Hstatus Hn Hws Hwd Hwm Hwe Hwn Hww.
  destruct (fst (Granulation_PS.optimize_granulation SI 0 n br w p solver))
    as [r|] eqn:Hr.
  2:{ exfalso.
      assert (Hsome : fst (Granulation_PS.optimize_granulation SI 0 n br w p solver)
                      <> None).
      { apply granulation_feasible_iff. split; [apply Z.ltb_ge; lia | exact Hstatus]. }
      congruence. }
  exists r. split; [reflexivity|].
  apply granulation_success in Hr. destruct Hr as (_ & _ & ->).
  fold used.
  set (v := varValue (used (Granulation_PS.model 0 n w))).
  cbn [morning_shifts evening_shifts night_shifts total_batches_produced
       min_staff_required days_used].
  assert (Hf : feasible (Granulation_PS.model 0 n w) v = true)
    by (apply Hsound; exact Hstatus).
  (* the values are whole and not negative *)
  assert (Hbin : forall s d, In d (Py.range n) ->
            integral (v (Shift s line d)) /\ 0 <= Py.int (v (Shift s line d)) <= 1).
  { intros s d Hd. apply binary_value. apply (feasible_domain _ _ _ Hf).
    apply range_declared_line. exact Hd. }
  assert (Hday : forall d, In d (Py.range n) ->
            integral (v (dayUsed d)) /\ 0 <= Py.int (v (dayUsed d)) <= 1).
  { intros d Hd. apply binary_value. apply (feasible_domain _ _ _ Hf).
    apply dayUsed_declared. exact Hd. }
  assert (Hstaff : integral (v Staff) /\ 0 <= Py.int (v Staff)).
  { apply integer_value. apply (feasible_domain _ _ _ Hf). apply staff_declared. }
  assert (Hpos : forall s d, In d (Py.range n) -> (0 <= v (Shift s line d))%Q).
  { intros s d Hd. destruct (Hbin s d Hd) as [Hi Hb]. unfold integral in Hi.
    rewrite Hi. change 0%Q with (inject_Z 0). rewrite <- Zle_Qle. lia. }
  assert (Hdpos : forall d, In d (Py.range n) -> (0 <= v (dayUsed d))%Q).
  { intros d Hd. destruct (Hday d Hd) as [Hi Hb]. unfold integral in Hi.
    rewrite Hi. change 0%Q with (inject_Z 0). rewrite <- Zle_Qle. lia. }
  assert (Hspos : (0 <= v Staff)%Q).
  { destruct Hstaff as [Hi Hb]. unfold integral in Hi.
    rewrite Hi. change 0%Q with (inject_Z 0). rewrite <- Zle_Qle. lia. }
  (* the cost of the values returned is at most that of the empty schedule *)
  pose proof (Hoptimal Examples.empty_schedule Hstatus
                (granulation_empty_feasible n w)) as Hcost.
  cbn [objective Granulation_PS.model] in Hcost.
  rewrite granulation_empty_objective in Hcost.
  fold v in Hcost.
  unfold Granulation_PS.WeightedObjective in Hcost. cbv zeta in Hcost.
  unfold Granulation_PS.M_vars, Granulation_PS.E_vars, Granulation_PS.N_vars,
    Granulation_PS.staff_var, Granulation_PS.dayUsed_var in Hcost.
  set (SM := lpSum (map (fun d => v (Shift Morning line d)) (Py.range n))) in *.
  set (SE := lpSum (map (fun d => v (Shift Evening line d)) (Py.range n))) in *.
  set (SN := lpSum (map (fun d => v (Shift Night line d)) (Py.range n))) in *.
  set (SW := lpSum (map (fun d => v (Shift Morning line d) + v (Shift Evening line d)
                                  + v (Shift Night line d))%Q (weekend_days n))) in *.
  set (SD := lpSum (map (fun d => v (dayUsed d)) (Py.range n))) in *.
  assert (HSM : (0 <= SM)%Q) by (apply lpSum_nonneg; intros; apply Hpos; assumption).
  assert (HSE : (0 <= SE)%Q) by (apply lpSum_nonneg; intros; apply Hpos; assumption).
  assert (HSN : (0 <= SN)%Q) by (apply lpSum_nonneg; intros; apply Hpos; assumption).
  assert (HSD : (0 <= SD)%Q) by (apply lpSum_nonneg; intros; apply Hdpos; assumption).
  assert (HSW : (0 <= SW)%Q).
  { apply lpSum_nonneg. intros d Hd. apply weekend_in_range in Hd.
    pose proof (Hpos Morning d Hd). pose proof (Hpos Evening d Hd).
    pose proof (Hpos Night d Hd). lra. }
  pose proof (Qmult_le_0_compat _ _ (Qlt_le_weak _ _ Hws) Hspos) as T1.
  pose proof (Qmult_le_0_compat _ _ Hwm HSM) as T2.
  pose proof (Qmult_le_0_compat _ _ Hwe HSE) as T3.
  pose proof (Qmult_le_0_compat _ _ Hwn HSN) as T4.
  pose proof (Qmult_le_0_compat _ _ Hww HSW) as T5.
  pose proof (Qmult_le_0_compat _ _ (Qlt_le_weak _ _ Hwd) HSD) as T6.
  set (t1 := (w_staff w * v Staff)%Q) in *.
  set (t2 := (w_morning w * SM)%Q) in *.
  set (t3 := (w_evening w * SE)%Q) in *.
  set (t4 := (w_night w * SN)%Q) in *.
  set (t5 := (w_weekend w * SW)%Q) in *.
  set (t6 := (w_daysUsed w * SD)%Q) in *.
  assert (Ht1 : (t1 <= 0)%Q) by lra.
  assert (Ht6 : (t6 <= 0)%Q) by lra.
  subst t1 t6.
  pose proof (product_zero _ _ Hws Hspos Ht1) as Hstaff0.
  pose proof (product_zero _ _ Hwd HSD Ht6) as Hdays0.
  (* no staff *)
  assert (Hmin : Py.int (v Staff) = 0) by (apply int_of_integer; exact Hstaff0).
  (* no day used *)
  assert (Hused : Py.sum (map (fun d => Py.int (v (dayUsed d))) (Py.range n)) = 0).
  { apply inject_Z_injective. subst SD.
    rewrite <- (lpSum_integral (fun d => v (dayUsed d)))
      by (intros d Hd; apply (Hday d Hd)).
    exact Hdays0. }
  (* no shift: the staff constraint of each day *)
  assert (Hshift : forall s d, In d (Py.range n) -> Py.int (v (Shift s line d)) = 0).
  { intros s d Hd.
    assert (Hc : In (Granulation_PS.StaffReq d)
                   (constraints (Granulation_PS.model 0 n w))).
    { cbn [constraints Granulation_PS.model]. apply in_or_app. right.
      apply in_or_app. left. apply in_map. exact Hd. }
    pose proof (feasible_holds _ _ _ Hf Hc) as Hreq.
    cbn [c_rhs c_lhs Granulation_PS.StaffReq] in Hreq.
    unfold Granulation_PS.M_vars, Granulation_PS.E_vars, Granulation_PS.N_vars,
      Granulation_PS.staff_var in Hreq.
    rewrite Hstaff0 in Hreq.
    pose proof (Hpos Morning d Hd). pose proof (Hpos Evening d Hd).
    pose proof (Hpos Night d Hd).
    apply int_of_integer. change (inject_Z 0) with 0%Q.
    apply Qle_antisym; [|apply Hpos; exact Hd].
    destruct s; lra. }
  assert (Hcount : forall s,
            Py.sum (map (fun d => Py.int (v (Shift s line d))) (Py.range n)) = 0).
  { intros s. apply sum_all_zero. intros d Hd. apply Hshift. exact Hd. }
  rewrite !Hcount, Hmin, Hused. repeat split; reflexivity.
Qed.

(** The solver that proposes the empty schedule meets these conditions
    over a week with the default weights: Granulation then returns the
    empty result at demand 0, where Dispensing returns [None]. *)
Example granulation_zero_demand_week :
  exists r,
    fst (Granulation_PS.optimize_granulation
           (Examples.proposes Examples.empty_schedule) 0 7 0 Examples.weights
           false None) = Some r
    /\ morning_shifts r = 0 /\ evening_shifts r = 0 /\ night_shifts r = 0
    /\ total_batches_produced r = 0
    /\ min_staff_required r = 0 /\ days_used r = 0.
Proof.
  assert (Hst : status (Examples.proposes Examples.empty_schedule
                          (Granulation_PS.model 0 7 Examples.weights))
                = LpStatusOptimal).
  { unfold Examples.proposes. rewrite granulation_empty_feasible. reflexivity. }
  apply granulation_zero_demand.
  - apply proposes_sound.
  - intros a _ Ha. cbn [objective Granulation_PS.model].
    unfold Examples.proposes at 1. rewrite granulation_empty_feasible.
    cbn [varValue]. rewrite granulation_empty_objective.
    apply (granulation_objective_nonneg 0 7 Examples.weights a Ha);
      cbn [Examples.weights w_staff w_daysUsed w_morning w_evening w_night w_weekend];
      lra.
  - exact Hst.
  - lia.
  - cbn [Examples.weights w_staff]; lra.
  - cbn [Examples.weights w_daysUsed]; lra.
  - cbn [Examples.weights w_morning]; lra.
  - cbn [Examples.weights w_evening]; lra.
  - cbn [Examples.weights w_night]; lra.
  - cbn [Examples.weights w_weekend]; lra.
Defined.

End ZeroDemand.

(** ** The capacity check and the days the diagnostics name *)

Lemma days_for_le (B cap n : Z) :
  0 < cap -> (days_for B cap <= n <-> B <= cap * n).
Proof.
  intros Hcap. unfold days_for, Py.ceil, Py.truediv.
  assert (Hc : (0 < inject_Z cap)%Q) by (change 0%Q with (inject_Z 0); rewrite <- Zlt_Qlt; exact Hcap).
  split.
  - intros H.
    assert (Hx : (inject_Z B / inject_Z cap <= inject_Z n)%Q).
    { eapply Qle_trans; [apply Qle_ceiling|]. rewrite <- Zle_Qle. exact H. }
    assert (Hy : (inject_Z B <= inject_Z n * inject_Z cap)%Q).
    { rewrite <- (Qmult_div_r (inject_Z B) (inject_Z cap)) by lra.
      rewrite (Qmult_comm (inject_Z n)). apply Qmult_le_l; assumption. }
    rewrite <- inject_Z_mult, <- Zle_Qle in Hy. lia.
  - intros H.
    rewrite <- (Qceiling_Z n). apply Qceiling_resp_le.
    apply Qle_shift_div_r; [exact Hc|].
    rewrite <- inject_Z_mult, <- Zle_Qle. lia.
Qed.


Lemma dispensing_calls (SI : pulp.Solver) B n br w p solver :
  solver_calls (snd (Dispensing_PS.optimize_dispensing SI B n br w p solver))
  = if 9 * n <? B then [] else ["DispensingSchedule"%string].
Proof.
  pose proof (dispensing_log SI B n br w p solver) as H. cbv zeta in H.
  destruct (9 * n <? B); [apply no_model_no_solver_calls|]; exact H.
Qed.

Lemma granulation_calls (SI : pulp.Solver) B n br w p solver :
  solver_calls (snd (Granulation_PS.optimize_granulation SI B n br w p solver))
  = if 9 * n <? B then [] else ["GranulationSchedule"%string].
Proof.
  unfold Granulation_PS.optimize_granulation.
  destruct (9 * n <? B).
  - destruct p; reflexivity.
  - log_simpl. destruct (Py.neb _ _); log_simpl; split_flags; reflexivity.
Qed.

Lemma tableting_calls (TS : pulp.Solver) B n u1 u2 u3 br w p :
  solver_calls (snd (Tab_PS.optimize_tableting TS B n u1 u2 u3 br w p))
  = if (u1 || u2 || u3)
       && negb ((yield u1 1 + yield u2 2 + yield u3 1) * 3 * n <? B)
    then ["TabletingSchedule"%string] else [].
Proof.
  unfold Tab_PS.optimize_tableting.
  destruct u1, u2, u3; cbn [orb andb yield];
    try (destruct p; reflexivity);
    fold_capacity n; fold_zero_test;
    (destruct (_ * n <? B); cbn [negb];
     [destruct p; reflexivity
     |log_simpl; destruct (Py.neb _ _); log_simpl; split_flags; reflexivity]).
Qed.

Lemma coating_calls (CBC : pulp.Solver) B n ub ug br w p :
  solver_calls (snd (Coating_PS.optimize_coating CBC B n ub ug br w p))
  = if (ub || ug) && negb (12 * n <? B)
       && negb ((yield ub 2 + yield ug 2) * 3 * n <? B)
    then ["CoatingSchedule"%string] else [].
Proof.
  unfold Coating_PS.optimize_coating.
  destruct ub, ug; cbn [orb andb yield];
    try (destruct p; reflexivity);
    fold_capacity n; fold_zero_test;
    (destruct (12 * n <? B); cbn [negb andb];
     [destruct p; reflexivity|];
     cbv iota;
     try (destruct (_ * n <? B); cbn [negb];
          [destruct p; reflexivity|]);
     log_simpl; destruct (Py.neb _ _); log_simpl; split_flags; reflexivity).
Qed.

Lemma precheck_as_days (cap B n : Z) :
  0 < cap -> negb (cap * n <? B) = (days_for B cap <=? n).
Proof.
  intros Hcap. pose proof (days_for_le B cap n Hcap) as H.
  destruct (Z.ltb_spec (cap * n) B); destruct (Z.leb_spec (days_for B cap) n);
    cbn [negb]; try reflexivity; lia.
Qed.

Lemma ceiling_between (f : Q) (k : Z) :
  (inject_Z (k - 1) < f)%Q -> (f <= inject_Z k)%Q -> Qceiling f = k.
Proof.
  intros Hlo Hhi.
  assert (H1 : Qceiling f <= k).
  { rewrite <- (Qceiling_Z k). apply Qceiling_resp_le. exact Hhi. }
  assert (H2 : k - 1 < Qceiling f).
  { rewrite Zlt_Qlt. eapply Qlt_le_trans; [exact Hlo | apply Qle_ceiling]. }
  lia.
Qed.

Lemma two_power_pos (e : Z) : (0 < Qpower 2 e)%Q.
Proof. apply Qpower_0_lt. reflexivity. Qed.

Lemma two_power_split (e : Z) : (Qpower 2 e == Qpower 2 (e - 53) * inject_Z (2 ^ 53))%Q.
Proof.
  rewrite Zpower_Qpower by lia. change (inject_Z 2) with 2%Q.
  rewrite <- Qpower_plus by discriminate.
  replace (e - 53 + 53) with e by lia. reflexivity.
Qed.

Lemma two_power_double (e : Z) : (Qpower 2 (e - 52) == 2 * Qpower 2 (e - 53))%Q.
Proof.
  replace (e - 52) with (1 + (e - 53)) by lia.
  rewrite Qpower_plus by discriminate. reflexivity.
Qed.

(** Below [2^53] in magnitude, the float quotient of a batch count by a
    capacity has the ceiling of the exact quotient: the float is within
    half a unit in the last place of the quotient, which is less than
    [1/cap], and the quotient is an integer, hence a binary64 number, or
    at least [1/cap] away from the integers. *)
Lemma float_quotient_ceiling (B cap : Z) (f : Q) :
  0 < cap -> Z.abs B < 2 ^ 53 ->
  nearest_binary64 (Py.truediv B cap) f ->
  Py.ceil f = days_for B cap.
Proof.
  intros Hcap HB Hf. unfold days_for, Py.ceil.
  set (q := Py.truediv B cap) in *.
  destruct Hf as [[Hq0 Hf0] | (e & m & He & Hlo & Hhi & Hm & Hnear)].
  { apply Qceiling_comp. rewrite Hq0, Hf0. reflexivity. }
  set (h := Qpower 2 (e - 53)) in *.
  assert (Hh : (0 < h)%Q) by apply two_power_pos.
  assert (Hc : (0 < inject_Z cap)%Q)
    by (change 0%Q with (inject_Z 0); rewrite <- Zlt_Qlt; exact Hcap).
  assert (Hqc : (q * inject_Z cap == inject_Z B)%Q).
  { unfold q, Py.truediv. field. lra. }
  (* the size of the quotient *)
  assert (Habs : (Qabs q * inject_Z cap == inject_Z (Z.abs B))%Q).
  { rewrite <- (Qabs_pos (inject_Z cap)) at 1 by lra.
    rewrite <- Qabs_Qmult, Hqc. unfold Qabs, inject_Z. cbn. reflexivity. }
  assert (Hsmall : (h * inject_Z cap < 1)%Q).
  { assert (H1 : (Qpower 2 e * inject_Z cap <= inject_Z (Z.abs B))%Q).
    { rewrite <- Habs. apply Qmult_le_compat_r; [exact Hlo | lra]. }
    assert (H2 : (inject_Z (Z.abs B) < inject_Z (2 ^ 53))%Q)
      by (rewrite <- Zlt_Qlt; exact HB).
    rewrite two_power_split in H1. fold h in H1.
    assert (H53 : (0 < inject_Z (2 ^ 53))%Q) by reflexivity.
    set (P := inject_Z (2 ^ 53)) in *.
    apply Qnot_le_lt. intros Hge.
    assert ((P <= h * inject_Z cap * P)%Q).
    { setoid_replace P with (1 * P)%Q at 1 by ring.
      apply Qmult_le_compat_r; [exact Hge | lra]. }
    assert ((h * inject_Z cap * P == h * P * inject_Z cap)%Q) by ring.
    lra. }
  set (k := Qceiling q).
  set (C := inject_Z cap) in *.
  assert (Hk1 : (inject_Z (k - 1) < q)%Q).
  { pose proof (Qceiling_lt q) as H. fold k in H.
    replace (k - 1) with (k + -1) by lia. exact H. }
  assert (Hk2 : (q <= inject_Z k)%Q) by apply Qle_ceiling.
  apply Qabs_Qle_condition in Hnear. destruct Hnear as [Hn1 Hn2].
  (* the quotient is at least 1/cap above k - 1 *)
  assert (Hup : (inject_Z (k - 1) * C + 1 <= q * C)%Q).
  { assert (H : (k - 1) * cap < B).
    { rewrite Zlt_Qlt, inject_Z_mult, <- Hqc. fold C.
      apply Qmult_lt_compat_r; assumption. }
    rewrite Hqc. unfold C. rewrite <- inject_Z_mult.
    change 1%Q with (inject_Z 1). rewrite <- inject_Z_plus, <- Zle_Qle. lia. }
  assert (Hle : B <= k * cap).
  { rewrite Zle_Qle, inject_Z_mult, <- Hqc. fold C.
    apply Qmult_le_compat_r; [exact Hk2 | lra]. }
  apply ceiling_between.
  - apply Qnot_le_lt. intros Hge.
    assert (H : ((q - inject_Z (k - 1)) * C <= h * C)%Q)
      by (apply Qmult_le_compat_r; lra).
    lra.
  - destruct (Z.eq_dec B (k * cap)) as [Heq | Hne].
    + (* the quotient is the integer k, which is a binary64 number *)
      assert (Hqk : (q == inject_Z k)%Q).
      { apply (Qmult_inj_r _ _ C); [lra|]. rewrite Hqc, Heq, inject_Z_mult. reflexivity. }
      assert (HC1 : (1 <= C)%Q)
        by (unfold C; change 1%Q with (inject_Z 1); rewrite <- Zle_Qle; lia).
      assert (He52 : e < 53).
      { apply (Qpower_lt_compat_l_inv 2); [|reflexivity].
        eapply Qle_lt_trans; [exact Hlo|].
        assert (H0 : (0 <= Qabs q)%Q) by apply Qabs_nonneg.
        assert (H1 : (0 <= Qabs q * (C - 1))%Q)
          by (apply Qmult_le_0_compat; lra).
        assert (H2 : (inject_Z (Z.abs B) < inject_Z (2 ^ 53))%Q)
          by (rewrite <- Zlt_Qlt; exact HB).
        assert (E : (Qpower 2 53 == inject_Z (2 ^ 53))%Q)
          by (symmetry; apply (Zpower_Qpower 2 53); lia).
        rewrite E.
        assert (H3 : (Qabs q * (C - 1) == Qabs q * C - Qabs q)%Q) by ring.
        lra. }
      set (u := Qpower 2 (e - 52)) in *.
      assert (Hu : (u == 2 * h)%Q) by apply two_power_double.
      assert (Hunit : (inject_Z (2 ^ (52 - e)) * u == 1)%Q).
      { unfold u. rewrite Zpower_Qpower by lia. change (inject_Z 2) with 2%Q.
        rewrite <- Qpower_plus by discriminate.
        replace (52 - e + (e - 52)) with 0 by lia. reflexivity. }
      apply Qnot_lt_le. intros Hgt.
      assert (Hdiff : (f - inject_Z k == inject_Z (m - k * 2 ^ (52 - e)) * u)%Q).
      { rewrite Hm. set (j := 2 ^ (52 - e)) in *.
        replace (m - k * j) with (m + - (k * j)) by lia.
        rewrite inject_Z_plus, inject_Z_opp, inject_Z_mult.
        assert (Hk : (inject_Z k == inject_Z k * (inject_Z j * u))%Q)
          by (rewrite Hunit; ring).
        rewrite Hk at 1. ring. }
      assert (Hpos : 1 <= m - k * 2 ^ (52 - e)).
      { destruct (Z_le_gt_dec (m - k * 2 ^ (52 - e)) 0) as [Hneg|]; [exfalso | lia].
        assert (H0 : (inject_Z (m - k * 2 ^ (52 - e)) <= 0)%Q)
          by (change 0%Q with (inject_Z 0); rewrite <- Zle_Qle; exact Hneg).
        assert (H1 : (0 <= - inject_Z (m - k * 2 ^ (52 - e)) * u)%Q)
          by (apply Qmult_le_0_compat; lra).
        assert (H2 : (- inject_Z (m - k * 2 ^ (52 - e)) * u
                      == - (inject_Z (m - k * 2 ^ (52 - e)) * u))%Q) by ring.
        lra. }
      assert (Hone : (1 * u <= inject_Z (m - k * 2 ^ (52 - e)) * u)%Q).
      { apply Qmult_le_compat_r; [|lra].
        change 1%Q with (inject_Z 1). rewrite <- Zle_Qle. exact Hpos. }
      lra.
    + assert (H : (q * C + 1 <= inject_Z k * C)%Q).
      { rewrite Hqc. unfold C. rewrite <- inject_Z_mult.
        change 1%Q with (inject_Z 1). rewrite <- inject_Z_plus, <- Zle_Qle. lia. }
      apply Qnot_lt_le. intros Hgt.
      assert (H' : ((inject_Z k - q) * C < h * C)%Q)
        by (apply Qmult_lt_compat_r; lra).
      lra.
Qed.

(** X1: for a batch count below [2^53] in magnitude, the figure
    [needed_days] that the diagnostics print, [math.ceil] of the float
    quotient of the batch count by the capacity, is the ceiling of the
    exact quotient, and it is the shortest horizon that passes the
    capacity check: a stage solve hands its model to the solver exactly
    when [num_workdays] is at least that figure (for Coating: at least
    the figure of each of its two checks), and never when no machine is
    enabled. *)
Theorem solver_called_from_needed_days :
  forall (SI TS CBC : pulp.Solver) B n br w p solver u1 u2 u3 ub ug,
    Z.abs B < 2 ^ 53 ->
    let tab_cap := (yield u1 1 + yield u2 2 + yield u3 1) * 3 in
    let coat_cap := (yield ub 2 + yield ug 2) * 3 in
    (forall cap f, 0 < cap -> nearest_binary64 (Py.truediv B cap) f ->
       Py.ceil f = days_for B cap)
    /\ solver_calls (snd (Dispensing_PS.optimize_dispensing SI B n br w p solver))
       = (if days_for B 9 <=? n then ["DispensingSchedule"%string] else [])
    /\ solver_calls (snd (Granulation_PS.optimize_granulation SI B n br w p solver))
       = (if days_for B 9 <=? n then ["GranulationSchedule"%string] else [])
    /\ solver_calls (snd (Tab_PS.optimize_tableting TS B n u1 u2 u3 br w p))
       = (if (u1 || u2 || u3) && (days_for B tab_cap <=? n)
          then ["TabletingSchedule"%string] else [])
    /\ solver_calls (snd (Coating_PS.optimize_coating CBC B n ub ug br w p))
       = (if (ub || ug) && (days_for B 12 <=? n) && (days_for B coat_cap <=? n)
          then ["CoatingSchedule"%string] else []).
Proof.
  intros SI TS CBC B n br w p solver u1 u2 u3 ub ug HB tab_cap coat_cap.
  split; [|split; [|split; [|split]]].
  - intros cap f Hcap Hf. exact (float_quotient_ceiling B cap f Hcap HB Hf).
  - rewrite dispensing_calls, <- (precheck_as_days 9 B n) by lia.
    destruct (9 * n <? B); reflexivity.
  - rewrite granulation_calls, <- (precheck_as_days 9 B n) by lia.
    destruct (9 * n <? B); reflexivity.
  - rewrite tableting_calls. subst tab_cap.
    destruct u1, u2, u3; cbn [orb andb yield]; try reflexivity;
      rewrite <- precheck_as_days by lia; reflexivity.
  - rewrite coating_calls. subst coat_cap.
    rewrite <- (precheck_as_days 12 B n) by lia.
    destruct ub, ug; cbn [orb andb yield]; try reflexivity;
      rewrite <- (precheck_as_days _ B n) by lia; reflexivity.
Qed.

(** Ten batches need two days of Granulation: the binary64 number
    nearest to the quotient of 10 by 9 has the ceiling 2, the solver is
    not called for one day and is called for two. *)
Lemma solver_called_from_needed_days_witness :
  let f := (inject_Z 5003999585967218 * Qpower 2 (-52))%Q in
  nearest_binary64 (Py.truediv 10 9) f
  /\ Py.ceil f = 2
  /\ solver_calls
       (snd (Granulation_PS.optimize_granulation Examples.gives_up 10 1 0
               Examples.weights true None)) = []
  /\ solver_calls
       (snd (Granulation_PS.optimize_granulation Examples.gives_up 10 2 0
               Examples.weights true None)) = ["GranulationSchedule"%string].
Proof.
  intros f.
  destruct (solver_called_from_needed_days
              Examples.gives_up Examples.gives_up Examples.gives_up
              10 1 0 Examples.weights true None true true true true true
              ltac:(vm_compute; reflexivity)) as (Hfloat & _ & Hone & _).
  destruct (solver_called_from_needed_days
              Examples.gives_up Examples.gives_up Examples.gives_up
              10 2 0 Examples.weights true None true true true true true
              ltac:(vm_compute; reflexivity)) as (_ & _ & Htwo & _).
  assert (Hf : nearest_binary64 (Py.truediv 10 9) f).
  { right. exists 0, 5003999585967218.
    split; [lia|].
    split; [vm_compute; discriminate|].
    split; [vm_compute; reflexivity|].
    split; [reflexivity|].
    vm_compute; discriminate. }
  split; [exact Hf|]. split; [|split].
  - exact (eq_trans (Hfloat 9 f ltac:(lia) Hf) eq_refl).
  - exact Hone.
  - exact Htwo.
Defined.

(** ** Results of Granulation, day by day *)

Section Sums.

Lemma sum_le (f g : Z -> Z) (l : list Z) :
  (forall d, In d l -> f d <= g d) -> Py.sum (map f l) <= Py.sum (map g l).
Proof.
  induction l as [|d l IH]; intros H; cbn [map Py.sum fold_right]; [lia|].
  fold (Py.sum (map f l)). fold (Py.sum (map g l)).
  assert (f d <= g d) by (apply H; left; reflexivity).
  assert (Py.sum (map f l) <= Py.sum (map g l))
    by (apply IH; intros; apply H; right; assumption).
  lia.
Qed.

Lemma sum_const (c : Z) (l : list Z) :
  Py.sum (map (fun _ => c) l) = c * Z.of_nat (List.length l).
Proof.
  induction l as [|d l IH]; cbn [map Py.sum fold_right List.length]; [lia|].
  fold (Py.sum (map (fun _ : Z => c) l)). rewrite IH. lia.
Qed.

Lemma sum_scale (c : Z) (f : Z -> Z) (l : list Z) :
  Py.sum (map (fun d => c * f d) l) = c * Py.sum (map f l).
Proof.
  induction l as [|d l IH]; cbn [map Py.sum fold_right]; [lia|].
  fold (Py.sum (map f l)). fold (Py.sum (map (fun d => c * f d) l)). rewrite IH. lia.
Qed.

Lemma range_length (n : Z) : Z.of_nat (List.length (Py.range n)) = Z.max 0 n.
Proof. unfold Py.range. rewrite length_map, length_seq. lia. Qed.

End Sums.

Section GranulationDays.
Import pulp.

(** What the constraints say about one day, in whole numbers. *)
Lemma granulation_day B n w (a : assignment) d :
  feasible (Granulation_PS.model B n w) a = true -> In d (Py.range n) ->
  let x s := Py.int (a (Shift s line d)) in
  let u := Py.int (a (dayUsed d)) in
  (forall s, 0 <= x s <= 1)
  /\ 0 <= u <= 1
  /\ (forall s, x s <= u)
  /\ 6 * (x Morning + x Evening + x Night) <= Py.int (a Staff).
Proof.
  intros Hf Hd x u.
  assert (Hx : forall s, integral (a (Shift s line d)) /\ 0 <= x s <= 1).
  { intros s. apply binary_value. apply (feasible_domain _ _ _ Hf).
    apply range_declared_line. exact Hd. }
  assert (Hu : integral (a (dayUsed d)) /\ 0 <= u <= 1).
  { apply binary_value. apply (feasible_domain _ _ _ Hf). apply dayUsed_declared. exact Hd. }
  assert (HS : integral (a Staff) /\ 0 <= Py.int (a Staff)).
  { apply integer_value. apply (feasible_domain _ _ _ Hf). apply staff_declared. }
  unfold integral in *.
  split; [intros s; apply Hx|]. split; [apply Hu|]. split.
  - intros s.
    assert (Hc : In {| c_label := Anonymous; c_lhs := Granulation_PS.dayUsed_var d;
                       c_rhs := fun a => a (Shift s line d) |}
                   (constraints (Granulation_PS.model B n w))).
    { cbn [constraints Granulation_PS.model]. apply in_or_app. right.
      apply in_or_app. right. apply in_flat_map. exists d. split; [exact Hd|].
      destruct s; [left | right; left | right; right; left]; reflexivity. }
    pose proof (feasible_holds _ _ _ Hf Hc) as Hle. cbn [c_rhs c_lhs] in Hle.
    unfold Granulation_PS.dayUsed_var in Hle.
    subst x u. cbv beta. rewrite Zle_Qle.
    rewrite <- (proj1 (Hx s)), <- (proj1 Hu). exact Hle.
  - assert (Hc : In (Granulation_PS.StaffReq d)
                   (constraints (Granulation_PS.model B n w))).
    { cbn [constraints Granulation_PS.model]. apply in_or_app. right.
      apply in_or_app. left. apply in_map. exact Hd. }
    pose proof (feasible_holds _ _ _ Hf Hc) as Hle.
    cbn [c_rhs c_lhs Granulation_PS.StaffReq] in Hle.
    unfold Granulation_PS.M_vars, Granulation_PS.E_vars, Granulation_PS.N_vars,
      Granulation_PS.staff_var in Hle.
    subst x. cbv beta. rewrite Zle_Qle.
    rewrite inject_Z_mult, !inject_Z_plus.
    rewrite <- (proj1 (Hx Morning)), <- (proj1 (Hx Evening)), <- (proj1 (Hx Night)),
      <- (proj1 HS).
    exact Hle.
Qed.

End GranulationDays.

Section GranulationResult.
Import pulp.

(** The demand is at most what a schedule that satisfies the model makes. *)
Lemma granulation_meets_demand B n w (a : assignment) :
  feasible (Granulation_PS.model B n w) a = true ->
  let count s := Py.sum (map (fun d => Py.int (a (Shift s line d))) (Py.range n)) in
  B <= 3 * (count Morning + count Evening + count Night).
Proof.
  intros Hf count.
  pose proof (granulation_demand_lhs B n w a Hf) as Hlhs.
  pose proof (feasible_holds _ _ (Granulation_PS.DemandConstraint B n) Hf
                (or_introl eq_refl)) as Hdem.
  cbn [c_rhs c_lhs Granulation_PS.DemandConstraint] in Hdem.
  rewrite Hlhs in Hdem. rewrite <- Zle_Qle in Hdem. exact Hdem.
Qed.

(** What the constraints say about the counts of a schedule that
    satisfies the model. *)
Lemma granulation_schedule_bounds B n w (a : assignment) :
  feasible (Granulation_PS.model B n w) a = true ->
  let count s := Py.sum (map (fun d => Py.int (a (Shift s line d))) (Py.range n)) in
  let du := Py.sum (map (fun d => Py.int (a (dayUsed d))) (Py.range n)) in
  (forall s, 0 <= count s <= du)
  /\ du <= Z.max 0 n
  /\ 0 <= Py.int (a Staff)
  /\ 6 * (count Morning + count Evening + count Night) <= Z.max 0 n * Py.int (a Staff)
  /\ (Py.int (a Staff) < 6 -> forall s, count s = 0)
  /\ B <= 3 * (count Morning + count Evening + count Night).
Proof.
  intros Hf count du.
  pose proof (fun d Hd => granulation_day B n w a d Hf Hd) as Hday.
  cbv beta zeta in Hday.
  split; [|split; [|split; [|split; [|split]]]].
  - intros s. split.
    + apply sum_nonneg. intros d Hd. apply (Hday d Hd).
    + apply sum_le. intros d Hd. apply (Hday d Hd).
  - rewrite <- range_length. replace (Z.of_nat (List.length (Py.range n)))
      with (Py.sum (map (fun _ => 1) (Py.range n))) by (rewrite sum_const; lia).
    apply sum_le. intros d Hd. apply (Hday d Hd).
  - apply (integer_value a Staff 0). apply (feasible_domain _ _ _ Hf).
    apply staff_declared.
  - rewrite <- range_length.
    replace (Z.of_nat (List.length (Py.range n)) * Py.int (a Staff))
      with (Py.sum (map (fun _ => Py.int (a Staff)) (Py.range n)))
      by (rewrite sum_const; lia).
    subst count. cbv beta.
    rewrite <- !sum_plus, <- sum_scale.
    apply sum_le. intros d Hd. apply (Hday d Hd).
  - intros Hlt s. apply sum_all_zero. intros d Hd.
    destruct (Hday d Hd) as (Hb & _ & _ & Hreq).
    pose proof (Hb Morning). pose proof (Hb Evening). pose proof (Hb Night).
    destruct s; lia.
  - apply (granulation_meets_demand B n w a Hf).
Qed.

(** X2: every result of Granulation is a schedule that can be worked: no
    kind of shift is counted more often than there are days in use, the
    days in use fit the horizon and are at least the days the demand
    needs at 9 batches a day, the batches reported are at most 9 for
    each day in use, and the staff covers the 6 people of every shift
    of a day. *)
Theorem granulation_result_fits_horizon :
  forall (SI : Solver) B n br w p solver r,
    sound (match solver with Some s => s | None => SI end) ->
    fst (Granulation_PS.optimize_granulation SI B n br w p solver) = Some r ->
    0 <= morning_shifts r <= days_used r
    /\ 0 <= evening_shifts r <= days_used r
    /\ 0 <= night_shifts r <= days_used r
    /\ days_used r <= Z.max 0 n
    /\ total_batches_produced r <= 9 * days_used r
    /\ days_for B 9 <= days_used r
    /\ 0 <= min_staff_required r
    /\ 6 * (morning_shifts r + evening_shifts r + night_shifts r)
       <= Z.max 0 n * min_staff_required r
    /\ (0 < total_batches_produced r -> 6 <= min_staff_required r).
Proof.
  intros SI B n br w p solver r Hsound Hr.
  apply granulation_success in Hr. destruct Hr as (_ & Hst & ->).
  set (used := match solver with Some s => s | None => SI end) in *.
  set (v := varValue (used (Granulation_PS.model B n w))).
  assert (Hf : feasible (Granulation_PS.model B n w) v = true) by (apply Hsound; exact Hst).
  destruct (granulation_schedule_bounds B n w v Hf) as (Hc & Hdu & HS & Hstaff & Hz & Hdem).
  cbn [morning_shifts evening_shifts night_shifts days_used total_batches_produced
       min_staff_required].
  pose proof (Hc Morning). pose proof (Hc Evening). pose proof (Hc Night).
  repeat (split; [lia|]).
  split; [apply days_for_le; lia|].
  split; [exact HS|]. split; [exact Hstaff|].
  intros Hpos.
  destruct (Z_lt_le_dec (Py.int (v Staff)) 6) as [Hlt|Hge]; [exfalso | exact Hge].
  rewrite !(Hz Hlt) in Hpos. lia.
Qed.

End GranulationResult.

Lemma granulation_result_fits_horizon_witness :
  exists r,
    fst (Granulation_PS.optimize_granulation (Examples.proposes Examples.full_schedule)
           9 1 0 Examples.weights false None) = Some r
    /\ 0 <= morning_shifts r <= days_used r
    /\ 0 <= evening_shifts r <= days_used r
    /\ 0 <= night_shifts r <= days_used r
    /\ days_used r <= Z.max 0 1
    /\ total_batches_produced r <= 9 * days_used r
    /\ days_for 9 9 <= days_used r
    /\ 0 <= min_staff_required r
    /\ 6 * (morning_shifts r + evening_shifts r + night_shifts r)
       <= Z.max 0 1 * min_staff_required r
    /\ (0 < total_batches_produced r -> 6 <= min_staff_required r).
Proof.
  eexists. split; [vm_compute; reflexivity|].
  apply (granulation_result_fits_horizon (Examples.proposes Examples.full_schedule)
           9 1 0 Examples.weights false None).
  - apply proposes_sound.
  - vm_compute. reflexivity.
Defined.

(** ** Results of Tableting, day by day *)

Section TabletingDays.
Import pulp.

Lemma tab_staff_declared u1 u2 u3 n :
  In (Staff, LpInteger (Some 0)) (Tab_PS.declared u1 u2 u3 n).
Proof.
  unfold Tab_PS.declared.
  do 3 (apply in_or_app; right). apply in_or_app. left. left. reflexivity.
Qed.

Lemma tab_dayUsed_declared u1 u2 u3 n d :
  In d (Py.range n) -> In (dayUsed d, LpBinary) (Tab_PS.declared u1 u2 u3 n).
Proof.
  intros Hd. unfold Tab_PS.declared.
  do 4 (apply in_or_app; right).
  apply (in_map (fun d => (dayUsed d, LpBinary))). exact Hd.
Qed.

(** The term of one machine, shift and day is a whole number: 0 or 1
    for a machine in use, 0 for one that is switched off. *)
Lemma tab_term_int u1 u2 u3 B n w (a : assignment) r u s d :
  feasible (Tab_PS.model u1 u2 u3 B n w) a = true ->
  In (r, u) (tab_machines u1 u2 u3) -> In d (Py.range n) ->
  let x := if u then Py.int (a (Shift s r d)) else 0 in
  (Tab_PS.make_var (Shift s r d) u a == inject_Z x)%Q
  /\ 0 <= x <= yield u 1.
Proof.
  intros Hf Hr Hd. unfold Tab_PS.make_var, yield. destruct u; cbv zeta.
  - apply (binary_value a (Shift s r d)).
    apply (feasible_domain _ _ _ Hf). cbn [variables Tab_PS.model].
    apply tab_declared_in; assumption.
  - split; [reflexivity | lia].
Qed.

(** What the constraints say about one day, in whole numbers. *)
Lemma tableting_day u1 u2 u3 B n w (a : assignment) d :
  feasible (Tab_PS.model u1 u2 u3 B n w) a = true -> In d (Py.range n) ->
  let x s r (u : bool) := if u then Py.int (a (Shift s r d)) else 0 in
  let all :=
    x Morning p3030 u1 + x Evening p3030 u1 + x Night p3030 u1
    + x Morning p3090i u2 + x Evening p3090i u2 + x Night p3090i u2
    + x Morning ima u3 + x Evening ima u3 + x Night ima u3 in
  let ud := Py.int (a (dayUsed d)) in
  (forall s r u, In (r, u) (tab_machines u1 u2 u3) -> 0 <= x s r u <= yield u 1)
  /\ 0 <= ud <= 1
  /\ all <= 9 * ud
  /\ 3 * all <= Py.int (a Staff).
Proof.
  intros Hf Hd x all ud.
  assert (Hx : forall s r u, In (r, u) (tab_machines u1 u2 u3) ->
            (Tab_PS.make_var (Shift s r d) u a == inject_Z (x s r u))%Q
            /\ 0 <= x s r u <= yield u 1).
  { intros s r u Hr. apply (tab_term_int u1 u2 u3 B n w a r u s d Hf Hr Hd). }
  assert (Hu : integral (a (dayUsed d)) /\ 0 <= ud <= 1).
  { apply binary_value. apply (feasible_domain _ _ _ Hf).
    apply tab_dayUsed_declared. exact Hd. }
  assert (HS : integral (a Staff) /\ 0 <= Py.int (a Staff)).
  { apply integer_value. apply (feasible_domain _ _ _ Hf). apply tab_staff_declared. }
  unfold integral in *.
  assert (H1 : In (p3030, u1) (tab_machines u1 u2 u3)) by (left; reflexivity).
  assert (H2 : In (p3090i, u2) (tab_machines u1 u2 u3)) by (right; left; reflexivity).
  assert (H3 : In (ima, u3) (tab_machines u1 u2 u3)) by (right; right; left; reflexivity).
  assert (Hall : (Tab_PS.all_shifts u1 u2 u3 d a == inject_Z all)%Q).
  { unfold Tab_PS.all_shifts, Tab_PS.M_p3030, Tab_PS.E_p3030, Tab_PS.N_p3030,
      Tab_PS.M_p3090i, Tab_PS.E_p3090i, Tab_PS.N_p3090i,
      Tab_PS.M_ima, Tab_PS.E_ima, Tab_PS.N_ima.
    rewrite !(proj1 (Hx _ _ _ H1)), !(proj1 (Hx _ _ _ H2)), !(proj1 (Hx _ _ _ H3)).
    subst all. rewrite !inject_Z_plus. reflexivity. }
  split; [intros s r u Hr; apply (Hx s r u Hr)|]. split; [apply Hu|]. split.
  - assert (Hc : In (Tab_PS.DayUsed u1 u2 u3 d)
                   (constraints (Tab_PS.model u1 u2 u3 B n w))).
    { cbn [constraints Tab_PS.model]. apply in_or_app. right.
      apply in_or_app. right. apply in_map. exact Hd. }
    pose proof (feasible_holds _ _ _ Hf Hc) as Hle.
    cbn [c_rhs c_lhs Tab_PS.DayUsed] in Hle. unfold Tab_PS.dayUsed_var in Hle.
    rewrite Hall, (proj1 Hu) in Hle. fold ud in Hle.
    rewrite Zle_Qle, inject_Z_mult. change (inject_Z 9) with 9%Q.
    unfold Qdiv in Hle. change (/ 9)%Q with (1 # 9)%Q in Hle. lra.
  - assert (Hc : In (Tab_PS.StaffDay u1 u2 u3 d)
                   (constraints (Tab_PS.model u1 u2 u3 B n w))).
    { cbn [constraints Tab_PS.model]. apply in_or_app. right.
      apply in_or_app. left. apply in_map. exact Hd. }
    pose proof (feasible_holds _ _ _ Hf Hc) as Hle.
    cbn [c_rhs c_lhs Tab_PS.StaffDay] in Hle. unfold Tab_PS.staff_var in Hle.
    rewrite Hall, (proj1 HS) in Hle.
    rewrite Zle_Qle, inject_Z_mult. exact Hle.
Qed.

End TabletingDays.

Section TabletingResult.
Import pulp.

Lemma tab_shift_count_sum (a : assignment) s r u n :
  Tab_PS.shift_count a s r u n
  = Py.sum (map (fun d => if u then Py.int (a (Shift s r d)) else 0) (Py.range n)).
Proof.
  unfold Tab_PS.shift_count. destruct u; [reflexivity|].
  symmetry. apply sum_all_zero. reflexivity.
Qed.

(** The other fields of a result of Tableting. *)
Lemma tableting_fields (TS : Solver) B n u1 u2 u3 br w p r :
  fst (Tab_PS.optimize_tableting TS B n u1 u2 u3 br w p) = Some r ->
  let value := varValue (TS (Tab_PS.model u1 u2 u3 B n w)) in
  Tab_PS.min_staff_required r = Py.int (value Staff)
  /\ Tab_PS.staff_with_buffer r = with_buffer (Py.int (value Staff)) br
  /\ Tab_PS.days_used r
     = Py.sum (map (fun d => Py.int (value (dayUsed d))) (Py.range n))
  /\ Tab_PS.num_workdays_horizon r = n
  /\ Tab_PS.solver_status r = Py.Str "Optimal"
  /\ Tab_PS.machines_used r
     = {| Tab_PS.P3030 := u1; Tab_PS.P3090i := u2; Tab_PS.IMA := u3 |}.
Proof.
  unfold Tab_PS.optimize_tableting.
  destruct (_ =? 0); [rewrite fst_bind; discriminate|].
  destruct (_ <? B); [rewrite fst_bind; discriminate|].
  rewrite !fst_bind. cbn [fst new_problem solve].
  destruct (Py.neb _ _) eqn:Hst; [rewrite fst_bind; discriminate|].
  apply status_string_optimal in Hst.
  rewrite fst_bind. cbn [fst ret]. intros H. injection H as <-.
  cbn [Tab_PS.min_staff_required Tab_PS.staff_with_buffer Tab_PS.days_used
       Tab_PS.num_workdays_horizon Tab_PS.solver_status Tab_PS.machines_used].
  rewrite Hst. repeat split; reflexivity.
Qed.

(** What the constraints say about the counts of a schedule that
    satisfies the model. *)
Lemma tableting_schedule_bounds u1 u2 u3 B n w (a : assignment) :
  feasible (Tab_PS.model u1 u2 u3 B n w) a = true ->
  let c s m u := Tab_PS.shift_count a s m u n in
  let du := Py.sum (map (fun d => Py.int (a (dayUsed d))) (Py.range n)) in
  let all :=
    c Morning p3030 u1 + c Evening p3030 u1 + c Night p3030 u1
    + c Morning p3090i u2 + c Evening p3090i u2 + c Night p3090i u2
    + c Morning ima u3 + c Evening ima u3 + c Night ima u3 in
  (forall s m u, In (m, u) (tab_machines u1 u2 u3) -> 0 <= c s m u <= yield u 1 * du)
  /\ 0 <= du <= Z.max 0 n
  /\ 0 <= Py.int (a Staff)
  /\ 3 * all <= Z.max 0 n * Py.int (a Staff)
  /\ (Py.int (a Staff) < 3 ->
      forall s m u, In (m, u) (tab_machines u1 u2 u3) -> c s m u = 0)
  /\ B <= 1 * (c Morning p3030 u1 + c Evening p3030 u1 + c Night p3030 u1)
          + 2 * (c Morning p3090i u2 + c Evening p3090i u2 + c Night p3090i u2)
          + 1 * (c Morning ima u3 + c Evening ima u3 + c Night ima u3).
Proof.
  intros Hf c du all.
  pose proof (tab_demand_lhs u1 u2 u3 B n w a Hf) as Hlhs. cbv beta zeta in Hlhs.
  pose proof (feasible_holds _ _ (Tab_PS.DemandConstraint u1 u2 u3 B n) Hf
                (or_introl eq_refl)) as Hdem.
  cbn [c_rhs c_lhs Tab_PS.DemandConstraint] in Hdem.
  rewrite Hlhs in Hdem. rewrite <- Zle_Qle in Hdem. clear Hlhs.
  fold (c Morning p3030 u1) (c Evening p3030 u1) (c Night p3030 u1)
       (c Morning p3090i u2) (c Evening p3090i u2) (c Night p3090i u2)
       (c Morning ima u3) (c Evening ima u3) (c Night ima u3) in Hdem.
  set (x := fun s m (u : bool) d => if u then Py.int (a (Shift s m d)) else 0).
  set (ud := fun d => Py.int (a (dayUsed d))).
  assert (Hcx : forall s m u, c s m u = Py.sum (map (x s m u) (Py.range n))).
  { intros s m u. subst c x. cbv beta. apply tab_shift_count_sum. }
  pose proof (fun d Hd => tableting_day u1 u2 u3 B n w a d Hf Hd) as Hday.
  cbv beta zeta in Hday.
  assert (H1 : In (p3030, u1) (tab_machines u1 u2 u3)) by (left; reflexivity).
  assert (H2 : In (p3090i, u2) (tab_machines u1 u2 u3)) by (right; left; reflexivity).
  assert (H3 : In (ima, u3) (tab_machines u1 u2 u3)) by (right; right; left; reflexivity).
  assert (Hnine : forall d, In d (Py.range n) ->
            (forall s m u, In (m, u) (tab_machines u1 u2 u3) ->
               0 <= x s m u d <= yield u 1)
            /\ 0 <= ud d <= 1
            /\ x Morning p3030 u1 d + x Evening p3030 u1 d + x Night p3030 u1 d
               + x Morning p3090i u2 d + x Evening p3090i u2 d + x Night p3090i u2 d
               + x Morning ima u3 d + x Evening ima u3 d + x Night ima u3 d
               <= 9 * ud d
            /\ 3 * (x Morning p3030 u1 d + x Evening p3030 u1 d + x Night p3030 u1 d
                    + x Morning p3090i u2 d + x Evening p3090i u2 d
                    + x Night p3090i u2 d
                    + x Morning ima u3 d + x Evening ima u3 d + x Night ima u3 d)
               <= Py.int (a Staff)) by exact Hday.
  clear Hday.
  (* a machine shift is on only on a day in use *)
  assert (Hxu : forall d, In d (Py.range n) ->
            forall s m u, In (m, u) (tab_machines u1 u2 u3) ->
              0 <= x s m u d <= yield u 1 * ud d).
  { intros d Hd s m u Hru. destruct (Hnine d Hd) as (Hb & Hud & Hall & _).
    pose proof (Hb Morning _ _ H1). pose proof (Hb Evening _ _ H1).
    pose proof (Hb Night _ _ H1). pose proof (Hb Morning _ _ H2).
    pose proof (Hb Evening _ _ H2). pose proof (Hb Night _ _ H2).
    pose proof (Hb Morning _ _ H3). pose proof (Hb Evening _ _ H3).
    pose proof (Hb Night _ _ H3).
    assert (Hcase : ud d = 0 \/ ud d = 1) by lia.
    destruct Hru as [Heq|[Heq|[Heq|[]]]]; injection Heq as <- <-;
      destruct s; destruct Hcase as [E|E]; rewrite E in *; lia. }
  split; [|split; [|split; [|split; [|split]]]].
  - intros s m u Hru. rewrite Hcx. split.
    + apply sum_nonneg. intros d Hd. apply (Hxu d Hd s m u Hru).
    + subst du. fold ud. rewrite <- sum_scale. apply sum_le. intros d Hd.
      apply (Hxu d Hd s m u Hru).
  - split; [apply sum_nonneg; intros d Hd; apply (Hnine d Hd)|].
    rewrite <- range_length. replace (Z.of_nat (List.length (Py.range n)))
      with (Py.sum (map (fun _ => 1) (Py.range n))) by (rewrite sum_const; lia).
    apply sum_le. intros d Hd. apply (Hnine d Hd).
  - apply (integer_value a Staff 0). apply (feasible_domain _ _ _ Hf).
    apply tab_staff_declared.
  - rewrite <- range_length.
    replace (Z.of_nat (List.length (Py.range n)) * Py.int (a Staff))
      with (Py.sum (map (fun _ => Py.int (a Staff)) (Py.range n)))
      by (rewrite sum_const; lia).
    subst all. rewrite !Hcx.
    rewrite <- !sum_plus, <- sum_scale.
    apply sum_le. intros d Hd. apply (Hnine d Hd).
  - intros Hlt s m u Hru. rewrite Hcx. apply sum_all_zero. intros d Hd.
    destruct (Hnine d Hd) as (Hb & _ & _ & Hreq).
    pose proof (Hb Morning _ _ H1). pose proof (Hb Evening _ _ H1).
    pose proof (Hb Night _ _ H1). pose proof (Hb Morning _ _ H2).
    pose proof (Hb Evening _ _ H2). pose proof (Hb Night _ _ H2).
    pose proof (Hb Morning _ _ H3). pose proof (Hb Evening _ _ H3).
    pose proof (Hb Night _ _ H3).
    destruct Hru as [Heq|[Heq|[Heq|[]]]]; injection Heq as <- <-; destruct s; lia.
  - exact Hdem.
Qed.

(** X3: every result of Tableting is a schedule that can be worked: a
    machine is counted at most once for each kind of shift and day in
    use, and not at all when it is switched off; the days in use fit the
    horizon and are at least the days the demand needs at full capacity;
    the batches reported are at most the daily capacity for each day in
    use; and the staff covers the 3 people of every machine shift of a
    day. *)
Theorem tableting_result_fits_horizon :
  forall (TS : Solver) B n u1 u2 u3 br w p r,
    sound TS ->
    fst (Tab_PS.optimize_tableting TS B n u1 u2 u3 br w p) = Some r ->
    let cap := (yield u1 1 + yield u2 2 + yield u3 1) * 3 in
    let per (m : Tab_PS.PerMachine Z -> Z) :=
      [m (Tab_PS.morning_shifts r); m (Tab_PS.evening_shifts r);
       m (Tab_PS.night_shifts r)] in
    Forall (fun c => 0 <= c <= yield u1 1 * Tab_PS.days_used r) (per Tab_PS.P3030)
    /\ Forall (fun c => 0 <= c <= yield u2 1 * Tab_PS.days_used r) (per Tab_PS.P3090i)
    /\ Forall (fun c => 0 <= c <= yield u3 1 * Tab_PS.days_used r) (per Tab_PS.IMA)
    /\ 0 <= Tab_PS.days_used r <= Z.max 0 n
    /\ Tab_PS.total_batches_produced r <= cap * Tab_PS.days_used r
    /\ days_for B cap <= Tab_PS.days_used r
    /\ 0 <= Tab_PS.min_staff_required r
    /\ 3 * (Py.sum (per Tab_PS.P3030) + Py.sum (per Tab_PS.P3090i)
            + Py.sum (per Tab_PS.IMA))
       <= Z.max 0 n * Tab_PS.min_staff_required r
    /\ (0 < Tab_PS.total_batches_produced r -> 3 <= Tab_PS.min_staff_required r).
Proof.
  intros TS B n u1 u2 u3 br w p r Hsound Hr cap per.
  assert (Hcap : 0 < cap).
  { assert (Hne : fst (Tab_PS.optimize_tableting TS B n u1 u2 u3 br w p) <> None)
      by congruence.
    apply tableting_feasible_iff in Hne. destruct Hne as (Hu & _).
    subst cap. destruct u1, u2, u3; cbn [yield]; try lia; discriminate. }
  pose proof (tableting_fields TS B n u1 u2 u3 br w p r Hr) as Hfields.
  pose proof (tableting_success TS B n u1 u2 u3 br w p r Hr) as Hsucc.
  cbv zeta in Hfields, Hsucc.
  destruct Hfields as (HS & _ & Hdu & _).
  destruct Hsucc as (Hst & Hm & He & Hn & Htot).
  set (v := varValue (TS (Tab_PS.model u1 u2 u3 B n w))) in *.
  assert (Hf : feasible (Tab_PS.model u1 u2 u3 B n w) v = true) by (apply Hsound; exact Hst).
  pose proof (tab_demand_lhs u1 u2 u3 B n w v Hf) as Hlhs. cbv beta zeta in Hlhs.
  rewrite (int_of_integer _ _ Hlhs) in Htot. clear Hlhs.
  destruct (tableting_schedule_bounds u1 u2 u3 B n w v Hf)
    as (Hc & Hdays & Hstaff0 & Hstaff & Hz & Hdem).
  subst per. cbv beta. rewrite Htot, HS, Hdu, Hm, He, Hn.
  cbn [Tab_PS.P3030 Tab_PS.P3090i Tab_PS.IMA Py.sum fold_right].
  clear Htot HS Hdu Hm He Hn.
  pose (c := fun s m u => Tab_PS.shift_count v s m u n).
  set (du := Py.sum (map (fun d => Py.int (v (dayUsed d))) (Py.range n))) in *.
  assert (H1 : In (p3030, u1) (tab_machines u1 u2 u3)) by (left; reflexivity).
  assert (H2 : In (p3090i, u2) (tab_machines u1 u2 u3)) by (right; left; reflexivity).
  assert (H3 : In (ima, u3) (tab_machines u1 u2 u3)) by (right; right; left; reflexivity).
  pose proof (Hc Morning _ _ H1). pose proof (Hc Evening _ _ H1).
  pose proof (Hc Night _ _ H1). pose proof (Hc Morning _ _ H2).
  pose proof (Hc Evening _ _ H2). pose proof (Hc Night _ _ H2).
  pose proof (Hc Morning _ _ H3). pose proof (Hc Evening _ _ H3).
  pose proof (Hc Night _ _ H3).
  assert (Htotal : 1 * (c Morning p3030 u1 + c Evening p3030 u1 + c Night p3030 u1)
                   + 2 * (c Morning p3090i u2 + c Evening p3090i u2 + c Night p3090i u2)
                   + 1 * (c Morning ima u3 + c Evening ima u3 + c Night ima u3)
                   <= cap * du).
  { subst cap c. cbv beta. destruct u1, u2, u3; cbn [yield] in *; lia. }
  subst c. cbv beta in Htotal.
  split; [repeat constructor; lia|]. split; [repeat constructor; lia|].
  split; [repeat constructor; lia|].
  split; [exact Hdays|]. split; [exact Htotal|].
  split; [apply days_for_le; [exact Hcap | lia]|].
  split; [exact Hstaff0|]. split; [lia|].
  intros Hpos.
  destruct (Z_lt_le_dec (Py.int (v Staff)) 3) as [Hlt|Hge]; [exfalso | exact Hge].
  rewrite !(Hz Hlt _ _ _ H1), !(Hz Hlt _ _ _ H2), !(Hz Hlt _ _ _ H3) in Hpos. lia.
Qed.

End TabletingResult.

Lemma tableting_result_fits_horizon_witness :
  exists r,
    fst (Tab_PS.optimize_tableting (Examples.proposes Examples.full_schedule)
           12 1 true true true 0 Examples.weights false) = Some r
    /\ let cap := (yield true 1 + yield true 2 + yield true 1) * 3 in
       let per (m : Tab_PS.PerMachine Z -> Z) :=
         [m (Tab_PS.morning_shifts r); m (Tab_PS.evening_shifts r);
          m (Tab_PS.night_shifts r)] in
       Forall (fun c => 0 <= c <= yield true 1 * Tab_PS.days_used r) (per Tab_PS.P3030)
       /\ Forall (fun c => 0 <= c <= yield true 1 * Tab_PS.days_used r)
                 (per Tab_PS.P3090i)
       /\ Forall (fun c => 0 <= c <= yield true 1 * Tab_PS.days_used r) (per Tab_PS.IMA)
       /\ 0 <= Tab_PS.days_used r <= Z.max 0 1
       /\ Tab_PS.total_batches_produced r <= cap * Tab_PS.days_used r
       /\ days_for 12 cap <= Tab_PS.days_used r
       /\ 0 <= Tab_PS.min_staff_required r
       /\ 3 * (Py.sum (per Tab_PS.P3030) + Py.sum (per Tab_PS.P3090i)
               + Py.sum (per Tab_PS.IMA))
          <= Z.max 0 1 * Tab_PS.min_staff_required r
       /\ (0 < Tab_PS.total_batches_produced r -> 3 <= Tab_PS.min_staff_required r).
Proof.
  eexists. split; [vm_compute; reflexivity|].
  apply (tableting_result_fits_horizon (Examples.proposes Examples.full_schedule)
           12 1 true true true 0 Examples.weights false).
  - apply proposes_sound.
  - vm_compute. reflexivity.
Defined.

(** ** Results of Coating, day by day *)

Section CoatingDays.
Import pulp.

Lemma coat_staff_declared ub ug n :
  In (Staff, LpInteger (Some 0)) (Coating_PS.declared ub ug n).
Proof.
  unfold Coating_PS.declared.
  do 3 (apply in_or_app; right). apply in_or_app. left. left. reflexivity.
Qed.

Lemma coat_dayUsed_declared ub ug n d :
  In d (Py.range n) -> In (dayUsed d, LpBinary) (Coating_PS.declared ub ug n).
Proof.
  intros Hd. unfold Coating_PS.declared.
  do 4 (apply in_or_app; right).
  apply (in_map (fun d => (dayUsed d, LpBinary))). exact Hd.
Qed.

Lemma coat_term_int ub ug B n w (a : assignment) r u s d :
  feasible (Coating_PS.model ub ug B n w) a = true ->
  In (r, u) (coat_processes ub ug) -> In d (Py.range n) ->
  let x := if u then Py.int (a (Shift s r d)) else 0 in
  (Coating_PS.term (Coating_PS.make_var (Shift s r d) u) a == inject_Z x)%Q
  /\ 0 <= x <= yield u 1.
Proof.
  intros Hf Hr Hd. unfold Coating_PS.make_var, yield. destruct u; cbv zeta;
    cbn [Coating_PS.term].
  - apply (binary_value a (Shift s r d)).
    apply (feasible_domain _ _ _ Hf). cbn [variables Coating_PS.model].
    apply coat_declared_in; assumption.
  - split; [reflexivity | lia].
Qed.

(** What the constraints say about one day, in whole numbers. *)
Lemma coating_day ub ug B n w (a : assignment) d :
  feasible (Coating_PS.model ub ug B n w) a = true -> In d (Py.range n) ->
  let x s r (u : bool) := if u then Py.int (a (Shift s r d)) else 0 in
  let all :=
    x Morning solution true + x Evening solution true + x Night solution true
    + x Morning bosch ub + x Evening bosch ub + x Night bosch ub
    + x Morning glatt ug + x Evening glatt ug + x Night glatt ug in
  let ud := Py.int (a (dayUsed d)) in
  (forall s r u, In (r, u) (coat_processes ub ug) -> 0 <= x s r u <= yield u 1)
  /\ 0 <= ud <= 1
  /\ all <= 9 * ud
  /\ 2 * all <= Py.int (a Staff).
Proof.
  intros Hf Hd x all ud.
  assert (Hx : forall s r u, In (r, u) (coat_processes ub ug) ->
            (Coating_PS.term (Coating_PS.make_var (Shift s r d) u) a
             == inject_Z (x s r u))%Q
            /\ 0 <= x s r u <= yield u 1).
  { intros s r u Hr. apply (coat_term_int ub ug B n w a r u s d Hf Hr Hd). }
  assert (Hu : integral (a (dayUsed d)) /\ 0 <= ud <= 1).
  { apply binary_value. apply (feasible_domain _ _ _ Hf).
    apply coat_dayUsed_declared. exact Hd. }
  assert (HS : integral (a Staff) /\ 0 <= Py.int (a Staff)).
  { apply integer_value. apply (feasible_domain _ _ _ Hf). apply coat_staff_declared. }
  unfold integral in *.
  assert (H1 : In (solution, true) (coat_processes ub ug)) by (left; reflexivity).
  assert (H2 : In (bosch, ub) (coat_processes ub ug)) by (right; left; reflexivity).
  assert (H3 : In (glatt, ug) (coat_processes ub ug)) by (right; right; left; reflexivity).
  split; [intros s r u Hr; apply (Hx s r u Hr)|]. split; [apply Hu|]. split.
  - assert (Hc : In (Coating_PS.DayUsed ub ug d)
                   (constraints (Coating_PS.model ub ug B n w))).
    { cbn [constraints Coating_PS.model]. do 3 (apply in_or_app; right).
      apply in_map. exact Hd. }
    pose proof (feasible_holds _ _ _ Hf Hc) as Hle.
    cbn [c_rhs c_lhs Coating_PS.DayUsed] in Hle.
    unfold Coating_PS.dayUsed_var, Coating_PS.all_shifts, Coating_PS.M_solution,
      Coating_PS.E_solution, Coating_PS.N_solution, Coating_PS.M_bosch,
      Coating_PS.E_bosch, Coating_PS.N_bosch, Coating_PS.M_glatt,
      Coating_PS.E_glatt, Coating_PS.N_glatt in Hle.
    rewrite !(proj1 (Hx _ _ _ H1)), !(proj1 (Hx _ _ _ H2)), !(proj1 (Hx _ _ _ H3)),
      (proj1 Hu) in Hle.
    fold ud in Hle.
    rewrite Zle_Qle, inject_Z_mult. subst all. rewrite !inject_Z_plus.
    change (inject_Z 9) with 9%Q.
    unfold Qdiv in Hle. change (/ 9)%Q with (1 # 9)%Q in Hle. lra.
  - assert (Hc : In (Coating_PS.StaffDay ub ug d)
                   (constraints (Coating_PS.model ub ug B n w))).
    { cbn [constraints Coating_PS.model]. do 2 (apply in_or_app; right).
      apply in_or_app. left. apply in_map. exact Hd. }
    pose proof (feasible_holds _ _ _ Hf Hc) as Hle.
    cbn [c_rhs c_lhs Coating_PS.StaffDay] in Hle. cbv zeta in Hle.
    unfold Coating_PS.staff_var, Coating_PS.M_solution,
      Coating_PS.E_solution, Coating_PS.N_solution, Coating_PS.M_bosch,
      Coating_PS.E_bosch, Coating_PS.N_bosch, Coating_PS.M_glatt,
      Coating_PS.E_glatt, Coating_PS.N_glatt in Hle.
    rewrite !(proj1 (Hx _ _ _ H1)), !(proj1 (Hx _ _ _ H2)), !(proj1 (Hx _ _ _ H3)),
      (proj1 HS) in Hle.
    rewrite Zle_Qle, inject_Z_mult. subst all. rewrite !inject_Z_plus.
    change (inject_Z 2) with 2%Q. lra.
Qed.

End CoatingDays.

Section CoatingResult.
Import pulp.

Lemma coat_count_sum (a : assignment) s r u n :
  coat_count a s r u n
  = Py.sum (map (fun d => if u then Py.int (a (Shift s r d)) else 0) (Py.range n)).
Proof.
  unfold coat_count. destruct u; [reflexivity|].
  symmetry. apply sum_all_zero. reflexivity.
Qed.

(** The other fields of a result of Coating. *)
Lemma coating_fields (CBC : Solver) B n ub ug br w p r :
  fst (Coating_PS.optimize_coating CBC B n ub ug br w p) = Some r ->
  let value := varValue (CBC (Coating_PS.model ub ug B n w)) in
  Coating_PS.min_staff_required r = Py.int (value Staff)
  /\ Coating_PS.staff_with_buffer r = with_buffer (Py.int (value Staff)) br
  /\ Coating_PS.days_used r
     = Py.sum (map (fun d => Py.int (value (dayUsed d))) (Py.range n))
  /\ Coating_PS.num_workdays_horizon r = n
  /\ Coating_PS.solver_status r = Py.Str "Optimal"
  /\ Coating_PS.machines_used r
     = {| Coating_PS.mBOSCH := ub; Coating_PS.mGLATT := ug |}.
Proof.
  unfold Coating_PS.optimize_coating.
  destruct (_ =? 0); [rewrite fst_bind; discriminate|].
  destruct (12 * n <? B); [rewrite fst_bind; discriminate|].
  destruct (_ <? B); [rewrite fst_bind; discriminate|].
  rewrite !fst_bind. cbn [fst new_problem solve].
  destruct (Py.neb _ _) eqn:Hst; [rewrite fst_bind; discriminate|].
  apply status_string_optimal in Hst.
  rewrite fst_bind. cbn [fst ret]. intros H. injection H as <-.
  cbn [Coating_PS.min_staff_required Coating_PS.staff_with_buffer Coating_PS.days_used
       Coating_PS.num_workdays_horizon Coating_PS.solver_status
       Coating_PS.machines_used].
  rewrite Hst. repeat split; reflexivity.
Qed.

(** What the constraints say about the counts of a schedule that
    satisfies the model. *)
Lemma coating_schedule_bounds ub ug B n w (a : assignment) :
  feasible (Coating_PS.model ub ug B n w) a = true ->
  let c s m u := coat_count a s m u n in
  let du := Py.sum (map (fun d => Py.int (a (dayUsed d))) (Py.range n)) in
  let all :=
    c Morning solution true + c Evening solution true + c Night solution true
    + c Morning bosch ub + c Evening bosch ub + c Night bosch ub
    + c Morning glatt ug + c Evening glatt ug + c Night glatt ug in
  (forall s m u, In (m, u) (coat_processes ub ug) -> 0 <= c s m u <= yield u 1 * du)
  /\ 0 <= du <= Z.max 0 n
  /\ 0 <= Py.int (a Staff)
  /\ 2 * all <= Z.max 0 n * Py.int (a Staff)
  /\ (Py.int (a Staff) < 2 ->
      forall s m u, In (m, u) (coat_processes ub ug) -> c s m u = 0)
  /\ B <= 4 * (c Morning solution true + c Evening solution true
               + c Night solution true)
  /\ B <= 2 * (c Morning bosch ub + c Evening bosch ub + c Night bosch ub)
          + 2 * (c Morning glatt ug + c Evening glatt ug + c Night glatt ug).
Proof.
  intros Hf c du all.
  pose proof (coat_solution_lhs ub ug B n w a Hf) as Hsol. cbv beta zeta in Hsol.
  pose proof (coat_coating_lhs ub ug B n w a Hf) as Hcoat. cbv beta zeta in Hcoat.
  pose proof (feasible_holds _ _ (Coating_PS.SolutionDemand B n) Hf
                (or_introl eq_refl)) as Hd1.
  pose proof (feasible_holds _ _ (Coating_PS.CoatingDemand ub ug B n) Hf
                (or_intror (or_introl eq_refl))) as Hd2.
  cbn [c_rhs c_lhs Coating_PS.SolutionDemand Coating_PS.CoatingDemand] in Hd1, Hd2.
  rewrite Hsol in Hd1. rewrite <- Zle_Qle in Hd1.
  rewrite Hcoat in Hd2. rewrite <- Zle_Qle in Hd2.
  clear Hsol Hcoat.
  set (x := fun s m (u : bool) d => if u then Py.int (a (Shift s m d)) else 0).
  set (ud := fun d => Py.int (a (dayUsed d))).
  assert (Hcx : forall s m u, c s m u = Py.sum (map (x s m u) (Py.range n))).
  { intros s m u. subst c x. cbv beta. apply coat_count_sum. }
  pose proof (fun d Hd => coating_day ub ug B n w a d Hf Hd) as Hday.
  cbv beta zeta in Hday.
  assert (H1 : In (solution, true) (coat_processes ub ug)) by (left; reflexivity).
  assert (H2 : In (bosch, ub) (coat_processes ub ug)) by (right; left; reflexivity).
  assert (H3 : In (glatt, ug) (coat_processes ub ug)) by (right; right; left; reflexivity).
  assert (Hnine : forall d, In d (Py.range n) ->
            (forall s m u, In (m, u) (coat_processes ub ug) ->
               0 <= x s m u d <= yield u 1)
            /\ 0 <= ud d <= 1
            /\ x Morning solution true d + x Evening solution true d
               + x Night solution true d
               + x Morning bosch ub d + x Evening bosch ub d + x Night bosch ub d
               + x Morning glatt ug d + x Evening glatt ug d + x Night glatt ug d
               <= 9 * ud d
            /\ 2 * (x Morning solution true d + x Evening solution true d
                    + x Night solution true d
                    + x Morning bosch ub d + x Evening bosch ub d + x Night bosch ub d
                    + x Morning glatt ug d + x Evening glatt ug d + x Night glatt ug d)
               <= Py.int (a Staff)) by exact Hday.
  clear Hday.
  (* a process shift is on only on a day in use *)
  assert (Hxu : forall d, In d (Py.range n) ->
            forall s m u, In (m, u) (coat_processes ub ug) ->
              0 <= x s m u d <= yield u 1 * ud d).
  { intros d Hd s m u Hru. destruct (Hnine d Hd) as (Hb & Hud & Hall & _).
    pose proof (Hb Morning _ _ H1). pose proof (Hb Evening _ _ H1).
    pose proof (Hb Night _ _ H1). pose proof (Hb Morning _ _ H2).
    pose proof (Hb Evening _ _ H2). pose proof (Hb Night _ _ H2).
    pose proof (Hb Morning _ _ H3). pose proof (Hb Evening _ _ H3).
    pose proof (Hb Night _ _ H3).
    assert (Hcase : ud d = 0 \/ ud d = 1) by lia.
    destruct Hru as [Heq|[Heq|[Heq|[]]]]; injection Heq as <-; try subst u;
      destruct s; destruct Hcase as [E|E]; rewrite E in *; cbn [yield] in *; lia. }
  split; [|split; [|split; [|split; [|split; [|split]]]]].
  - intros s m u Hru. rewrite Hcx. split.
    + apply sum_nonneg. intros d Hd. apply (Hxu d Hd s m u Hru).
    + subst du. fold ud. rewrite <- sum_scale. apply sum_le. intros d Hd.
      apply (Hxu d Hd s m u Hru).
  - split; [apply sum_nonneg; intros d Hd; apply (Hnine d Hd)|].
    rewrite <- range_length. replace (Z.of_nat (List.length (Py.range n)))
      with (Py.sum (map (fun _ => 1) (Py.range n))) by (rewrite sum_const; lia).
    apply sum_le. intros d Hd. apply (Hnine d Hd).
  - apply (integer_value a Staff 0). apply (feasible_domain _ _ _ Hf).
    apply coat_staff_declared.
  - rewrite <- range_length.
    replace (Z.of_nat (List.length (Py.range n)) * Py.int (a Staff))
      with (Py.sum (map (fun _ => Py.int (a Staff)) (Py.range n)))
      by (rewrite sum_const; lia).
    subst all. rewrite !Hcx.
    rewrite <- !sum_plus, <- sum_scale.
    apply sum_le. intros d Hd. apply (Hnine d Hd).
  - intros Hlt s m u Hru. rewrite Hcx. apply sum_all_zero. intros d Hd.
    destruct (Hnine d Hd) as (Hb & _ & _ & Hreq).
    pose proof (Hb Morning _ _ H1). pose proof (Hb Evening _ _ H1).
    pose proof (Hb Night _ _ H1). pose proof (Hb Morning _ _ H2).
    pose proof (Hb Evening _ _ H2). pose proof (Hb Night _ _ H2).
    pose proof (Hb Morning _ _ H3). pose proof (Hb Evening _ _ H3).
    pose proof (Hb Night _ _ H3).
    destruct Hru as [Heq|[Heq|[Heq|[]]]]; injection Heq as <-; try subst u;
      destruct s; cbn [yield] in *; lia.
  - exact Hd1.
  - exact Hd2.
Qed.

(** X4: every result of Coating is a schedule that can be worked: a process
    is counted at most once for each kind of shift and day in use, and a
    coating machine not at all when it is switched off; the days in use
    fit the horizon and are at least the days either capacity check asks
    for; the two totals are at most the daily capacities for each day in
    use; and the staff covers the 2 people of every process shift of a
    day. *)
Theorem coating_result_fits_horizon :
  forall (CBC : Solver) B n ub ug br w p r,
    sound CBC ->
    fst (Coating_PS.optimize_coating CBC B n ub ug br w p) = Some r ->
    let cap := (yield ub 2 + yield ug 2) * 3 in
    let per (m : Coating_PS.PerProcess Z -> Z) :=
      [m (Coating_PS.morning_shifts r); m (Coating_PS.evening_shifts r);
       m (Coating_PS.night_shifts r)] in
    Forall (fun c => 0 <= c <= Coating_PS.days_used r) (per Coating_PS.Solution)
    /\ Forall (fun c => 0 <= c <= yield ub 1 * Coating_PS.days_used r)
              (per Coating_PS.BOSCH)
    /\ Forall (fun c => 0 <= c <= yield ug 1 * Coating_PS.days_used r)
              (per Coating_PS.GLATT)
    /\ 0 <= Coating_PS.days_used r <= Z.max 0 n
    /\ Coating_PS.total_solution_produced r <= 12 * Coating_PS.days_used r
    /\ Coating_PS.total_coating_produced r <= cap * Coating_PS.days_used r
    /\ days_for B 12 <= Coating_PS.days_used r
    /\ days_for B cap <= Coating_PS.days_used r
    /\ 0 <= Coating_PS.min_staff_required r
    /\ 2 * (Py.sum (per Coating_PS.Solution) + Py.sum (per Coating_PS.BOSCH)
            + Py.sum (per Coating_PS.GLATT))
       <= Z.max 0 n * Coating_PS.min_staff_required r
    /\ (0 < Coating_PS.final_batches_count r -> 2 <= Coating_PS.min_staff_required r).
Proof.
  intros CBC B n ub ug br w p r Hsound Hr cap per.
  assert (Hcap : 0 < cap).
  { assert (Hne : fst (Coating_PS.optimize_coating CBC B n ub ug br w p) <> None)
      by congruence.
    apply coating_feasible_iff in Hne. destruct Hne as (Hu & _).
    subst cap. destruct ub, ug; cbn [yield]; try lia; discriminate. }
  pose proof (coating_fields CBC B n ub ug br w p r Hr) as Hfields.
  pose proof (coating_success CBC B n ub ug br w p r Hr) as Hsucc.
  cbv zeta in Hfields, Hsucc.
  destruct Hfields as (HS & _ & Hdu & _).
  destruct Hsucc as (Hst & Hm & He & Hn & Hts & Htc & Hfinal).
  set (v := varValue (CBC (Coating_PS.model ub ug B n w))) in *.
  assert (Hf : feasible (Coating_PS.model ub ug B n w) v = true)
    by (apply Hsound; exact Hst).
  pose proof (coat_solution_lhs ub ug B n w v Hf) as Hsol. cbv beta zeta in Hsol.
  pose proof (coat_coating_lhs ub ug B n w v Hf) as Hcoat. cbv beta zeta in Hcoat.
  rewrite (int_of_integer _ _ Hsol) in Hts.
  rewrite (int_of_integer _ _ Hcoat) in Htc.
  clear Hsol Hcoat.
  destruct (coating_schedule_bounds ub ug B n w v Hf)
    as (Hc & Hdays & Hstaff0 & Hstaff & Hz & Hd1 & Hd2).
  subst per. cbv beta. rewrite Hfinal, Hts, Htc, HS, Hdu, Hm, He, Hn.
  cbn [Coating_PS.Solution Coating_PS.BOSCH Coating_PS.GLATT Py.sum fold_right].
  clear Hfinal Hts Htc HS Hdu Hm He Hn.
  set (du := Py.sum (map (fun d => Py.int (v (dayUsed d))) (Py.range n))) in *.
  assert (H1 : In (solution, true) (coat_processes ub ug)) by (left; reflexivity).
  assert (H2 : In (bosch, ub) (coat_processes ub ug)) by (right; left; reflexivity).
  assert (H3 : In (glatt, ug) (coat_processes ub ug)) by (right; right; left; reflexivity).
  pose proof (Hc Morning _ _ H1). pose proof (Hc Evening _ _ H1).
  pose proof (Hc Night _ _ H1). pose proof (Hc Morning _ _ H2).
  pose proof (Hc Evening _ _ H2). pose proof (Hc Night _ _ H2).
  pose proof (Hc Morning _ _ H3). pose proof (Hc Evening _ _ H3).
  pose proof (Hc Night _ _ H3).
  assert (Hcoating :
            2 * (coat_count v Morning bosch ub n + coat_count v Evening bosch ub n
                 + coat_count v Night bosch ub n)
            + 2 * (coat_count v Morning glatt ug n + coat_count v Evening glatt ug n
                   + coat_count v Night glatt ug n)
            <= cap * du).
  { subst cap. destruct ub, ug; cbn [yield] in *; lia. }
  cbn [yield] in *.
  split; [repeat constructor; lia|]. split; [repeat constructor; lia|].
  split; [repeat constructor; lia|].
  split; [exact Hdays|]. split; [lia|]. split; [exact Hcoating|].
  split; [apply days_for_le; lia|].
  split; [apply days_for_le; [exact Hcap | lia]|].
  split; [exact Hstaff0|]. split; [lia|].
  intros Hpos.
  destruct (Z_lt_le_dec (Py.int (v Staff)) 2) as [Hlt|Hge]; [exfalso | exact Hge].
  rewrite !(Hz Hlt _ _ _ H1), !(Hz Hlt _ _ _ H2), !(Hz Hlt _ _ _ H3) in Hpos. lia.
Qed.

End CoatingResult.

Lemma coating_result_fits_horizon_witness :
  exists r,
    fst (Coating_PS.optimize_coating (Examples.proposes Examples.full_schedule)
           12 1 true true 0 Examples.weights false) = Some r
    /\ let cap := (yield true 2 + yield true 2) * 3 in
       let per (m : Coating_PS.PerProcess Z -> Z) :=
         [m (Coating_PS.morning_shifts r); m (Coating_PS.evening_shifts r);
          m (Coating_PS.night_shifts r)] in
       Forall (fun c => 0 <= c <= Coating_PS.days_used r) (per Coating_PS.Solution)
       /\ Forall (fun c => 0 <= c <= yield true 1 * Coating_PS.days_used r)
                 (per Coating_PS.BOSCH)
       /\ Forall (fun c => 0 <= c <= yield true 1 * Coating_PS.days_used r)
                 (per Coating_PS.GLATT)
       /\ 0 <= Coating_PS.days_used r <= Z.max 0 1
       /\ Coating_PS.total_solution_produced r <= 12 * Coating_PS.days_used r
       /\ Coating_PS.total_coating_produced r <= cap * Coating_PS.days_used r
       /\ days_for 12 12 <= Coating_PS.days_used r
       /\ days_for 12 cap <= Coating_PS.days_used r
       /\ 0 <= Coating_PS.min_staff_required r
       /\ 2 * (Py.sum (per Coating_PS.Solution) + Py.sum (per Coating_PS.BOSCH)
               + Py.sum (per Coating_PS.GLATT))
          <= Z.max 0 1 * Coating_PS.min_staff_required r
       /\ (0 < Coating_PS.final_batches_count r ->
           2 <= Coating_PS.min_staff_required r).
Proof.
  eexists. split; [vm_compute; reflexivity|].
  apply (coating_result_fits_horizon (Examples.proposes Examples.full_schedule)
           12 1 true true 0 Examples.weights false).
  - apply proposes_sound.
  - vm_compute. reflexivity.
Defined.

(** ** The models that can be satisfied *)

Section FullSchedule.
Import pulp.

Lemma lpSum_const (c : Q) (l : list Z) :
  (lpSum (map (fun _ => c) l) == c * inject_Z (Z.of_nat (List.length l)))%Q.
Proof.
  induction l as [|d l IH]; cbn [map lpSum fold_right List.length].
  - cbn. ring.
  - fold (lpSum (map (fun _ : Z => c) l)). rewrite IH.
    rewrite Nat2Z.inj_succ. unfold Z.succ. rewrite inject_Z_plus. ring.
Qed.

(** The demand that every shift of every day covers. *)
Lemma demand_within_capacity (B cap n : Z) :
  B <= cap * Z.max 0 n ->
  (inject_Z B <= inject_Z cap * inject_Z (Z.of_nat (List.length (Py.range n))))%Q.
Proof.
  intros H. rewrite range_length, <- inject_Z_mult, <- Zle_Qle. exact H.
Qed.

(** With every shift of every day in use, Granulation makes 9 batches a
    day. *)
Lemma granulation_full_feasible B n w :
  B <= 9 * Z.max 0 n ->
  feasible (Granulation_PS.model B n w) Examples.full_schedule = true.
Proof.
  intros HB. unfold feasible. apply andb_true_iff. split.
  - apply forallb_forall. intros [v c] Hin.
    cbn [variables Granulation_PS.model] in Hin. unfold Granulation_PS.declared in Hin.
    repeat (apply in_app_or in Hin; destruct Hin as [Hin|Hin]);
      try (apply in_map_iff in Hin; destruct Hin as (d & Heq & _);
           injection Heq as <- <-; reflexivity).
    destruct Hin as [Heq|[]]. injection Heq as <- <-. reflexivity.
  - cbn [constraints Granulation_PS.model app forallb].
    apply andb_true_iff. split.
    + unfold holds. cbn [c_rhs c_lhs Granulation_PS.DemandConstraint].
      apply Qle_bool_iff. unfold Granulation_PS.total_batches.
      change (inject_Z B <= lpSum (map (fun _ => 3%Q) (Py.range n)) * 3)%Q.
      rewrite lpSum_const.
      pose proof (demand_within_capacity B 9 n HB) as H.
      change (inject_Z 9) with 9%Q in H. lra.
    + rewrite forallb_app. apply andb_true_iff. split.
      * apply forallb_forall. intros c Hc. apply in_map_iff in Hc.
        destruct Hc as (d & <- & _). reflexivity.
      * apply forallb_forall. intros c Hc. apply in_flat_map in Hc.
        destruct Hc as (d & _ & Hc).
        destruct Hc as [<-|[<-|[<-|[]]]]; reflexivity.
Qed.

(** The Granulation model can be satisfied exactly when the demand is
    within 9 batches for each day of the horizon. *)
Lemma granulation_satisfiable_iff B n w :
  (exists a, feasible (Granulation_PS.model B n w) a = true) <-> B <= 9 * Z.max 0 n.
Proof.
  split.
  - intros [a Hf].
    destruct (granulation_schedule_bounds B n w a Hf) as (Hc & Hdu & _ & _ & _ & Hdem).
    pose proof (Hc Morning). pose proof (Hc Evening). pose proof (Hc Night). lia.
  - intros HB. exists Examples.full_schedule. apply granulation_full_feasible. exact HB.
Qed.

(** With every shift of every enabled machine in use, Tableting makes
    its daily capacity every day. *)
Lemma tableting_full_feasible u1 u2 u3 B n w :
  B <= (yield u1 1 + yield u2 2 + yield u3 1) * 3 * Z.max 0 n ->
  feasible (Tab_PS.model u1 u2 u3 B n w) Examples.full_schedule = true.
Proof.
  intros HB. unfold feasible. apply andb_true_iff. split.
  - apply forallb_forall. intros [v c] Hin.
    cbn [variables Tab_PS.model] in Hin. unfold Tab_PS.declared, Tab_PS.machine_vars in Hin.
    destruct u1, u2, u3;
      repeat (apply in_app_or in Hin; destruct Hin as [Hin|Hin]);
      try (apply in_map_iff in Hin; destruct Hin as (d & Heq & _);
           injection Heq as <- <-; reflexivity);
      try (destruct Hin as [Heq|[]]; injection Heq as <- <-; reflexivity);
      destruct Hin.
  - cbn [constraints Tab_PS.model app forallb].
    apply andb_true_iff. split.
    + unfold holds. cbn [c_rhs c_lhs Tab_PS.DemandConstraint].
      apply Qle_bool_iff. unfold Tab_PS.total_batches.
      rewrite lpSum_three_a_day.
      pose proof (demand_within_capacity B _ n HB) as H.
      destruct u1, u2, u3; cbn [yield] in H;
        match type of H with
        | (_ <= inject_Z ?c * _)%Q =>
            let v := eval vm_compute in (inject_Z c) in
            change (inject_Z c) with v in H
        end;
        match goal with
        | |- (_ <= lpSum (map ?f _) + lpSum (map ?g _) + lpSum (map ?h _))%Q =>
            let k := eval vm_compute in (f 0) in
            change (inject_Z B
                    <= lpSum (map (fun _ => k) (Py.range n))
                       + lpSum (map (fun _ => k) (Py.range n))
                       + lpSum (map (fun _ => k) (Py.range n)))%Q
        end;
        rewrite !lpSum_const; lra.
    + rewrite forallb_app. apply andb_true_iff. split.
      * apply forallb_forall. intros c Hc. apply in_map_iff in Hc.
        destruct Hc as (d & <- & _). destruct u1, u2, u3; reflexivity.
      * apply forallb_forall. intros c Hc. apply in_map_iff in Hc.
        destruct Hc as (d & <- & _). destruct u1, u2, u3; reflexivity.
Qed.

(** The Tableting model can be satisfied exactly when the demand is
    within the daily capacity for each day of the horizon. *)
Lemma tableting_satisfiable_iff u1 u2 u3 B n w :
  (exists a, feasible (Tab_PS.model u1 u2 u3 B n w) a = true)
  <-> B <= (yield u1 1 + yield u2 2 + yield u3 1) * 3 * Z.max 0 n.
Proof.
  split.
  - intros [a Hf].
    destruct (tableting_schedule_bounds u1 u2 u3 B n w a Hf)
      as (Hc & Hdu & _ & _ & _ & Hdem).
    assert (H1 : In (p3030, u1) (tab_machines u1 u2 u3)) by (left; reflexivity).
    assert (H2 : In (p3090i, u2) (tab_machines u1 u2 u3)) by (right; left; reflexivity).
    assert (H3 : In (ima, u3) (tab_machines u1 u2 u3)) by (right; right; left; reflexivity).
    pose proof (Hc Morning _ _ H1). pose proof (Hc Evening _ _ H1).
    pose proof (Hc Night _ _ H1). pose proof (Hc Morning _ _ H2).
    pose proof (Hc Evening _ _ H2). pose proof (Hc Night _ _ H2).
    pose proof (Hc Morning _ _ H3). pose proof (Hc Evening _ _ H3).
    pose proof (Hc Night _ _ H3).
    destruct u1, u2, u3; cbn [yield] in *; lia.
  - intros HB. exists Examples.full_schedule. apply tableting_full_feasible. exact HB.
Qed.

(** With every shift of every process in use, Coating makes 12 batches
    of solution and its daily coating capacity every day. *)
Lemma coating_full_feasible ub ug B n w :
  B <= 12 * Z.max 0 n ->
  B <= (yield ub 2 + yield ug 2) * 3 * Z.max 0 n ->
  feasible (Coating_PS.model ub ug B n w) Examples.full_schedule = true.
Proof.
  intros HB1 HB2. unfold feasible. apply andb_true_iff. split.
  - apply forallb_forall. intros [v c] Hin.
    cbn [variables Coating_PS.model] in Hin.
    unfold Coating_PS.declared, Coating_PS.process_vars in Hin.
    destruct ub, ug;
      repeat (apply in_app_or in Hin; destruct Hin as [Hin|Hin]);
      try (apply in_map_iff in Hin; destruct Hin as (d & Heq & _);
           injection Heq as <- <-; reflexivity);
      try (destruct Hin as [Heq|[]]; injection Heq as <- <-; reflexivity);
      destruct Hin.
  - cbn [constraints Coating_PS.model app forallb].
    apply andb_true_iff. split; [|apply andb_true_iff; split].
    + unfold holds. cbn [c_rhs c_lhs Coating_PS.SolutionDemand].
      apply Qle_bool_iff. unfold Coating_PS.total_solution_batches.
      rewrite lpSum_three_a_day.
      pose proof (demand_within_capacity B 12 n HB1) as H.
      change (inject_Z 12) with 12%Q in H.
      change (inject_Z B
              <= lpSum (map (fun _ => 4%Q) (Py.range n))
                 + lpSum (map (fun _ => 4%Q) (Py.range n))
                 + lpSum (map (fun _ => 4%Q) (Py.range n)))%Q.
      rewrite !lpSum_const. lra.
    + unfold holds. cbn [c_rhs c_lhs Coating_PS.CoatingDemand].
      apply Qle_bool_iff. unfold Coating_PS.total_coating_batches.
      rewrite lpSum_three_a_day.
      pose proof (demand_within_capacity B _ n HB2) as H.
      destruct ub, ug; cbn [yield] in H;
        match type of H with
        | (_ <= inject_Z ?c * _)%Q =>
            let v := eval vm_compute in (inject_Z c) in
            change (inject_Z c) with v in H
        end;
        match goal with
        | |- (_ <= lpSum (map ?f _) + lpSum (map ?g _) + lpSum (map ?h _))%Q =>
            let k := eval vm_compute in (f 0) in
            change (inject_Z B
                    <= lpSum (map (fun _ => k) (Py.range n))
                       + lpSum (map (fun _ => k) (Py.range n))
                       + lpSum (map (fun _ => k) (Py.range n)))%Q
        end;
        rewrite !lpSum_const; lra.
    + rewrite forallb_app. apply andb_true_iff. split.
      * apply forallb_forall. intros c Hc. apply in_map_iff in Hc.
        destruct Hc as (d & <- & _). destruct ub, ug; reflexivity.
      * apply forallb_forall. intros c Hc. apply in_map_iff in Hc.
        destruct Hc as (d & <- & _). destruct ub, ug; reflexivity.
Qed.

(** The Coating model can be satisfied exactly when the demand is within
    both daily capacities for each day of the horizon. *)
Lemma coating_satisfiable_iff ub ug B n w :
  (exists a, feasible (Coating_PS.model ub ug B n w) a = true)
  <-> B <= 12 * Z.max 0 n /\ B <= (yield ub 2 + yield ug 2) * 3 * Z.max 0 n.
Proof.
  split.
  - intros [a Hf].
    destruct (coating_schedule_bounds ub ug B n w a Hf)
      as (Hc & Hdu & _ & _ & _ & Hd1 & Hd2).
    assert (H1 : In (solution, true) (coat_processes ub ug)) by (left; reflexivity).
    assert (H2 : In (bosch, ub) (coat_processes ub ug)) by (right; left; reflexivity).
    assert (H3 : In (glatt, ug) (coat_processes ub ug)) by (right; right; left; reflexivity).
    pose proof (Hc Morning _ _ H1). pose proof (Hc Evening _ _ H1).
    pose proof (Hc Night _ _ H1). pose proof (Hc Morning _ _ H2).
    pose proof (Hc Evening _ _ H2). pose proof (Hc Night _ _ H2).
    pose proof (Hc Morning _ _ H3). pose proof (Hc Evening _ _ H3).
    pose proof (Hc Night _ _ H3).
    destruct ub, ug; cbn [yield] in *; lia.
  - intros [HB1 HB2]. exists Examples.full_schedule.
    apply coating_full_feasible; assumption.
Qed.

End FullSchedule.

(** ** The capacity check is exact *)

Section Exact.
Import pulp.

(** The solver that proposes the full schedule finds every model of a
    family that the full schedule satisfies whenever anything does. *)
Lemma proposes_full_complete (model : Z -> LpProblem) :
  (forall B, (exists a, feasible (model B) a = true) ->
             feasible (model B) Examples.full_schedule = true) ->
  complete_on (Examples.proposes Examples.full_schedule) model.
Proof.
  intros H B Hex. unfold Examples.proposes. rewrite (H B Hex). reflexivity.
Qed.

Lemma granulation_proposes_full_complete n w :
  complete_on (Examples.proposes Examples.full_schedule)
    (fun B => Granulation_PS.model B n w).
Proof.
  apply proposes_full_complete. intros B Hex.
  apply granulation_full_feasible. apply (proj1 (granulation_satisfiable_iff B n w)). exact Hex.
Qed.

Lemma tableting_proposes_full_complete u1 u2 u3 n w :
  complete_on (Examples.proposes Examples.full_schedule)
    (fun B => Tab_PS.model u1 u2 u3 B n w).
Proof.
  apply proposes_full_complete. intros B Hex.
  apply tableting_full_feasible.
  apply (proj1 (tableting_satisfiable_iff u1 u2 u3 B n w)). exact Hex.
Qed.

Lemma coating_proposes_full_complete ub ug n w :
  complete_on (Examples.proposes Examples.full_schedule)
    (fun B => Coating_PS.model ub ug B n w).
Proof.
  apply proposes_full_complete. intros B Hex.
  apply coating_satisfiable_iff in Hex. destruct Hex.
  apply coating_full_feasible; assumption.
Qed.

(** X5: the capacity check of Granulation is exact: the model it would build
    can be satisfied exactly when the demand is within 9 batches for
    each day of the horizon; so with a solver that finds every model
    that can be satisfied, the solve returns a result exactly when the
    check passes. *)
Theorem granulation_feasible_iff_capacity :
  forall (SI : Solver) B n br w p solver,
    complete_on (match solver with Some s => s | None => SI end)
      (fun B => Granulation_PS.model B n w) ->
    ((exists a, feasible (Granulation_PS.model B n w) a = true)
     <-> B <= 9 * Z.max 0 n)
    /\ (fst (Granulation_PS.optimize_granulation SI B n br w p solver) <> None
        <-> B <= 9 * n).
Proof.
  intros SI B n br w p solver Hcomplete.
  split; [apply granulation_satisfiable_iff|].
  rewrite granulation_feasible_iff. split.
  - intros [Hc _]. apply Z.ltb_ge in Hc. exact Hc.
  - intros HB. split; [apply Z.ltb_ge; exact HB|].
    apply (Hcomplete B). apply (proj2 (granulation_satisfiable_iff B n w)). lia.
Qed.

Lemma granulation_feasible_iff_capacity_witness :
  fst (Granulation_PS.optimize_granulation (Examples.proposes Examples.full_schedule)
         9 1 0 Examples.weights false None) <> None
  <-> 9 <= 9 * 1.
Proof.
  exact (proj2 (granulation_feasible_iff_capacity
                  (Examples.proposes Examples.full_schedule) 9 1 0 Examples.weights
                  false None (granulation_proposes_full_complete 1 Examples.weights))).
Defined.

(** X6: the capacity check of Tableting is exact: the model it would build
    can be satisfied exactly when the demand is within three shifts a
    day of the enabled machines' yields for each day of the horizon; so
    with a solver that finds every model that can be satisfied, the
    solve returns a result exactly when a machine is enabled and the
    check passes. *)
Theorem tableting_feasible_iff_capacity :
  forall (TS : Solver) B n u1 u2 u3 br w p,
    let cap := (yield u1 1 + yield u2 2 + yield u3 1) * 3 in
    complete_on TS (fun B => Tab_PS.model u1 u2 u3 B n w) ->
    ((exists a, feasible (Tab_PS.model u1 u2 u3 B n w) a = true)
     <-> B <= cap * Z.max 0 n)
    /\ (fst (Tab_PS.optimize_tableting TS B n u1 u2 u3 br w p) <> None
        <-> (u1 || u2 || u3) = true /\ B <= cap * n).
Proof.
  intros TS B n u1 u2 u3 br w p cap Hcomplete.
  split; [apply tableting_satisfiable_iff|].
  rewrite tableting_feasible_iff. fold cap. split.
  - intros (Hu & Hc & _). apply Z.ltb_ge in Hc. auto.
  - intros [Hu HB]. split; [exact Hu|]. split; [apply Z.ltb_ge; exact HB|].
    apply (Hcomplete B). apply (proj2 (tableting_satisfiable_iff u1 u2 u3 B n w)).
    fold cap.
    assert (0 <= cap) by (subst cap; destruct u1, u2, u3; cbn [yield]; lia).
    nia.
Qed.

Lemma tableting_feasible_iff_capacity_witness :
  fst (Tab_PS.optimize_tableting (Examples.proposes Examples.full_schedule)
         12 1 true true true 0 Examples.weights false) <> None
  <-> (true || true || true) = true /\ 12 <= (1 + 2 + 1) * 3 * 1.
Proof.
  exact (proj2 (tableting_feasible_iff_capacity
                  (Examples.proposes Examples.full_schedule) 12 1 true true true 0
                  Examples.weights false
                  (tableting_proposes_full_complete true true true 1 Examples.weights))).
Defined.

(** X7: the two capacity checks of Coating are exact: the model it would
    build can be satisfied exactly when the demand is within 12 batches
    of solution and within 6 coated batches for each enabled coating
    machine, for each day of the horizon; so with a solver that finds
    every model that can be satisfied, the solve returns a result
    exactly when a coating machine is enabled and both checks pass. *)
Theorem coating_feasible_iff_capacity :
  forall (CBC : Solver) B n ub ug br w p,
    let cap := (yield ub 2 + yield ug 2) * 3 in
    complete_on CBC (fun B => Coating_PS.model ub ug B n w) ->
    ((exists a, feasible (Coating_PS.model ub ug B n w) a = true)
     <-> B <= 12 * Z.max 0 n /\ B <= cap * Z.max 0 n)
    /\ (fst (Coating_PS.optimize_coating CBC B n ub ug br w p) <> None
        <-> (ub || ug) = true /\ B <= 12 * n /\ B <= cap * n).
Proof.
  intros CBC B n ub ug br w p cap Hcomplete.
  split; [apply coating_satisfiable_iff|].
  rewrite coating_feasible_iff. fold cap. split.
  - intros (Hu & Hs & Hc & _). apply Z.ltb_ge in Hs. apply Z.ltb_ge in Hc. auto.
  - intros (Hu & HB1 & HB2). split; [exact Hu|].
    split; [apply Z.ltb_ge; exact HB1|]. split; [apply Z.ltb_ge; exact HB2|].
    apply (Hcomplete B). apply (proj2 (coating_satisfiable_iff ub ug B n w)).
    fold cap.
    assert (0 <= cap) by (subst cap; destruct ub, ug; cbn [yield]; lia).
    split; nia.
Qed.

Lemma coating_feasible_iff_capacity_witness :
  fst (Coating_PS.optimize_coating (Examples.proposes Examples.full_schedule)
         6 1 true false 0 Examples.weights false) <> None
  <-> (true || false) = true /\ 6 <= 12 * 1 /\ 6 <= (2 + 0) * 3 * 1.
Proof.
  exact (proj2 (coating_feasible_iff_capacity
                  (Examples.proposes Examples.full_schedule) 6 1 true false 0
                  Examples.weights false
                  (coating_proposes_full_complete true false 1 Examples.weights))).
Defined.

End Exact.


(** ** The buffered head count *)

Section Buffer.
Import pulp.

(** [math.ceil(min_staff * (1 + buffer_ratio))] is at least [min_staff]
    when neither is negative. *)
Lemma with_buffer_ge (m : Z) (br : Q) :
  0 <= m -> (0 <= br)%Q -> m <= with_buffer m br.
Proof.
  intros Hm Hbr. unfold with_buffer, Py.ceil.
  rewrite Zle_Qle. eapply Qle_trans; [|apply Qle_ceiling].
  assert (0 <= inject_Z m)%Q by (change 0%Q with (inject_Z 0); rewrite <- Zle_Qle; exact Hm).
  assert (0 <= inject_Z m * br)%Q by (apply Qmult_le_0_compat; assumption).
  lra.
Qed.

(** Without a buffer the head count stays as it is. *)
Lemma with_buffer_none (m : Z) (br : Q) : (br == 0)%Q -> with_buffer m br = m.
Proof.
  intros Hbr. unfold with_buffer, Py.ceil.
  rewrite <- (Qceiling_Z m) at 2. apply Qceiling_comp. rewrite Hbr. ring.
Qed.

(** X8: the buffered head count of a result is never below the minimal one,
    and equals it when the buffer ratio is 0. *)
Theorem buffered_staff_covers_minimum :
  forall (SI TS CBC : Solver) (solver : option Solver) B n br w p u1 u2 u3 ub ug,
    sound (match solver with Some s => s | None => SI end) ->
    sound TS -> sound CBC -> (0 <= br)%Q ->
    (forall r,
        fst (Granulation_PS.optimize_granulation SI B n br w p solver) = Some r ->
        0 <= min_staff_required r <= staff_with_buffer r
        /\ ((br == 0)%Q -> staff_with_buffer r = min_staff_required r))
    /\ (forall r,
          fst (Tab_PS.optimize_tableting TS B n u1 u2 u3 br w p) = Some r ->
          0 <= Tab_PS.min_staff_required r <= Tab_PS.staff_with_buffer r
          /\ ((br == 0)%Q -> Tab_PS.staff_with_buffer r = Tab_PS.min_staff_required r))
    /\ (forall r,
          fst (Coating_PS.optimize_coating CBC B n ub ug br w p) = Some r ->
          0 <= Coating_PS.min_staff_required r <= Coating_PS.staff_with_buffer r
          /\ ((br == 0)%Q ->
              Coating_PS.staff_with_buffer r = Coating_PS.min_staff_required r)).
Proof.
  intros SI TS CBC solver B n br w p u1 u2 u3 ub ug HSI HTS HCBC Hbr.
  split; [|split].
  - intros r Hr. apply granulation_success in Hr. destruct Hr as (_ & Hst & ->).
    cbn [min_staff_required staff_with_buffer].
    assert (HS : 0 <= Py.int (varValue (match solver with Some s => s | None => SI end
                                          (Granulation_PS.model B n w)) Staff)).
    { apply (integer_value _ Staff 0). apply (feasible_domain _ _ _ (HSI _ Hst)).
      apply staff_declared. }
    split; [split; [exact HS | apply with_buffer_ge; assumption]|].
    apply with_buffer_none.
  - intros r Hr.
    pose proof (tableting_success TS B n u1 u2 u3 br w p r Hr) as (Hst & _).
    destruct (tableting_fields TS B n u1 u2 u3 br w p r Hr) as (-> & -> & _).
    assert (HS : 0 <= Py.int (varValue (TS (Tab_PS.model u1 u2 u3 B n w)) Staff)).
    { apply (integer_value _ Staff 0). apply (feasible_domain _ _ _ (HTS _ Hst)).
      apply tab_staff_declared. }
    split; [split; [exact HS | apply with_buffer_ge; assumption]|].
    apply with_buffer_none.
  - intros r Hr.
    pose proof (coating_success CBC B n ub ug br w p r Hr) as (Hst & _).
    destruct (coating_fields CBC B n ub ug br w p r Hr) as (-> & -> & _).
    assert (HS : 0 <= Py.int (varValue (CBC (Coating_PS.model ub ug B n w)) Staff)).
    { apply (integer_value _ Staff 0). apply (feasible_domain _ _ _ (HCBC _ Hst)).
      apply coat_staff_declared. }
    split; [split; [exact HS | apply with_buffer_ge; assumption]|].
    apply with_buffer_none.
Qed.

End Buffer.

Lemma buffered_staff_covers_minimum_witness :
  exists r,
    fst (Granulation_PS.optimize_granulation (Examples.proposes Examples.full_schedule)
           9 1 (1 # 5) Examples.weights false None) = Some r
    /\ 0 <= min_staff_required r <= staff_with_buffer r
    /\ ((1 # 5 == 0)%Q -> staff_with_buffer r = min_staff_required r).
Proof.
  eexists. split; [vm_compute; reflexivity|].
  apply (proj1 (buffered_staff_covers_minimum
                  (Examples.proposes Examples.full_schedule)
                  (Examples.proposes Examples.full_schedule)
                  (Examples.proposes Examples.full_schedule)
                  None 9 1 (1 # 5) Examples.weights false true true true true true
                  (proposes_sound _) (proposes_sound _) (proposes_sound _)
                  ltac:(discriminate))).
  vm_compute. reflexivity.
Defined.

(** ** The percentage of demand completed *)

Section PercentCompleted.
Import pulp.

Lemma ratio_full (x : Q) (B : Z) :
  0 < B -> (inject_Z B <= x)%Q -> (100 <= x / inject_Z B * 100)%Q.
Proof.
  intros HB Hx.
  assert (Hb : (0 < inject_Z B)%Q)
    by (change 0%Q with (inject_Z 0); rewrite <- Zlt_Qlt; exact HB).
  assert (H1 : (1 <= x / inject_Z B)%Q).
  { apply Qle_shift_div_l; [exact Hb|]. lra. }
  set (y := (x / inject_Z B)%Q) in *. lra.
Qed.

Lemma pct_full (produced B : Z) :
  0 < B -> B <= produced -> (100 <= pct produced B)%Q.
Proof.
  intros HB Hle. unfold pct.
  destruct (Z.ltb_spec 0 B); [|lia].
  unfold Py.truediv. apply ratio_full; [exact HB|].
  rewrite <- Zle_Qle. exact Hle.
Qed.

Lemma pct_no_demand (produced B : Z) : B <= 0 -> pct produced B = 0%Q.
Proof. intros HB. unfold pct. destruct (Z.ltb_spec 0 B); [lia | reflexivity]. Qed.

Lemma tableting_pct (TS : Solver) B n u1 u2 u3 br w p r :
  fst (Tab_PS.optimize_tableting TS B n u1 u2 u3 br w p) = Some r ->
  let value := varValue (TS (Tab_PS.model u1 u2 u3 B n w)) in
  Tab_PS.pct_demand_completed r
  = if 0 <? B
    then (lpSum (Tab_PS.total_batches u1 u2 u3 n value) / inject_Z B * 100)%Q
    else 0%Q.
Proof.
  unfold Tab_PS.optimize_tableting.
  destruct (_ =? 0); [rewrite fst_bind; discriminate|].
  destruct (_ <? B); [rewrite fst_bind; discriminate|].
  rewrite !fst_bind. cbn [fst new_problem solve].
  destruct (Py.neb _ _) eqn:Hst; [rewrite fst_bind; discriminate|].
  rewrite fst_bind. cbn [fst ret]. intros H. injection H as <-.
  reflexivity.
Qed.

Lemma coating_pct (CBC : Solver) B n ub ug br w p r :
  fst (Coating_PS.optimize_coating CBC B n ub ug br w p) = Some r ->
  Coating_PS.pct_demand_completed r = pct (Coating_PS.final_batches_count r) B.
Proof.
  unfold Coating_PS.optimize_coating.
  destruct (_ =? 0); [rewrite fst_bind; discriminate|].
  destruct (12 * n <? B); [rewrite fst_bind; discriminate|].
  destruct (_ <? B); [rewrite fst_bind; discriminate|].
  rewrite !fst_bind. cbn [fst new_problem solve].
  destruct (Py.neb _ _) eqn:Hst; [rewrite fst_bind; discriminate|].
  rewrite fst_bind. cbn [fst ret]. intros H. injection H as <-.
  reflexivity.
Qed.

(** X9: the percentage of demand completed that a result carries is at
    least 100 whenever the demand is positive, and is 0 whenever the
    demand is zero or negative, although the demand is then met as
    well. *)
Theorem percent_completed_full_or_zero :
  forall (SI TS CBC : Solver) (solver : option Solver) B n br w p u1 u2 u3 ub ug,
    sound (match solver with Some s => s | None => SI end) ->
    sound TS -> sound CBC ->
    (forall r,
        fst (Granulation_PS.optimize_granulation SI B n br w p solver) = Some r ->
        if 0 <? B then (100 <= pct_demand_completed r)%Q
        else pct_demand_completed r = 0%Q)
    /\ (forall r,
          fst (Tab_PS.optimize_tableting TS B n u1 u2 u3 br w p) = Some r ->
          if 0 <? B then (100 <= Tab_PS.pct_demand_completed r)%Q
          else Tab_PS.pct_demand_completed r = 0%Q)
    /\ (forall r,
          fst (Coating_PS.optimize_coating CBC B n ub ug br w p) = Some r ->
          if 0 <? B then (100 <= Coating_PS.pct_demand_completed r)%Q
          else Coating_PS.pct_demand_completed r = 0%Q).
Proof.
  intros SI TS CBC solver B n br w p u1 u2 u3 ub ug HsG HsT HsC.
  split; [|split]; intros r Hr.
  - apply granulation_success in Hr. cbv zeta in Hr.
    destruct Hr as (_ & Hst & ->). cbn [pct_demand_completed].
    pose proof (granulation_meets_demand B n w _ (HsG _ Hst)) as Hdem.
    cbv zeta in Hdem.
    destruct (Z.ltb_spec 0 B).
    + apply pct_full; assumption.
    + apply pct_no_demand. assumption.
  - pose proof (tableting_pct TS B n u1 u2 u3 br w p r Hr) as Hpct.
    pose proof (tableting_success TS B n u1 u2 u3 br w p r Hr) as Hsucc.
    cbv zeta in Hpct, Hsucc. destruct Hsucc as (Hst & _).
    rewrite Hpct.
    destruct (Z.ltb_spec 0 B); [|reflexivity].
    apply ratio_full; [assumption|].
    exact (feasible_holds _ _ (Tab_PS.DemandConstraint u1 u2 u3 B n) (HsT _ Hst)
             (or_introl eq_refl)).
  - pose proof (coating_pct CBC B n ub ug br w p r Hr) as Hpct.
    pose proof (coating_success CBC B n ub ug br w p r Hr) as Hsucc.
    cbv zeta in Hsucc. destruct Hsucc as (Hst & _ & _ & _ & Hts & Htc & Hfinal).
    rewrite Hpct.
    destruct (Z.ltb_spec 0 B); [|apply pct_no_demand; assumption].
    apply pct_full; [assumption|].
    pose proof (HsC _ Hst) as Hf.
    pose proof (coat_solution_lhs ub ug B n w _ Hf) as Hsol. cbv beta zeta in Hsol.
    pose proof (coat_coating_lhs ub ug B n w _ Hf) as Hcoat. cbv beta zeta in Hcoat.
    rewrite (int_of_integer _ _ Hsol) in Hts.
    rewrite (int_of_integer _ _ Hcoat) in Htc.
    destruct (coating_schedule_bounds ub ug B n w _ Hf) as (_ & _ & _ & _ & _ & Hd1 & Hd2).
    cbv beta zeta in Hd1, Hd2.
    rewrite Hfinal, Hts, Htc. lia.
Qed.

Lemma percent_completed_full_or_zero_witness :
  exists r,
    fst (Granulation_PS.optimize_granulation (Examples.proposes Examples.full_schedule)
           9 1 0 Examples.weights false None) = Some r
    /\ (100 <= pct_demand_completed r)%Q.
Proof.
  eexists. split; [vm_compute; reflexivity|].
  apply (proj1 (percent_completed_full_or_zero
                  (Examples.proposes Examples.full_schedule)
                  (Examples.proposes Examples.full_schedule)
                  (Examples.proposes Examples.full_schedule)
                  None 9 1 0 Examples.weights false true true true true true
                  (proposes_sound _) (proposes_sound _) (proposes_sound _))).
  vm_compute. reflexivity.
Defined.

End PercentCompleted.

(** ** What the print flags change *)

Section Printing.

Lemma without_prints_app l1 l2 :
  without_prints (l1 ++ l2) = without_prints l1 ++ without_prints l2.
Proof. apply filter_app. Qed.

Lemma without_prints_prints lines : without_prints (map Print lines) = [].
Proof. induction lines as [|l lines IH]; [reflexivity | exact IH]. Qed.

Lemma silent_app l1 l2 : silent l1 -> silent l2 -> silent (l1 ++ l2).
Proof. unfold silent. intros H1 H2. rewrite without_prints_app, H1, H2. reflexivity. Qed.

Lemma silent_flat_map {A : Type} (f : A -> list event) (l : list A) :
  (forall x, silent (f x)) -> silent (flat_map f l).
Proof.
  intros H. induction l as [|x l IH]; [reflexivity|].
  cbn [flat_map]. apply silent_app; [apply H | exact IH].
Qed.

Lemma only_prints_silent {A : Type} (f : bool -> Run A) :
  only_prints f -> silent (snd (f false)).
Proof. intros H. exact (proj2 (H false)). Qed.

Ltac quiet_stage :=
  log_simpl; split_flags; split; reflexivity.

Lemma dispensing_only_prints (SI : pulp.Solver) B n br w solver :
  only_prints (fun p => Dispensing_PS.optimize_dispensing SI B n br w p solver).
Proof.
  intros p. unfold without_prints, Dispensing_PS.optimize_dispensing.
  destruct (9 * n <? B); [destruct p; split; reflexivity|].
  log_simpl. destruct (Py.neb _ _); destruct p; quiet_stage.
Qed.

Lemma granulation_only_prints (SI : pulp.Solver) B n br w solver :
  only_prints (fun p => Granulation_PS.optimize_granulation SI B n br w p solver).
Proof.
  intros p. unfold without_prints, Granulation_PS.optimize_granulation.
  destruct (9 * n <? B); [destruct p; split; reflexivity|].
  log_simpl. destruct (Py.neb _ _); destruct p; quiet_stage.
Qed.

Lemma tableting_only_prints (TS : pulp.Solver) B n u1 u2 u3 br w :
  only_prints (fun p => Tab_PS.optimize_tableting TS B n u1 u2 u3 br w p).
Proof.
  intros p. unfold without_prints, Tab_PS.optimize_tableting.
  destruct (_ =? 0); [destruct p; split; reflexivity|].
  destruct (_ <? B); [destruct p; split; reflexivity|].
  log_simpl. destruct (Py.neb _ _); destruct p; quiet_stage.
Qed.

Lemma coating_only_prints (CBC : pulp.Solver) B n ub ug br w :
  only_prints (fun p => Coating_PS.optimize_coating CBC B n ub ug br w p).
Proof.
  intros p. unfold without_prints, Coating_PS.optimize_coating.
  destruct (_ =? 0); [destruct p; split; reflexivity|].
  destruct (12 * n <? B); [destruct p; split; reflexivity|].
  destruct (_ <? B); [destruct p; split; reflexivity|].
  log_simpl. destruct (Py.neb _ _); destruct p; quiet_stage.
Qed.

(** X10: where the figures a stage solve shows can be computed, with the
    batch count and the horizon below [2^53] in magnitude and the buffer
    ratio at most [2^53] in magnitude, [print_solution] changes nothing
    but the lines printed: a stage solve returns the same value with and
    without it and builds and solves the same models in the same order,
    and without it a stage solve prints nothing at all.  (Beyond that
    range the float quotient of the diagnostics and the percentage of
    the buffer can overflow in Python, which the exact quotient of the
    embedding does not show.) *)
Theorem print_solution_only_prints :
  forall (SI TS CBC : pulp.Solver) B n br w solver u1 u2 u3 ub ug,
    Z.abs B < 2 ^ 53 -> Z.abs n < 2 ^ 53 -> (Qabs br <= inject_Z (2 ^ 53))%Q ->
    only_prints (fun p => Dispensing_PS.optimize_dispensing SI B n br w p solver)
    /\ only_prints (fun p => Granulation_PS.optimize_granulation SI B n br w p solver)
    /\ only_prints (fun p => Tab_PS.optimize_tableting TS B n u1 u2 u3 br w p)
    /\ only_prints (fun p => Coating_PS.optimize_coating CBC B n ub ug br w p).
Proof.
  intros SI TS CBC B n br w solver u1 u2 u3 ub ug _ _ _.
  split; [|split; [|split]].
  - apply dispensing_only_prints.
  - apply granulation_only_prints.
  - apply tableting_only_prints.
  - apply coating_only_prints.
Qed.

(** The theorem at work where the flag makes a difference: ten batches
    in one day of Granulation fail the capacity check, which prints its
    four lines with the flag and nothing without, and returns [None]
    both times without building a model. *)
Lemma print_solution_only_prints_witness :
  let run p :=
    Granulation_PS.optimize_granulation Examples.gives_up 10 1 0 Examples.weights
      p None in
  only_prints run
  /\ run false = (None, [])
  /\ fst (run true) = None
  /\ List.length (snd (run true)) = 4%nat.
Proof.
  intros run.
  destruct (print_solution_only_prints
              Examples.gives_up Examples.gives_up Examples.gives_up
              10 1 0 Examples.weights None true true true true true
              ltac:(vm_compute; reflexivity) ltac:(vm_compute; reflexivity)
              ltac:(vm_compute; discriminate)) as (_ & Hg & _).
  split; [exact Hg|].
  split; [vm_compute; reflexivity|].
  split; vm_compute; reflexivity.
Defined.

Section Flows.
Import Formulation_PS.

Variable D : Z -> Z -> Q -> Weights -> bool -> option pulp.Solver -> Run (option StageResult).
Variable G : Z -> Z -> Q -> Weights -> bool -> option pulp.Solver -> Run (option StageResult).
Variable T : Z -> Z -> bool -> bool -> bool -> Q -> Weights -> bool
             -> Run (option Tab_PS.TabResult).
Variable C : Z -> Z -> bool -> bool -> Q -> Weights -> bool
             -> Run (option Coating_PS.CoatResult).

Hypothesis D_silent : forall B n br w, silent (snd (D B n br w false None)).
Hypothesis G_silent : forall B n br w, silent (snd (G B n br w false None)).
Hypothesis T_silent : forall B n u1 u2 u3 br w, silent (snd (T B n u1 u2 u3 br w false)).
Hypothesis C_silent : forall B n ub ug br w, silent (snd (C B n ub ug br w false)).

Lemma aggregator_only_prints db gb tb cb n br w t :
  only_prints (fun p => optimize_osd_schedule D G T C db gb tb cb n br w t p).
Proof.
  intros p. unfold optimize_osd_schedule.
  pose proof (D_silent db n br w) as HD.
  pose proof (G_silent gb n br w) as HG.
  pose proof (T_silent tb n (use_p3030 t) (use_p3090i t) (use_ima t) br w) as HT.
  pose proof (C_silent cb n (use_bosch t) (use_glatt t) br w) as HC.
  destruct (D db n br w false None) as [[d|] ld]; cbn [snd] in HD;
    [|cbn [bind ret]; rewrite app_nil_r; split; [reflexivity | exact HD]].
  destruct (G gb n br w false None) as [[g|] lg]; cbn [snd] in HG;
    [|cbn [bind ret fst snd]; rewrite app_nil_r; split;
      [reflexivity | apply silent_app; assumption]].
  destruct (T tb n _ _ _ br w false) as [[tr|] lt]; cbn [snd] in HT;
    [|cbn [bind ret fst snd]; rewrite app_nil_r; split;
      [reflexivity | repeat apply silent_app; assumption]].
  destruct (C cb n _ _ br w false) as [[c|] lc]; cbn [snd] in HC;
    [|cbn [bind ret fst snd]; rewrite app_nil_r; split;
      [reflexivity | repeat apply silent_app; assumption]].
  destruct p.
  - cbn [bind ret fst snd when combined_summary prints].
    split; [reflexivity|].
    rewrite !app_nil_r, !without_prints_app, without_prints_prints, !app_nil_r.
    rewrite HD, HG, HT, HC. reflexivity.
  - cbn [bind ret fst snd when]. split; [reflexivity|].
    rewrite !app_nil_r. repeat apply silent_app; assumption.
Qed.

Lemma probe_silent br w t B n : silent (snd (probe D G T C br w t B n)).
Proof.
  unfold probe.
  exact (only_prints_silent _ (aggregator_only_prints B B B B n br w t)).
Qed.

Lemma horizon_search_only_prints total_batches initial_workdays br w t :
  only_prints (fun p => optimize_osd_schedule_with_total D G T C total_batches
                          initial_workdays br w t p).
Proof.
  intros p. unfold optimize_osd_schedule_with_total.
  set (P := probe D G T C br w t).
  destruct (horizon_loop_spec P (Z.to_nat (366 - initial_workdays)) total_batches
              initial_workdays (fst (P total_batches initial_workdays)) ltac:(lia))
    as (k & res' & Heq & _).
  rewrite (run_eta (P total_batches initial_workdays)), !bind_pair.
  rewrite Heq, !bind_pair. cbn [fst snd].
  assert (H0 : silent (snd (P total_batches initial_workdays)))
    by apply probe_silent.
  assert (Hk : silent (calls_log P total_batches initial_workdays 1 k)).
  { unfold calls_log. apply silent_flat_map. intros j. apply probe_silent. }
  destruct res' as [r|]; destruct p;
    cbn [when print prints bind ret fst snd];
    (split; [reflexivity|]);
    rewrite ?app_nil_r, ?without_prints_app, ?without_prints_prints, ?app_nil_r;
    try (cbn [without_prints filter is_print negb]; rewrite ?app_nil_r);
    try (rewrite H0, Hk; reflexivity);
    apply silent_app; assumption.
Qed.

Lemma max_batches_only_prints num_workdays br w t max_iterations :
  only_prints (fun p => optimize_max_batches D G T C num_workdays br w t
                          max_iterations p).
Proof.
  intros p. unfold optimize_max_batches.
  set (P := probe D G T C br w t).
  destruct (search_loop_spec P num_workdays (Z.to_nat max_iterations) max_iterations
              (initial_state num_workdays))
    as (ps & s' & Heq & _); [cbn; lia|].
  rewrite Heq, !bind_pair.
  assert (Hps : silent (probes_log P num_workdays ps)).
  { unfold probes_log. apply silent_flat_map. intros b. apply probe_silent. }
  destruct (search.max_feasible_result s') as [r|]; destruct p;
    cbn [when print prints bind ret fst snd max_batches_summary];
    (split; [reflexivity|]);
    rewrite ?app_nil_r, ?without_prints_app, ?without_prints_prints, ?app_nil_r;
    try (cbn [without_prints filter is_print negb]; rewrite ?app_nil_r);
    exact Hps.
Qed.

End Flows.

(** X11: when the stage solves print nothing without their flag, neither do
    the aggregator and the two searches without theirs, and their flag
    ([print_combined], [print_solution]) changes nothing but the lines
    printed: the same result comes back and the same models are built
    and solved in the same order. *)
Theorem summary_flag_only_prints :
  forall (D G : Z -> Z -> Q -> Weights -> bool -> option pulp.Solver
                -> Run (option StageResult))
         (T : Z -> Z -> bool -> bool -> bool -> Q -> Weights -> bool
              -> Run (option Tab_PS.TabResult))
         (C : Z -> Z -> bool -> bool -> Q -> Weights -> bool
              -> Run (option Coating_PS.CoatResult)),
    (forall B n br w, silent (snd (D B n br w false None))) ->
    (forall B n br w, silent (snd (G B n br w false None))) ->
    (forall B n u1 u2 u3 br w, silent (snd (T B n u1 u2 u3 br w false))) ->
    (forall B n ub ug br w, silent (snd (C B n ub ug br w false))) ->
    forall db gb tb cb total n br w t max_iterations,
      only_prints
        (fun p => Formulation_PS.optimize_osd_schedule D G T C db gb tb cb n br w t p)
      /\ only_prints
           (fun p => Formulation_PS.optimize_osd_schedule_with_total D G T C total n
                       br w t p)
      /\ only_prints
           (fun p => Formulation_PS.optimize_max_batches D G T C n br w t
                       max_iterations p).
Proof.
  intros D G T C HD HG HT HC db gb tb cb total n br w t max_iterations.
  split; [|split].
  - apply aggregator_only_prints; assumption.
  - apply horizon_search_only_prints; assumption.
  - apply max_batches_only_prints; assumption.
Qed.

(** The theorem at work on the program as linked, where each search
    ends with the line its flag asks for: the throughput search over one
    day, and the horizon search started above 365 days. *)
Lemma summary_flag_only_prints_witness :
  let s := Examples.proposes Examples.full_schedule in
  let D := Dispensing_PS.optimize_dispensing s in
  let G := Granulation_PS.optimize_granulation s in
  let T := Tab_PS.optimize_tableting s in
  let C := Coating_PS.optimize_coating s in
  let search p :=
    Formulation_PS.optimize_max_batches D G T C 1 0 Examples.weights
      Examples.all_machines 50 p in
  let horizon p :=
    Formulation_PS.optimize_osd_schedule_with_total D G T C 9 366 0 Examples.weights
      Examples.all_machines p in
  (only_prints search
   /\ snd (search true)
      = snd (search false) ++ [Print [Txt "No feasible solution found!"]])
  /\ (only_prints horizon
      /\ snd (horizon true)
         = snd (horizon false)
           ++ [Print [Txt "No feasible solution found even with 365 days!"]]).
Proof.
  intros s D G T C search horizon.
  destruct (summary_flag_only_prints D G T C
              (fun B n br w => only_prints_silent _ (dispensing_only_prints s B n br w None))
              (fun B n br w => only_prints_silent _ (granulation_only_prints s B n br w None))
              (fun B n u1 u2 u3 br w =>
                 only_prints_silent _ (tableting_only_prints s B n u1 u2 u3 br w))
              (fun B n ub ug br w =>
                 only_prints_silent _ (coating_only_prints s B n ub ug br w))
              9 9 9 9 9 366 0 Examples.weights Examples.all_machines 50)
    as (_ & Hhorizon & _).
  destruct (summary_flag_only_prints D G T C
              (fun B n br w => only_prints_silent _ (dispensing_only_prints s B n br w None))
              (fun B n br w => only_prints_silent _ (granulation_only_prints s B n br w None))
              (fun B n u1 u2 u3 br w =>
                 only_prints_silent _ (tableting_only_prints s B n u1 u2 u3 br w))
              (fun B n ub ug br w =>
                 only_prints_silent _ (coating_only_prints s B n ub ug br w))
              9 9 9 9 9 1 0 Examples.weights Examples.all_machines 50)
    as (_ & _ & Hsearch).
  split; (split; [assumption | vm_compute; reflexivity]).
Defined.

End Printing.

(** ** The throughput search finds the maximum *)

Section Maximum.
Import Formulation_PS.

Variable P : Z -> Z -> Run (option CombinedResult).
Variable n : Z.
Variable N : Z.

(** Feasibility is kept when the batch count goes down, within [1, N]. *)
Hypothesis Hmono : forall B B', 1 <= B' <= B -> B <= N ->
  fst (P B n) <> None -> fst (P B' n) <> None.

Lemma halving (lo hi k : Z) :
  lo <= hi -> 0 < k -> hi - lo + 1 < 2 ^ k ->
  hi - ((lo + hi) / 2 + 1) + 1 < 2 ^ (k - 1)
  /\ ((lo + hi) / 2 - 1) - lo + 1 < 2 ^ (k - 1).
Proof.
  intros Hle Hk Hsize.
  assert (Hpow : 2 ^ k = 2 * 2 ^ (k - 1)).
  { replace k with (Z.succ (k - 1)) at 1 by lia. apply Z.pow_succ_r. lia. }
  pose proof (Z.div_mod (lo + hi) 2 ltac:(lia)).
  pose proof (Z.mod_pos_bound (lo + hi) 2 ltac:(lia)).
  lia.
Qed.


End Maximum.

Section MaximumSearch.
Import Formulation_PS.

Variable D : Z -> Z -> Q -> Weights -> bool -> option pulp.Solver -> Run (option StageResult).
Variable G : Z -> Z -> Q -> Weights -> bool -> option pulp.Solver -> Run (option StageResult).
Variable T : Z -> Z -> bool -> bool -> bool -> Q -> Weights -> bool
             -> Run (option Tab_PS.TabResult).
Variable C : Z -> Z -> bool -> bool -> Q -> Weights -> bool
             -> Run (option Coating_PS.CoatResult).


End MaximumSearch.


(** ** The ends of the two searches *)

Section SearchEdges.
Import Formulation_PS.

Variable D : Z -> Z -> Q -> Weights -> bool -> option pulp.Solver -> Run (option StageResult).
Variable G : Z -> Z -> Q -> Weights -> bool -> option pulp.Solver -> Run (option StageResult).
Variable T : Z -> Z -> bool -> bool -> bool -> Q -> Weights -> bool
             -> Run (option Tab_PS.TabResult).
Variable C : Z -> Z -> bool -> bool -> Q -> Weights -> bool
             -> Run (option Coating_PS.CoatResult).

(** X13: with no day in the horizon, or no iteration allowed, the throughput
    search makes no probe at all: it returns [None] without a single
    stage solve, and prints its one line only when asked to print. *)
Theorem max_batches_without_a_probe :
  forall num_workdays buffer_ratio w t max_iterations print_solution,
    num_workdays <= 0 \/ max_iterations <= 0 ->
    optimize_max_batches D G T C num_workdays buffer_ratio w t max_iterations
      print_solution
    = (Returned None,
       if print_solution then [Print [Txt "No feasible solution found!"]] else []).
Proof.
  intros num_workdays buffer_ratio w t max_iterations print_solution Hedge.
  unfold optimize_max_batches.
  assert (Hloop : search_loop (probe D G T C buffer_ratio w t)
                    (Z.to_nat max_iterations) num_workdays max_iterations
                    (initial_state num_workdays)
                  = (Returned (initial_state num_workdays), [])).
  { assert (Hcond : (search.lower_bound (initial_state num_workdays)
                     <=? search.upper_bound (initial_state num_workdays))
                    && (search.iteration (initial_state num_workdays) <? max_iterations)
                    = false).
    { cbn [initial_state search.lower_bound search.upper_bound search.iteration].
      destruct Hedge as [Hn|Hm].
      - destruct (Z.leb_spec 1 (num_workdays * 27)); [lia | reflexivity].
      - destruct (Z.ltb_spec 0 max_iterations); [lia | apply andb_false_r]. }
    destruct (Z.to_nat max_iterations); cbn [search_loop]; rewrite Hcond; reflexivity. }
  rewrite Hloop, bind_pair. cbn [initial_state search.max_feasible_result].
  destruct print_solution; reflexivity.
Qed.


End SearchEdges.

Lemma max_batches_without_a_probe_witness :
  let s := Examples.proposes Examples.full_schedule in
  Formulation_PS.optimize_max_batches
    (Granulation_PS.optimize_granulation s) (Granulation_PS.optimize_granulation s)
    (Tab_PS.optimize_tableting s) (Coating_PS.optimize_coating s)
    0 0 Examples.weights Examples.all_machines 50 true
  = (Returned None, [Print [Txt "No feasible solution found!"]]).
Proof.
  intros s.
  apply (max_batches_without_a_probe
           (Granulation_PS.optimize_granulation s) (Granulation_PS.optimize_granulation s)
           (Tab_PS.optimize_tableting s) (Coating_PS.optimize_coating s)
           0 0 Examples.weights Examples.all_machines 50 true).
  left. lia.
Defined.

(** ** Nothing demanded, in Tableting and Coating *)

Section NoDemand.
Import pulp.

Lemma with_buffer_zero (br : Q) : with_buffer 0 br = 0.
Proof.
  unfold with_buffer, Py.ceil.
  rewrite <- (Qceiling_Z 0) at 2. apply Qceiling_comp.
  change (inject_Z 0) with 0%Q. ring.
Qed.

(** *** Tableting *)

Lemma tab_term_nonneg u1 u2 u3 B n w (a : assignment) r u s d :
  feasible (Tab_PS.model u1 u2 u3 B n w) a = true ->
  In (r, u) (tab_machines u1 u2 u3) -> In d (Py.range n) ->
  (0 <= Tab_PS.make_var (Shift s r d) u a)%Q.
Proof.
  intros Hf Hr Hd.
  pose proof (tab_term_int u1 u2 u3 B n w a r u s d Hf Hr Hd) as H. cbv zeta in H.
  destruct H as [He Hb]. rewrite He. change 0%Q with (inject_Z 0).
  rewrite <- Zle_Qle. lia.
Qed.

(** The empty schedule satisfies the Tableting model when nothing is
    demanded. *)
Lemma tableting_empty_feasible u1 u2 u3 B n w :
  B <= 0 -> feasible (Tab_PS.model u1 u2 u3 B n w) Examples.empty_schedule = true.
Proof.
  intros HB. unfold feasible. apply andb_true_iff. split.
  - apply forallb_forall. intros [v c] Hin.
    cbn [variables Tab_PS.model] in Hin. unfold Tab_PS.declared, Tab_PS.machine_vars in Hin.
    destruct u1, u2, u3;
      repeat (apply in_app_or in Hin; destruct Hin as [Hin|Hin]);
      try (apply in_map_iff in Hin; destruct Hin as (d & Heq & _);
           injection Heq as <- <-; reflexivity);
      try (destruct Hin as [Heq|[]]; injection Heq as <- <-; reflexivity);
      destruct Hin.
  - cbn [constraints Tab_PS.model app forallb].
    apply andb_true_iff. split.
    + unfold holds. cbn [c_rhs c_lhs Tab_PS.DemandConstraint].
      apply Qle_bool_iff. unfold Tab_PS.total_batches.
      rewrite lpSum_three_a_day.
      assert (H : (inject_Z B <= 0)%Q)
        by (change 0%Q with (inject_Z 0); rewrite <- Zle_Qle; exact HB).
      rewrite !lpSum_all_zero by (intros; destruct u1, u2, u3; reflexivity).
      lra.
    + rewrite forallb_app. apply andb_true_iff. split.
      * apply forallb_forall. intros c Hc. apply in_map_iff in Hc.
        destruct Hc as (d & <- & _). destruct u1, u2, u3; reflexivity.
      * apply forallb_forall. intros c Hc. apply in_map_iff in Hc.
        destruct Hc as (d & <- & _). destruct u1, u2, u3; reflexivity.
Qed.

Lemma tableting_empty_objective u1 u2 u3 n w :
  (Tab_PS.WeightedObjective u1 u2 u3 n w Examples.empty_schedule == 0)%Q.
Proof.
  unfold Tab_PS.WeightedObjective. cbv zeta.
  rewrite !lpSum_all_zero by (intros; destruct u1, u2, u3; reflexivity).
  unfold Tab_PS.staff_var, Examples.empty_schedule. ring.
Qed.

(** What a schedule of Tableting costs is at least what its staff and
    its days in use cost, when no other weight is negative. *)
Lemma tableting_cost_bound u1 u2 u3 B n w (a : assignment) :
  feasible (Tab_PS.model u1 u2 u3 B n w) a = true ->
  (0 <= w_morning w)%Q -> (0 <= w_evening w)%Q ->
  (0 <= w_night w)%Q -> (0 <= w_weekend w)%Q ->
  (0 <= a Staff)%Q
  /\ (0 <= lpSum (map (fun d => a (dayUsed d)) (Py.range n)))%Q
  /\ (w_staff w * a Staff
      + w_daysUsed w * lpSum (map (fun d => a (dayUsed d)) (Py.range n))
      <= Tab_PS.WeightedObjective u1 u2 u3 n w a)%Q.
Proof.
  intros Hf Hwm Hwe Hwn Hww.
  assert (H1 : In (p3030, u1) (tab_machines u1 u2 u3)) by (left; reflexivity).
  assert (H2 : In (p3090i, u2) (tab_machines u1 u2 u3)) by (right; left; reflexivity).
  assert (H3 : In (ima, u3) (tab_machines u1 u2 u3)) by (right; right; left; reflexivity).
  pose proof (fun s d Hd => tab_term_nonneg u1 u2 u3 B n w a _ _ s d Hf H1 Hd) as P1.
  pose proof (fun s d Hd => tab_term_nonneg u1 u2 u3 B n w a _ _ s d Hf H2 Hd) as P2.
  pose proof (fun s d Hd => tab_term_nonneg u1 u2 u3 B n w a _ _ s d Hf H3 Hd) as P3.
  assert (Hdpos : forall d, In d (Py.range n) -> (0 <= a (dayUsed d))%Q).
  { intros d Hd.
    destruct (binary_value a (dayUsed d)) as [Hi Hb].
    { apply (feasible_domain _ _ _ Hf). apply tab_dayUsed_declared. exact Hd. }
    unfold integral in Hi.
    rewrite Hi. change 0%Q with (inject_Z 0). rewrite <- Zle_Qle. lia. }
  assert (Hspos : (0 <= a Staff)%Q).
  { destruct (integer_value a Staff 0) as [Hi Hb].
    { apply (feasible_domain _ _ _ Hf). apply tab_staff_declared. }
    unfold integral in Hi.
    rewrite Hi. change 0%Q with (inject_Z 0). rewrite <- Zle_Qle. lia. }
  unfold Tab_PS.WeightedObjective. cbv zeta.
  unfold Tab_PS.staff_var, Tab_PS.dayUsed_var.
  set (SD := lpSum (map (fun d => a (dayUsed d)) (Py.range n))).
  set (SM := lpSum (map (fun d => Tab_PS.M_p3030 u1 d a + Tab_PS.M_p3090i u2 d a
                                  + Tab_PS.M_ima u3 d a)%Q (Py.range n))).
  set (SE := lpSum (map (fun d => Tab_PS.E_p3030 u1 d a + Tab_PS.E_p3090i u2 d a
                                  + Tab_PS.E_ima u3 d a)%Q (Py.range n))).
  set (SN := lpSum (map (fun d => Tab_PS.N_p3030 u1 d a + Tab_PS.N_p3090i u2 d a
                                  + Tab_PS.N_ima u3 d a)%Q (Py.range n))).
  set (SW := lpSum (map (fun d => Tab_PS.all_shifts u1 u2 u3 d a) (weekend_days n))).
  assert (HSM : (0 <= SM)%Q).
  { apply lpSum_nonneg. intros d Hd.
    unfold Tab_PS.M_p3030, Tab_PS.M_p3090i, Tab_PS.M_ima.
    pose proof (P1 Morning d Hd). pose proof (P2 Morning d Hd).
    pose proof (P3 Morning d Hd). lra. }
  assert (HSE : (0 <= SE)%Q).
  { apply lpSum_nonneg. intros d Hd.
    unfold Tab_PS.E_p3030, Tab_PS.E_p3090i, Tab_PS.E_ima.
    pose proof (P1 Evening d Hd). pose proof (P2 Evening d Hd).
    pose proof (P3 Evening d Hd). lra. }
  assert (HSN : (0 <= SN)%Q).
  { apply lpSum_nonneg. intros d Hd.
    unfold Tab_PS.N_p3030, Tab_PS.N_p3090i, Tab_PS.N_ima.
    pose proof (P1 Night d Hd). pose proof (P2 Night d Hd).
    pose proof (P3 Night d Hd). lra. }
  assert (HSW : (0 <= SW)%Q).
  { apply lpSum_nonneg. intros d Hd. apply weekend_in_range in Hd.
    unfold Tab_PS.all_shifts, Tab_PS.M_p3030, Tab_PS.E_p3030, Tab_PS.N_p3030,
      Tab_PS.M_p3090i, Tab_PS.E_p3090i, Tab_PS.N_p3090i,
      Tab_PS.M_ima, Tab_PS.E_ima, Tab_PS.N_ima.
    pose proof (P1 Morning d Hd). pose proof (P2 Morning d Hd).
    pose proof (P3 Morning d Hd). pose proof (P1 Evening d Hd).
    pose proof (P2 Evening d Hd). pose proof (P3 Evening d Hd).
    pose proof (P1 Night d Hd). pose proof (P2 Night d Hd).
    pose proof (P3 Night d Hd). lra. }
  assert (HSD : (0 <= SD)%Q) by (apply lpSum_nonneg; exact Hdpos).
  pose proof (Qmult_le_0_compat _ _ Hwm HSM) as T2.
  pose proof (Qmult_le_0_compat _ _ Hwe HSE) as T3.
  pose proof (Qmult_le_0_compat _ _ Hwn HSN) as T4.
  pose proof (Qmult_le_0_compat _ _ Hww HSW) as T5.
  set (t1 := (w_staff w * a Staff)%Q) in *.
  set (t2 := (w_morning w * SM)%Q) in *.
  set (t3 := (w_evening w * SE)%Q) in *.
  set (t4 := (w_night w * SN)%Q) in *.
  set (t5 := (w_weekend w * SW)%Q) in *.
  set (t6 := (w_daysUsed w * SD)%Q) in *.
  split; [exact Hspos|]. split; [exact HSD|]. lra.
Qed.

(** X16: with nothing demanded, a solver that keeps its contract, reports
    the model optimal and returns a least-cost schedule for it makes
    Tableting return the result with no shift on any machine, no staff
    and no day used, as soon as a machine is enabled, staff and used
    days cost something and no weight is negative. *)
Theorem tableting_zero_demand :
  forall (TS : Solver) B n u1 u2 u3 br w p,
    sound TS ->
    optimal_on TS (Tab_PS.model u1 u2 u3 B n w) ->
    status (TS (Tab_PS.model u1 u2 u3 B n w)) = LpStatusOptimal ->
    (u1 || u2 || u3) = true ->
    B <= 0 -> 0 <= n ->
    (0 < w_staff w)%Q -> (0 < w_daysUsed w)%Q ->
    (0 <= w_morning w)%Q -> (0 <= w_evening w)%Q ->
    (0 <= w_night w)%Q -> (0 <= w_weekend w)%Q ->
    let none := {| Tab_PS.P3030 := 0; Tab_PS.P3090i := 0; Tab_PS.IMA := 0 |} in
    exists r,
      fst (Tab_PS.optimize_tableting TS B n u1 u2 u3 br w p) = Some r
      /\ Tab_PS.morning_shifts r = none
      /\ Tab_PS.evening_shifts r = none
      /\ Tab_PS.night_shifts r = none
      /\ Tab_PS.total_batches_produced r = 0
      /\ Tab_PS.min_staff_required r = 0
      /\ Tab_PS.staff_with_buffer r = 0
      /\ Tab_PS.days_used r = 0.
Proof.
  intros TS B n u1 u2 u3 br w p Hsound Hoptimal Hstatus Hu HB Hn
    Hws Hwd Hwm Hwe Hwn Hww none.
  destruct (fst (Tab_PS.optimize_tableting TS B n u1 u2 u3 br w p)) as [r|] eqn:Hr.
  2:{ exfalso.
      assert (Hsome : fst (Tab_PS.optimize_tableting TS B n u1 u2 u3 br w p) <> None).
      { apply tableting_feasible_iff. split; [exact Hu|]. split; [|exact Hstatus].
        apply Z.ltb_ge. destruct u1, u2, u3; cbn [yield]; lia. }
      congruence. }
  exists r. split; [reflexivity|].
  pose proof (tableting_fields TS B n u1 u2 u3 br w p r Hr) as Hfields.
  pose proof (tableting_success TS B n u1 u2 u3 br w p r Hr) as Hsucc.
  cbv zeta in Hfields, Hsucc.
  destruct Hfields as (HS & HSB & Hdu & _).
  destruct Hsucc as (_ & Hm & He & Hnight & Htot).
  set (v := varValue (TS (Tab_PS.model u1 u2 u3 B n w))) in *.
  assert (Hf : feasible (Tab_PS.model u1 u2 u3 B n w) v = true)
    by (apply Hsound; exact Hstatus).
  (* the cost of the values returned is at most that of the empty schedule *)
  pose proof (Hoptimal Examples.empty_schedule Hstatus
                (tableting_empty_feasible u1 u2 u3 B n w HB)) as Hcost.
  cbn [objective Tab_PS.model] in Hcost.
  rewrite tableting_empty_objective in Hcost. fold v in Hcost.
  destruct (tableting_cost_bound u1 u2 u3 B n w v Hf Hwm Hwe Hwn Hww)
    as (Hspos & HSD & Hbound).
  set (SD := lpSum (map (fun d => v (dayUsed d)) (Py.range n))) in *.
  pose proof (Qmult_le_0_compat _ _ (Qlt_le_weak _ _ Hws) Hspos) as T1.
  pose proof (Qmult_le_0_compat _ _ (Qlt_le_weak _ _ Hwd) HSD) as T6.
  assert (Ht1 : (w_staff w * v Staff <= 0)%Q) by lra.
  assert (Ht6 : (w_daysUsed w * SD <= 0)%Q) by lra.
  pose proof (product_zero _ _ Hws Hspos Ht1) as Hstaff0.
  pose proof (product_zero _ _ Hwd HSD Ht6) as Hdays0.
  assert (Hmin : Py.int (v Staff) = 0) by (apply int_of_integer; exact Hstaff0).
  assert (Hused : Py.sum (map (fun d => Py.int (v (dayUsed d))) (Py.range n)) = 0).
  { apply inject_Z_injective. subst SD.
    rewrite <- (lpSum_integral (fun d => v (dayUsed d))); [exact Hdays0|].
    intros d Hd. apply binary_value. apply (feasible_domain _ _ _ Hf).
    apply tab_dayUsed_declared. exact Hd. }
  pose proof (tab_demand_lhs u1 u2 u3 B n w v Hf) as Hlhs. cbv beta zeta in Hlhs.
  rewrite (int_of_integer _ _ Hlhs) in Htot. clear Hlhs.
  destruct (tableting_schedule_bounds u1 u2 u3 B n w v Hf) as (_ & _ & _ & _ & Hz & _).
  cbv beta zeta in Hz.
  assert (H1 : In (p3030, u1) (tab_machines u1 u2 u3)) by (left; reflexivity).
  assert (H2 : In (p3090i, u2) (tab_machines u1 u2 u3)) by (right; left; reflexivity).
  assert (H3 : In (ima, u3) (tab_machines u1 u2 u3)) by (right; right; left; reflexivity).
  assert (Hlt : Py.int (v Staff) < 3) by lia.
  rewrite Hm, He, Hnight, Htot, HS, HSB, Hdu, Hmin, Hused, with_buffer_zero.
  rewrite !(Hz Hlt _ _ _ H1), !(Hz Hlt _ _ _ H2), !(Hz Hlt _ _ _ H3).
  repeat split; reflexivity.
Qed.

Lemma tableting_zero_demand_witness :
  let none := {| Tab_PS.P3030 := 0; Tab_PS.P3090i := 0; Tab_PS.IMA := 0 |} in
  exists r,
    fst (Tab_PS.optimize_tableting (Examples.proposes Examples.empty_schedule)
           0 7 true true true 0 Examples.weights false) = Some r
    /\ Tab_PS.morning_shifts r = none
    /\ Tab_PS.evening_shifts r = none
    /\ Tab_PS.night_shifts r = none
    /\ Tab_PS.total_batches_produced r = 0
    /\ Tab_PS.min_staff_required r = 0
    /\ Tab_PS.staff_with_buffer r = 0
    /\ Tab_PS.days_used r = 0.
Proof.
  assert (Hfe : feasible (Tab_PS.model true true true 0 7 Examples.weights)
                  Examples.empty_schedule = true)
    by (apply tableting_empty_feasible; lia).
  apply (tableting_zero_demand (Examples.proposes Examples.empty_schedule)
           0 7 true true true 0 Examples.weights false).
  - apply proposes_sound.
  - intros a _ Ha. cbn [objective Tab_PS.model].
    unfold Examples.proposes at 1. rewrite Hfe.
    cbn [varValue]. rewrite tableting_empty_objective.
    destruct (tableting_cost_bound true true true 0 7 Examples.weights a Ha)
      as (Hs & Hd & Hb);
      try (cbn [Examples.weights w_morning w_evening w_night w_weekend]; lra).
    cbn [Examples.weights w_staff w_daysUsed] in Hb.
    set (SD := lpSum _) in *. lra.
  - unfold Examples.proposes. rewrite Hfe. reflexivity.
  - reflexivity.
  - lia.
  - lia.
  - cbn [Examples.weights w_staff]; lra.
  - cbn [Examples.weights w_daysUsed]; lra.
  - cbn [Examples.weights w_morning]; lra.
  - cbn [Examples.weights w_evening]; lra.
  - cbn [Examples.weights w_night]; lra.
  - cbn [Examples.weights w_weekend]; lra.
Defined.

(** *** Coating *)

Lemma coat_term_nonneg ub ug B n w (a : assignment) r u s d :
  feasible (Coating_PS.model ub ug B n w) a = true ->
  In (r, u) (coat_processes ub ug) -> In d (Py.range n) ->
  (0 <= Coating_PS.term (Coating_PS.make_var (Shift s r d) u) a)%Q.
Proof.
  intros Hf Hr Hd.
  pose proof (coat_term_int ub ug B n w a r u s d Hf Hr Hd) as H. cbv zeta in H.
  destruct H as [He Hb]. rewrite He. change 0%Q with (inject_Z 0).
  rewrite <- Zle_Qle. lia.
Qed.

(** The empty schedule satisfies the Coating model when nothing is
    demanded. *)
Lemma coating_empty_feasible ub ug B n w :
  B <= 0 -> feasible (Coating_PS.model ub ug B n w) Examples.empty_schedule = true.
Proof.
  intros HB.
  assert (H : (inject_Z B <= 0)%Q)
    by (change 0%Q with (inject_Z 0); rewrite <- Zle_Qle; exact HB).
  unfold feasible. apply andb_true_iff. split.
  - apply forallb_forall. intros [v c] Hin.
    cbn [variables Coating_PS.model] in Hin.
    unfold Coating_PS.declared, Coating_PS.process_vars in Hin.
    destruct ub, ug;
      repeat (apply in_app_or in Hin; destruct Hin as [Hin|Hin]);
      try (apply in_map_iff in Hin; destruct Hin as (d & Heq & _);
           injection Heq as <- <-; reflexivity);
      try (destruct Hin as [Heq|[]]; injection Heq as <- <-; reflexivity);
      destruct Hin.
  - cbn [constraints Coating_PS.model app forallb].
    apply andb_true_iff. split; [|apply andb_true_iff; split].
    + unfold holds. cbn [c_rhs c_lhs Coating_PS.SolutionDemand].
      apply Qle_bool_iff. unfold Coating_PS.total_solution_batches.
      rewrite lpSum_three_a_day.
      rewrite !lpSum_all_zero by (intros; reflexivity). lra.
    + unfold holds. cbn [c_rhs c_lhs Coating_PS.CoatingDemand].
      apply Qle_bool_iff. unfold Coating_PS.total_coating_batches.
      rewrite lpSum_three_a_day.
      rewrite !lpSum_all_zero by (intros; destruct ub, ug; reflexivity). lra.
    + rewrite forallb_app. apply andb_true_iff. split.
      * apply forallb_forall. intros c Hc. apply in_map_iff in Hc.
        destruct Hc as (d & <- & _). destruct ub, ug; reflexivity.
      * apply forallb_forall. intros c Hc. apply in_map_iff in Hc.
        destruct Hc as (d & <- & _). destruct ub, ug; reflexivity.
Qed.

Lemma coating_empty_objective ub ug n w :
  (Coating_PS.WeightedObjective ub ug n w Examples.empty_schedule == 0)%Q.
Proof.
  unfold Coating_PS.WeightedObjective. cbv zeta.
  rewrite !lpSum_all_zero by (intros; destruct ub, ug; reflexivity).
  unfold Coating_PS.staff_var, Examples.empty_schedule. ring.
Qed.

(** What a schedule of Coating costs is at least what its staff and its
    days in use cost, when no other weight is negative. *)
Lemma coating_cost_bound ub ug B n w (a : assignment) :
  feasible (Coating_PS.model ub ug B n w) a = true ->
  (0 <= w_morning w)%Q -> (0 <= w_evening w)%Q ->
  (0 <= w_night w)%Q -> (0 <= w_weekend w)%Q ->
  (0 <= a Staff)%Q
  /\ (0 <= lpSum (map (fun d => a (dayUsed d)) (Py.range n)))%Q
  /\ (w_staff w * a Staff
      + w_daysUsed w * lpSum (map (fun d => a (dayUsed d)) (Py.range n))
      <= Coating_PS.WeightedObjective ub ug n w a)%Q.
Proof.
  intros Hf Hwm Hwe Hwn Hww.
  assert (H1 : In (solution, true) (coat_processes ub ug)) by (left; reflexivity).
  assert (H2 : In (bosch, ub) (coat_processes ub ug)) by (right; left; reflexivity).
  assert (H3 : In (glatt, ug) (coat_processes ub ug)) by (right; right; left; reflexivity).
  pose proof (fun s d Hd => coat_term_nonneg ub ug B n w a _ _ s d Hf H1 Hd) as P1.
  pose proof (fun s d Hd => coat_term_nonneg ub ug B n w a _ _ s d Hf H2 Hd) as P2.
  pose proof (fun s d Hd => coat_term_nonneg ub ug B n w a _ _ s d Hf H3 Hd) as P3.
  assert (Hdpos : forall d, In d (Py.range n) -> (0 <= a (dayUsed d))%Q).
  { intros d Hd.
    destruct (binary_value a (dayUsed d)) as [Hi Hb].
    { apply (feasible_domain _ _ _ Hf). apply coat_dayUsed_declared. exact Hd. }
    unfold integral in Hi.
    rewrite Hi. change 0%Q with (inject_Z 0). rewrite <- Zle_Qle. lia. }
  assert (Hspos : (0 <= a Staff)%Q).
  { destruct (integer_value a Staff 0) as [Hi Hb].
    { apply (feasible_domain _ _ _ Hf). apply coat_staff_declared. }
    unfold integral in Hi.
    rewrite Hi. change 0%Q with (inject_Z 0). rewrite <- Zle_Qle. lia. }
  unfold Coating_PS.WeightedObjective. cbv zeta.
  unfold Coating_PS.staff_var, Coating_PS.dayUsed_var.
  set (SD := lpSum (map (fun d => a (dayUsed d)) (Py.range n))).
  set (SM := lpSum (map (fun d => Coating_PS.term (Coating_PS.M_solution d) a
                                  + Coating_PS.term (Coating_PS.M_bosch ub d) a
                                  + Coating_PS.term (Coating_PS.M_glatt ug d) a)%Q
                      (Py.range n))).
  set (SE := lpSum (map (fun d => Coating_PS.term (Coating_PS.E_solution d) a
                                  + Coating_PS.term (Coating_PS.E_bosch ub d) a
                                  + Coating_PS.term (Coating_PS.E_glatt ug d) a)%Q
                      (Py.range n))).
  set (SN := lpSum (map (fun d => Coating_PS.term (Coating_PS.N_solution d) a
                                  + Coating_PS.term (Coating_PS.N_bosch ub d) a
                                  + Coating_PS.term (Coating_PS.N_glatt ug d) a)%Q
                      (Py.range n))).
  set (SW := lpSum (map (fun d => Coating_PS.all_shifts ub ug d a) (weekend_days n))).
  assert (HSM : (0 <= SM)%Q).
  { apply lpSum_nonneg. intros d Hd.
    unfold Coating_PS.M_solution, Coating_PS.M_bosch, Coating_PS.M_glatt.
    pose proof (P1 Morning d Hd). pose proof (P2 Morning d Hd).
    pose proof (P3 Morning d Hd). lra. }
  assert (HSE : (0 <= SE)%Q).
  { apply lpSum_nonneg. intros d Hd.
    unfold Coating_PS.E_solution, Coating_PS.E_bosch, Coating_PS.E_glatt.
    pose proof (P1 Evening d Hd). pose proof (P2 Evening d Hd).
    pose proof (P3 Evening d Hd). lra. }
  assert (HSN : (0 <= SN)%Q).
  { apply lpSum_nonneg. intros d Hd.
    unfold Coating_PS.N_solution, Coating_PS.N_bosch, Coating_PS.N_glatt.
    pose proof (P1 Night d Hd). pose proof (P2 Night d Hd).
    pose proof (P3 Night d Hd). lra. }
  assert (HSW : (0 <= SW)%Q).
  { apply lpSum_nonneg. intros d Hd. apply weekend_in_range in Hd.
    unfold Coating_PS.all_shifts, Coating_PS.M_solution, Coating_PS.E_solution,
      Coating_PS.N_solution, Coating_PS.M_bosch, Coating_PS.E_bosch,
      Coating_PS.N_bosch, Coating_PS.M_glatt, Coating_PS.E_glatt, Coating_PS.N_glatt.
    pose proof (P1 Morning d Hd). pose proof (P2 Morning d Hd).
    pose proof (P3 Morning d Hd). pose proof (P1 Evening d Hd).
    pose proof (P2 Evening d Hd). pose proof (P3 Evening d Hd).
    pose proof (P1 Night d Hd). pose proof (P2 Night d Hd).
    pose proof (P3 Night d Hd). lra. }
  assert (HSD : (0 <= SD)%Q) by (apply lpSum_nonneg; exact Hdpos).
  pose proof (Qmult_le_0_compat _ _ Hwm HSM) as T2.
  pose proof (Qmult_le_0_compat _ _ Hwe HSE) as T3.
  pose proof (Qmult_le_0_compat _ _ Hwn HSN) as T4.
  pose proof (Qmult_le_0_compat _ _ Hww HSW) as T5.
  set (t1 := (w_staff w * a Staff)%Q) in *.
  set (t2 := (w_morning w * SM)%Q) in *.
  set (t3 := (w_evening w * SE)%Q) in *.
  set (t4 := (w_night w * SN)%Q) in *.
  set (t5 := (w_weekend w * SW)%Q) in *.
  set (t6 := (w_daysUsed w * SD)%Q) in *.
  split; [exact Hspos|]. split; [exact HSD|]. lra.
Qed.

(** X17: with nothing demanded, a solver that keeps its contract, reports
    the model optimal and returns a least-cost schedule for it makes
    Coating return the result with no shift of any process, nothing
    produced, no staff and no day used, as soon as a coating machine is
    enabled, staff and used days cost something and no weight is
    negative. *)
Theorem coating_zero_demand :
  forall (CBC : Solver) B n ub ug br w p,
    sound CBC ->
    optimal_on CBC (Coating_PS.model ub ug B n w) ->
    status (CBC (Coating_PS.model ub ug B n w)) = LpStatusOptimal ->
    (ub || ug) = true ->
    B <= 0 -> 0 <= n ->
    (0 < w_staff w)%Q -> (0 < w_daysUsed w)%Q ->
    (0 <= w_morning w)%Q -> (0 <= w_evening w)%Q ->
    (0 <= w_night w)%Q -> (0 <= w_weekend w)%Q ->
    let none :=
      {| Coating_PS.Solution := 0; Coating_PS.BOSCH := 0; Coating_PS.GLATT := 0 |} in
    exists r,
      fst (Coating_PS.optimize_coating CBC B n ub ug br w p) = Some r
      /\ Coating_PS.morning_shifts r = none
      /\ Coating_PS.evening_shifts r = none
      /\ Coating_PS.night_shifts r = none
      /\ Coating_PS.total_solution_produced r = 0
      /\ Coating_PS.total_coating_produced r = 0
      /\ Coating_PS.final_batches_count r = 0
      /\ Coating_PS.min_staff_required r = 0
      /\ Coating_PS.staff_with_buffer r = 0
      /\ Coating_PS.days_used r = 0.
Proof.
  intros CBC B n ub ug br w p Hsound Hoptimal Hstatus Hu HB Hn
    Hws Hwd Hwm Hwe Hwn Hww none.
  destruct (fst (Coating_PS.optimize_coating CBC B n ub ug br w p)) as [r|] eqn:Hr.
  2:{ exfalso.
      assert (Hsome : fst (Coating_PS.optimize_coating CBC B n ub ug br w p) <> None).
      { apply coating_feasible_iff. split; [exact Hu|].
        split; [apply Z.ltb_ge; lia|]. split; [|exact Hstatus].
        apply Z.ltb_ge. destruct ub, ug; cbn [yield]; lia. }
      congruence. }
  exists r. split; [reflexivity|].
  pose proof (coating_fields CBC B n ub ug br w p r Hr) as Hfields.
  pose proof (coating_success CBC B n ub ug br w p r Hr) as Hsucc.
  cbv zeta in Hfields, Hsucc.
  destruct Hfields as (HS & HSB & Hdu & _).
  destruct Hsucc as (_ & Hm & He & Hnight & Hts & Htc & Hfinal).
  set (v := varValue (CBC (Coating_PS.model ub ug B n w))) in *.
  assert (Hf : feasible (Coating_PS.model ub ug B n w) v = true)
    by (apply Hsound; exact Hstatus).
  (* the cost of the values returned is at most that of the empty schedule *)
  pose proof (Hoptimal Examples.empty_schedule Hstatus
                (coating_empty_feasible ub ug B n w HB)) as Hcost.
  cbn [objective Coating_PS.model] in Hcost.
  rewrite coating_empty_objective in Hcost. fold v in Hcost.
  destruct (coating_cost_bound ub ug B n w v Hf Hwm Hwe Hwn Hww)
    as (Hspos & HSD & Hbound).
  set (SD := lpSum (map (fun d => v (dayUsed d)) (Py.range n))) in *.
  pose proof (Qmult_le_0_compat _ _ (Qlt_le_weak _ _ Hws) Hspos) as T1.
  pose proof (Qmult_le_0_compat _ _ (Qlt_le_weak _ _ Hwd) HSD) as T6.
  assert (Ht1 : (w_staff w * v Staff <= 0)%Q) by lra.
  assert (Ht6 : (w_daysUsed w * SD <= 0)%Q) by lra.
  pose proof (product_zero _ _ Hws Hspos Ht1) as Hstaff0.
  pose proof (product_zero _ _ Hwd HSD Ht6) as Hdays0.
  assert (Hmin : Py.int (v Staff) = 0) by (apply int_of_integer; exact Hstaff0).
  assert (Hused : Py.sum (map (fun d => Py.int (v (dayUsed d))) (Py.range n)) = 0).
  { apply inject_Z_injective. subst SD.
    rewrite <- (lpSum_integral (fun d => v (dayUsed d))); [exact Hdays0|].
    intros d Hd. apply binary_value. apply (feasible_domain _ _ _ Hf).
    apply coat_dayUsed_declared. exact Hd. }
  pose proof (coat_solution_lhs ub ug B n w v Hf) as Hsol. cbv beta zeta in Hsol.
  pose proof (coat_coating_lhs ub ug B n w v Hf) as Hcoat. cbv beta zeta in Hcoat.
  rewrite (int_of_integer _ _ Hsol) in Hts.
  rewrite (int_of_integer _ _ Hcoat) in Htc.
  clear Hsol Hcoat.
  destruct (coating_schedule_bounds ub ug B n w v Hf) as (_ & _ & _ & _ & Hz & _).
  cbv beta zeta in Hz.
  assert (H1 : In (solution, true) (coat_processes ub ug)) by (left; reflexivity).
  assert (H2 : In (bosch, ub) (coat_processes ub ug)) by (right; left; reflexivity).
  assert (H3 : In (glatt, ug) (coat_processes ub ug)) by (right; right; left; reflexivity).
  assert (Hlt : Py.int (v Staff) < 2) by lia.
  rewrite Hfinal, Hm, He, Hnight, Hts, Htc, HS, HSB, Hdu, Hmin, Hused, with_buffer_zero.
  rewrite !(Hz Hlt _ _ _ H1), !(Hz Hlt _ _ _ H2), !(Hz Hlt _ _ _ H3).
  repeat split; reflexivity.
Qed.

Lemma coating_zero_demand_witness :
  let none :=
    {| Coating_PS.Solution := 0; Coating_PS.BOSCH := 0; Coating_PS.GLATT := 0 |} in
  exists r,
    fst (Coating_PS.optimize_coating (Examples.proposes Examples.empty_schedule)
           0 7 true true 0 Examples.weights false) = Some r
    /\ Coating_PS.morning_shifts r = none
    /\ Coating_PS.evening_shifts r = none
    /\ Coating_PS.night_shifts r = none
    /\ Coating_PS.total_solution_produced r = 0
    /\ Coating_PS.total_coating_produced r = 0
    /\ Coating_PS.final_batches_count r = 0
    /\ Coating_PS.min_staff_required r = 0
    /\ Coating_PS.staff_with_buffer r = 0
    /\ Coating_PS.days_used r = 0.
Proof.
  assert (Hfe : feasible (Coating_PS.model true true 0 7 Examples.weights)
                  Examples.empty_schedule = true)
    by (apply coating_empty_feasible; lia).
  apply (coating_zero_demand (Examples.proposes Examples.empty_schedule)
           0 7 true true 0 Examples.weights false).
  - apply proposes_sound.
  - intros a _ Ha. cbn [objective Coating_PS.model].
    unfold Examples.proposes at 1. rewrite Hfe.
    cbn [varValue]. rewrite coating_empty_objective.
    destruct (coating_cost_bound true true 0 7 Examples.weights a Ha)
      as (Hs & Hd & Hb);
      try (cbn [Examples.weights w_morning w_evening w_night w_weekend]; lra).
    cbn [Examples.weights w_staff w_daysUsed] in Hb.
    set (SD := lpSum _) in *. lra.
  - unfold Examples.proposes. rewrite Hfe. reflexivity.
  - reflexivity.
  - lia.
  - lia.
  - cbn [Examples.weights w_staff]; lra.
  - cbn [Examples.weights w_daysUsed]; lra.
  - cbn [Examples.weights w_morning]; lra.
  - cbn [Examples.weights w_evening]; lra.
  - cbn [Examples.weights w_night]; lra.
  - cbn [Examples.weights w_weekend]; lra.
Defined.

End NoDemand.

(** ** A model that is not reported optimal, and the number of probes *)

Section NotOptimal.
Import pulp.

(** After the capacity check has passed no more days are needed. *)
Lemma no_more_days (cap B n : Z) :
  0 < cap -> (cap * n <? B) = false ->
  (0 <? Z.max 0 (days_for B cap - n)) = false.
Proof.
  intros Hcap Hpre. apply Z.ltb_ge in Hpre.
  assert (days_for B cap <= n) by (apply days_for_le; [exact Hcap | lia]).
  apply Z.ltb_ge. lia.
Qed.

Lemma status_string_not_optimal (st : LpStatusT) :
  st <> LpStatusOptimal -> Py.neb (Py.Str (LpStatus st)) (Py.Str "Optimal") = true.
Proof. destruct st; intros H; try reflexivity. congruence. Qed.

Lemma dispensing_not_optimal (SI : Solver) B n br w p solver :
  (9 * n <? B) = false ->
  let used := match solver with Some s => s | None => SI end in
  Dispensing_PS.optimize_dispensing SI B n br w p solver
  = (None,
     not_optimal_log "DispensingSchedule"
       (Py.Int (status_code (status (used (Dispensing_PS.model B n w))))) p).
Proof.
  intros Hpre used. unfold Dispensing_PS.optimize_dispensing, not_optimal_log.
  rewrite Hpre. cbv zeta.
  unfold bind, new_problem, solve. cbn [name Dispensing_PS.model].
  change (Py.neb (Py.Int ?z) (Py.Str ?s)) with true. cbv iota.
  rewrite (no_more_days 9 B n ltac:(lia) Hpre).
  destruct p; reflexivity.
Qed.

Lemma granulation_not_optimal (SI : Solver) B n br w p solver :
  (9 * n <? B) = false ->
  let used := match solver with Some s => s | None => SI end in
  status (used (Granulation_PS.model B n w)) <> LpStatusOptimal ->
  Granulation_PS.optimize_granulation SI B n br w p solver
  = (None,
     not_optimal_log "GranulationSchedule"
       (Py.Str (LpStatus (status (used (Granulation_PS.model B n w))))) p).
Proof.
  intros Hpre used Hst. unfold Granulation_PS.optimize_granulation, not_optimal_log.
  rewrite Hpre. cbv zeta.
  unfold bind, new_problem, solve. cbn [name Granulation_PS.model fst snd].
  fold used. rewrite (status_string_not_optimal _ Hst).
  rewrite (no_more_days 9 B n ltac:(lia) Hpre).
  destruct p; reflexivity.
Qed.

Lemma tableting_not_optimal (TS : Solver) B n u1 u2 u3 br w p :
  (u1 || u2 || u3) = true ->
  ((yield u1 1 + yield u2 2 + yield u3 1) * 3 * n <? B) = false ->
  status (TS (Tab_PS.model u1 u2 u3 B n w)) <> LpStatusOptimal ->
  Tab_PS.optimize_tableting TS B n u1 u2 u3 br w p
  = (None,
     not_optimal_log "TabletingSchedule"
       (Py.Str (LpStatus (status (TS (Tab_PS.model u1 u2 u3 B n w))))) p).
Proof.
  intros Hu Hpre Hst. unfold Tab_PS.optimize_tableting, not_optimal_log.
  destruct u1, u2, u3; try discriminate; cbn [yield] in Hpre;
    fold_capacity n; fold_zero_test;
    match type of Hpre with
    | (?c * n <? B) = false =>
        let v := eval vm_compute in c in
        change c with v in Hpre;
        rewrite Hpre;
        unfold bind, new_problem, solve; cbn [name Tab_PS.model fst snd];
        rewrite (status_string_not_optimal _ Hst);
        rewrite (no_more_days v B n ltac:(lia) Hpre)
    end;
    destruct p; reflexivity.
Qed.

Lemma coating_not_optimal (CBC : Solver) B n ub ug br w p :
  (ub || ug) = true ->
  (12 * n <? B) = false ->
  ((yield ub 2 + yield ug 2) * 3 * n <? B) = false ->
  status (CBC (Coating_PS.model ub ug B n w)) <> LpStatusOptimal ->
  Coating_PS.optimize_coating CBC B n ub ug br w p
  = (None,
     not_optimal_log "CoatingSchedule"
       (Py.Str (LpStatus (status (CBC (Coating_PS.model ub ug B n w))))) p).
Proof.
  intros Hu Hsol Hpre Hst. unfold Coating_PS.optimize_coating, not_optimal_log.
  pose proof (no_more_days 12 B n ltac:(lia) Hsol) as Hs0.
  apply Z.ltb_ge in Hs0.
  destruct ub, ug; try discriminate; cbn [yield] in Hpre;
    fold_capacity n; fold_zero_test;
    match type of Hpre with
    | (?c * n <? B) = false =>
        let v := eval vm_compute in c in
        change c with v in Hpre;
        rewrite Hsol, ?Hpre;
        unfold bind, new_problem, solve; cbn [name Coating_PS.model fst snd];
        rewrite (status_string_not_optimal _ Hst);
        pose proof (no_more_days v B n ltac:(lia) Hpre) as Hc0;
        apply Z.ltb_ge in Hc0;
        assert (Hnone : (0 <? Z.max 0 (Z.max (days_for B 12) (days_for B v) - n))
                        = false) by (apply Z.ltb_ge; lia);
        rewrite Hnone
    end;
    destruct p; reflexivity.
Qed.

(** X18: when the capacity check has passed and the model is not reported
    optimal, a stage solve returns [None] having built the model, called
    the solver and printed at most the line that shows the status: the
    two lines that would tell how many more days are needed are never
    printed, because after the capacity check that number is always 0.
    Dispensing, which takes this path whatever the solver answers,
    shows the integer it compared. *)
Theorem days_hint_is_never_printed :
  forall (SI TS CBC : Solver) B n br w p solver u1 u2 u3 ub ug,
    let used := match solver with Some s => s | None => SI end in
    ((9 * n <? B) = false ->
     Dispensing_PS.optimize_dispensing SI B n br w p solver
     = (None,
        not_optimal_log "DispensingSchedule"
          (Py.Int (status_code (status (used (Dispensing_PS.model B n w))))) p))
    /\ ((9 * n <? B) = false ->
        status (used (Granulation_PS.model B n w)) <> LpStatusOptimal ->
        Granulation_PS.optimize_granulation SI B n br w p solver
        = (None,
           not_optimal_log "GranulationSchedule"
             (Py.Str (LpStatus (status (used (Granulation_PS.model B n w))))) p))
    /\ ((u1 || u2 || u3) = true ->
        ((yield u1 1 + yield u2 2 + yield u3 1) * 3 * n <? B) = false ->
        status (TS (Tab_PS.model u1 u2 u3 B n w)) <> LpStatusOptimal ->
        Tab_PS.optimize_tableting TS B n u1 u2 u3 br w p
        = (None,
           not_optimal_log "TabletingSchedule"
             (Py.Str (LpStatus (status (TS (Tab_PS.model u1 u2 u3 B n w))))) p))
    /\ ((ub || ug) = true ->
        (12 * n <? B) = false ->
        ((yield ub 2 + yield ug 2) * 3 * n <? B) = false ->
        status (CBC (Coating_PS.model ub ug B n w)) <> LpStatusOptimal ->
        Coating_PS.optimize_coating CBC B n ub ug br w p
        = (None,
           not_optimal_log "CoatingSchedule"
             (Py.Str (LpStatus (status (CBC (Coating_PS.model ub ug B n w))))) p)).
Proof.
  intros SI TS CBC B n br w p solver u1 u2 u3 ub ug used.
  split; [|split; [|split]].
  - intros Hpre. apply dispensing_not_optimal. exact Hpre.
  - intros Hpre Hst. apply granulation_not_optimal; assumption.
  - intros Hu Hpre Hst. apply tableting_not_optimal; assumption.
  - intros Hu Hsol Hpre Hst. apply coating_not_optimal; assumption.
Qed.

Lemma days_hint_is_never_printed_witness :
  Granulation_PS.optimize_granulation Examples.gives_up 9 1 0 Examples.weights true None
  = (None, not_optimal_log "GranulationSchedule" (Py.Str "Not Solved") true).
Proof.
  apply (proj1 (proj2 (days_hint_is_never_printed
                         Examples.gives_up Examples.gives_up Examples.gives_up
                         9 1 0 Examples.weights true None
                         true true true true true))).
  - reflexivity.
  - discriminate.
Defined.

End NotOptimal.

Section ProbeCount.
Import Formulation_PS.

Lemma bisection_length (P : Z -> Z -> Run (option CombinedResult)) (n : Z) :
  forall lo hi ps, bisection P n lo hi ps ->
  forall k, 0 <= k -> hi - lo + 1 < 2 ^ k -> Z.of_nat (List.length ps) <= k.
Proof.
  induction 1 as [lo hi | lo hi r ps Hle Hp Hb IH | lo hi ps Hle Hp Hb IH];
    intros k Hk Hsize.
  - cbn. exact Hk.
  - assert (Hpos : 0 < k).
    { destruct (Z.eq_dec k 0) as [->|]; [cbn in Hsize; lia | lia]. }
    destruct (halving lo hi k Hle Hpos Hsize) as [Hup _].
    specialize (IH (k - 1) ltac:(lia) Hup).
    cbn [List.length]. lia.
  - assert (Hpos : 0 < k).
    { destruct (Z.eq_dec k 0) as [->|]; [cbn in Hsize; lia | lia]. }
    destruct (halving lo hi k Hle Hpos Hsize) as [_ Hdown].
    specialize (IH (k - 1) ltac:(lia) Hdown).
    cbn [List.length]. lia.
Qed.

Variable D : Z -> Z -> Q -> Weights -> bool -> option pulp.Solver -> Run (option StageResult).
Variable G : Z -> Z -> Q -> Weights -> bool -> option pulp.Solver -> Run (option StageResult).
Variable T : Z -> Z -> bool -> bool -> bool -> Q -> Weights -> bool
             -> Run (option Tab_PS.TabResult).
Variable C : Z -> Z -> bool -> bool -> Q -> Weights -> bool
             -> Run (option Coating_PS.CoatResult).

(** X19: the throughput search runs the aggregator at most
    [log2 (num_workdays * 27) + 1] times, however large [max_iterations]
    is: 10 times for a horizon of 30 days. *)
Theorem max_batches_probes_logarithmic :
  forall num_workdays buffer_ratio w t max_iterations print_solution,
    let P := probe D G T C buffer_ratio w t in
    exists (ps : list Z) (out : option CombinedResult) (printed : list event),
      optimize_max_batches D G T C num_workdays buffer_ratio w t max_iterations
        print_solution
      = (Returned out, probes_log P num_workdays ps ++ printed)
      /\ no_model printed = true
      /\ Z.of_nat (List.length ps) <= Z.log2 (num_workdays * 27) + 1.
Proof.
  intros num_workdays buffer_ratio w t max_iterations print_solution P.
  unfold optimize_max_batches. fold P.
  destruct (search_loop_spec P num_workdays (Z.to_nat max_iterations) max_iterations
              (initial_state num_workdays))
    as (ps & s' & Heq & Hb & _); [cbn; lia|].
  cbn [initial_state search.lower_bound search.upper_bound] in Hb.
  rewrite Heq, bind_pair.
  assert (Hlen : Z.of_nat (List.length ps) <= Z.log2 (num_workdays * 27) + 1).
  { apply (bisection_length P num_workdays _ _ _ Hb).
    - pose proof (Z.log2_nonneg (num_workdays * 27)). lia.
    - replace (num_workdays * 27 - 1 + 1) with (num_workdays * 27) by lia.
      destruct (Z_lt_le_dec 0 (num_workdays * 27)) as [Hpos|Hneg].
      + apply Z.log2_spec in Hpos. unfold Z.succ in Hpos. lia.
      + pose proof (Z.log2_nonneg (num_workdays * 27)).
        assert (0 < 2 ^ (Z.log2 (num_workdays * 27) + 1))
          by (apply Z.pow_pos_nonneg; lia).
        lia. }
  destruct (search.max_feasible_result s') as [r|].
  - eexists ps, _, _. rewrite fst_bind, snd_bind. cbn [fst snd ret]. rewrite app_nil_r.
    split; [reflexivity|].
    split; [destruct print_solution; cbn [when snd prints ret no_model forallb];
            [apply no_model_prints | reflexivity]|].
    exact Hlen.
  - eexists ps, _, _. rewrite fst_bind, snd_bind. cbn [fst snd ret]. rewrite app_nil_r.
    split; [reflexivity|].
    split; [destruct print_solution; reflexivity|].
    exact Hlen.
Qed.

End ProbeCount.
